(** * SmartRent backend: the payment lifecycle and reconciliation subsystem

    A shallow embedding of [src/services/payment.service.js] (the
    [PaymentService] class) and of the two versions of
    [src/routes/payments.js] (the lease-keyed routes and the
    tenant/property-keyed routes), followed by the properties of the
    payment state machine.

    Conventions of the embedding.
    - The Firestore collection [payments] is a finite map from document id
      to document; a query snapshot is the list of matching documents, in
      ascending order of their ids. The collections the payment code only
      reads ([leases], [users], [properties]) are read through a lookup
      that finds the document, finds none, or throws.
    - JavaScript numbers are IEEE 754 binary64 values ([spec_float] with
      53 bits of precision), so that [NaN] and rounding are the real ones.
    - A route handler is a function from the request, the verified identity
      and the state of the collaborators to a [Result]: the HTTP response,
      the collection after the request, and the calls made to the payment
      processor. An exception caught by the handler's [try]/[catch] is a
      [None] in the model and ends in the handler's 500 response.
    - What the source takes from the outside world (the auto-generated
      document id, [new Date()], the answers of the payment processor) is
      an argument of the handler. *)

From Stdlib Require Import ZArith Ascii String.
From Stdlib Require Import Floats.SpecFloat.
From stdpp Require Import base option list sorting gmap strings.

Local Open Scope string_scope.

(** ** JavaScript values *)

Module JS.

(** The binary64 format. *)
Definition prec : Z := 53.
Definition emax : Z := 1024.

Definition number := spec_float.

Definition NaN : number := S754_nan.
Definition of_Z (n : Z) : number := binary_normalize prec emax n 0 false.
Definition zero : number := S754_zero false.

Definition add : number -> number -> number := SFadd prec emax.
Definition mul : number -> number -> number := SFmul prec emax.

(** [x <= y] and [x > y] on numbers; both are false on [NaN]. *)
Definition le (x y : number) : bool := SFleb x y.
Definition gt (x y : number) : bool := SFltb y x.

(** [ToBoolean] on a number: [0], [-0] and [NaN] are falsy. *)
Definition truthy_number (x : number) : bool :=
  match x with
  | S754_zero _ | S754_nan => false
  | _ => true
  end.

(** [ToNumber] on a possibly missing numeric field: [undefined] becomes
    [NaN]. *)
Definition to_number (x : option number) : number :=
  match x with
  | Some v => v
  | None => NaN
  end.

(** [x || y] on numeric fields that may be [undefined]. *)
Definition or_else (x : option number) (y : number) : number :=
  match x with
  | Some v => if truthy_number v then v else y
  | None => y
  end.

(** [parseFloat] applied to a number: the number is printed and read back,
    which only changes the sign of [-0]. *)
Definition parseFloat (x : number) : number :=
  match x with
  | S754_zero _ => zero
  | _ => x
  end.

(** [Math.round]: the nearest integer, ties towards plus infinity; the
    result keeps the sign of the argument when it is zero. *)
Definition Math_round (x : number) : number :=
  match x with
  | S754_finite s m e =>
      let sm := cond_Zopp s (Zpos m) in
      let n :=
        if (0 <=? e)%Z then (sm * 2 ^ e)%Z
        else ((2 * sm + 2 ^ (- e)) / (2 * 2 ^ (- e)))%Z in
      if (n =? 0)%Z then S754_zero s else of_Z n
  | _ => x
  end.

(** [ToBoolean] on a string that may be [undefined] or [null]. *)
Definition truthy_string (s : option string) : bool :=
  match s with
  | Some (String _ _) => true
  | _ => false
  end.

(** An argument of string type as JavaScript passes it: a missing argument
    is [undefined]. *)
Inductive value :=
| undefined
| str (s : string).

Definition is_digit (c : ascii) : bool :=
  (48 <=? nat_of_ascii c)%nat && (nat_of_ascii c <=? 57)%nat.

(** [/^\d{4}-\d{2}$/.test(s)] *)
Definition period_regex_test (s : string) : bool :=
  match s with
  | String y1 (String y2 (String y3 (String y4
      (String dash (String m1 (String m2 EmptyString)))))) =>
      is_digit y1 && is_digit y2 && is_digit y3 && is_digit y4 &&
      bool_decide (dash = "-"%char) && is_digit m1 && is_digit m2
  | _ => false
  end.

End JS.

(** ** The payment document *)

Inductive Status := pending | paid | failed | cancelled.

#[global] Instance Status_eq_dec : EqDecision Status.
Proof. solve_decision. Defined.

(** The fields a route hands to [PaymentService.create]. The lease-keyed
    route fills [leaseId], [amount] and [type]; the tenant/property-keyed
    route fills [totalAmount], its three components, [description] and
    [isFirstPayment]. A field the route does not write is absent from the
    stored object ([None]). *)
Record PaymentData := {
  leaseId : option string;
  tenantId : string;
  landlordId : string;
  propertyId : string;
  amount : option JS.number;
  totalAmount : option JS.number;
  rentAmount : option JS.number;
  utilitiesAmount : option JS.number;
  depositAmount : option JS.number;
  currency : string;
  type : option string;
  period : string;
  description : option string;
  isFirstPayment : option bool;
}.

(** A stored payment: the data of the request and the lifecycle fields that
    [PaymentService.create] adds. [null] is [None]. A time is the instant
    it denotes, in milliseconds since the epoch, whatever carries it: a
    [Date] in an object the service has just built, a timestamp in a
    document read back from the store. *)
Record Payment := {
  data : PaymentData;
  status : Status;
  stripePaymentIntentId : option string;
  stripeChargeId : option string;
  createdAt : Z;
  paidAt : option Z;
}.

Definition set_status (s : Status) (p : Payment) : Payment :=
  {| data := data p; status := s;
     stripePaymentIntentId := stripePaymentIntentId p;
     stripeChargeId := stripeChargeId p;
     createdAt := createdAt p; paidAt := paidAt p |}.

Definition set_stripeChargeId (c : option string) (p : Payment) : Payment :=
  {| data := data p; status := status p;
     stripePaymentIntentId := stripePaymentIntentId p;
     stripeChargeId := c;
     createdAt := createdAt p; paidAt := paidAt p |}.

Definition set_paidAt (t : option Z) (p : Payment) : Payment :=
  {| data := data p; status := status p;
     stripePaymentIntentId := stripePaymentIntentId p;
     stripeChargeId := stripeChargeId p;
     createdAt := createdAt p; paidAt := t |}.

Definition set_stripePaymentIntentId (i : option string) (p : Payment) : Payment :=
  {| data := data p; status := status p;
     stripePaymentIntentId := i;
     stripeChargeId := stripeChargeId p;
     createdAt := createdAt p; paidAt := paidAt p |}.

(** The [payments] collection. *)
Abbreviation Store := (gmap string Payment).

(** ** The document store

    The part of the Firestore client the payment code uses: equality and
    [in] filters chained on a collection, [limit], [get], and [update] of
    one document. *)

Module Firestore.

(** What the client does with a filter whose value is [undefined]: [None]
    when it rejects the query with an exception, which is what the Firestore
    client does unless it has been set up to ignore undefined properties
    (the payment code takes the client from [getFirestore()] and sets
    nothing up); [Some b] when it runs the query and the filter lets a
    document through exactly when [b] holds. *)
Class Client := { where_undefined : option bool }.

(** [collection(name).doc(id).get()] on a collection the payment code only
    reads: [None] when the call throws (the client does not take [id] for
    the path of a document, or the read fails), [Some None] for a snapshot
    whose [exists] is false, [Some (Some d)] for a snapshot with the data
    [d]. *)
Definition Lookup (A : Type) : Type := string -> option (option A).

Inductive Field := f_leaseId | f_tenantId | f_landlordId | f_propertyId | f_period.

Definition field (f : Field) (p : Payment) : option string :=
  match f with
  | f_leaseId => leaseId (data p)
  | f_tenantId => Some (tenantId (data p))
  | f_landlordId => Some (landlordId (data p))
  | f_propertyId => Some (propertyId (data p))
  | f_period => Some (period (data p))
  end.

Inductive Filter :=
| where_eq (f : Field) (v : JS.value)
| where_status_in (l : list Status).

Definition accepted `{Client} (fl : Filter) : bool :=
  match fl with
  | where_eq _ JS.undefined => bool_decide (is_Some where_undefined)
  | _ => true
  end.

Definition matches `{Client} (p : Payment) (fl : Filter) : bool :=
  match fl with
  | where_eq f (JS.str v) => bool_decide (field f p = Some v)
  | where_eq f JS.undefined => default false where_undefined
  | where_status_in l => bool_decide (status p ∈ l)
  end.

(** Document ids are ordered as strings, byte by byte. *)
Definition id_le (d1 d2 : string * Payment) : Prop :=
  String.leb (fst d1) (fst d2) = true.

#[global] Instance id_le_dec (d1 d2 : string * Payment) : Decision (id_le d1 d2).
Proof. unfold id_le. apply _. Defined.

(** The documents of the collection in the order a query without [orderBy]
    lists them: ascending by id. *)
Definition docs (store : Store) : list (string * Payment) :=
  merge_sort id_le (map_to_list store).

(** [collection.where(..)...get()]: the snapshot's documents, or [None]
    when the client throws. *)
Definition get `{Client} (fs : list Filter) (store : Store)
  : option (list (string * Payment)) :=
  if forallb accepted fs
  then Some (List.filter (fun d => forallb (matches (snd d)) fs) (docs store))
  else None.

Definition limit {A} (n : nat) (docs : list A) : list A := take n docs.

(** [snap.empty] *)
Definition empty {A} (docs : list A) : bool :=
  match docs with
  | [] => true
  | _ => false
  end.

(** [doc(id).update(f)]: throws when the path is empty or the document
    does not exist. *)
Definition update (id : string) (f : Payment -> Payment) (store : Store)
  : option Store :=
  match id with
  | EmptyString => None
  | _ =>
      match store !! id with
      | Some p => Some (<[id := f p]> store)
      | None => None
      end
  end.

End Firestore.

(** ** [PaymentService] (src/services/payment.service.js) *)

Module PaymentService.

Import Firestore.

(** [create(paymentData)]: [newId] is the id of the document reference
    [doc()] makes, [now] is [new Date()]. Returns the created payment with
    its id; the object returned and the document stored carry the same
    instant as [createdAt]. *)
Definition create (newId : string) (now : Z) (paymentData : PaymentData)
    (store : Store) : (string * Payment) * Store :=
  let payment :=
    {| data := paymentData;
       status := pending;
       stripePaymentIntentId := None;
       stripeChargeId := None;
       createdAt := now;
       paidAt := None |} in
  ((newId, payment), <[newId := payment]> store).

(** [getById(paymentId)]: the document stored under [paymentId], [null]
    when there is none. The ids of the collection are its keys, so a stored
    payment is found under its id; the exception the client raises for a
    [paymentId] that is not the path of a document is not modelled. *)
Definition getById (paymentId : string) (store : Store) : option Payment :=
  store !! paymentId.

(** [existsForPeriod(tenantId, propertyId, period)] *)
Definition existsForPeriod `{Client} (tenantId propertyId period : JS.value)
    (store : Store) : option bool :=
  snap ← get [where_eq f_tenantId tenantId;
              where_eq f_propertyId propertyId;
              where_eq f_period period;
              where_status_in [pending; paid]] store;
  Some (negb (empty (limit 1 snap))).

(** The [extraData] argument of [updateStatus]: the default [{}] or
    [{ stripeChargeId }]. *)
Inductive ExtraData :=
| no_extra
| with_charge (stripeChargeId : option string).

Definition spread (extraData : ExtraData) (p : Payment) : Payment :=
  match extraData with
  | no_extra => p
  | with_charge c => set_stripeChargeId c p
  end.

(** [updateStatus(paymentId, status, extraData = {})] *)
Definition updateStatus (now : Z) (paymentId : string) (st : Status)
    (extraData : ExtraData) (store : Store) : option Store :=
  let updateData p :=
    let p := spread extraData (set_status st p) in
    if decide (st = paid) then set_paidAt (Some now) p else p in
  update paymentId updateData store.

Definition updateStripeIntentId (paymentId : string) (intentId : string)
    (store : Store) : option Store :=
  update paymentId (set_stripePaymentIntentId (Some intentId)) store.

(** The statistics [getLandlordStats] returns. The counts [pending], [paid]
    and [failed] of the source are [pendingCount], [paidCount] and
    [failedCount] here, the short names being the statuses.
    ([thisMonthRevenue], which depends on the calendar month of the server's
    clock, is left out.) *)
Record Stats := {
  total : nat;
  pendingCount : nat;
  paidCount : nat;
  failedCount : nat;
  totalRevenue : JS.number;
  pendingAmount : JS.number;
}.

Definition has_status (s : Status) (p : Payment) : bool :=
  bool_decide (status p = s).

(** [.reduce((sum, p) => sum + p.totalAmount, 0)] *)
Definition sum_totalAmount (payments : list Payment) : JS.number :=
  fold_left (fun sum p => JS.add sum (JS.to_number (totalAmount (data p))))
    payments JS.zero.

Definition getLandlordStats `{Client} (landlordId : string) (store : Store)
  : option Stats :=
  snap ← get [where_eq f_landlordId (JS.str landlordId)] store;
  let payments := map snd snap in
  Some {| total := length payments;
          pendingCount := length (List.filter (has_status pending) payments);
          paidCount := length (List.filter (has_status paid) payments);
          failedCount := length (List.filter (has_status failed) payments);
          totalRevenue := sum_totalAmount (List.filter (has_status paid) payments);
          pendingAmount := sum_totalAmount (List.filter (has_status pending) payments) |}.

End PaymentService.

(** ** The payment processor

    The part of the Stripe client the routes use. The client is not part of
    the repository: its answers are arguments of the handlers. *)

Module Stripe.

(** A payment intent as the routes read it. [status] is the processor's own
    status string (["succeeded"], ["canceled"], ["requires_payment_method"],
    ...); [charges] lists the ids of [charges.data] and is empty when the
    intent carries no charge. *)
Record PaymentIntent := {
  id : string;
  status : string;
  client_secret : string;
  amount : JS.number;
  metadata : list (string * string);
  charges : list string;
}.

(** The argument of [paymentIntents.create]. *)
Record CreateParams := {
  create_amount : JS.number;
  create_currency : string;
  create_metadata : list (string * string);
  automatic_payment_methods : bool;
}.

(** [paymentIntents.create] and [paymentIntents.retrieve]; [None] when the
    call throws. *)
Record Api := {
  paymentIntents_create : CreateParams -> option PaymentIntent;
  paymentIntents_retrieve : string -> option PaymentIntent;
}.

Inductive Call :=
| called_create (params : CreateParams)
| called_retrieve (intentId : string).

Record Event := {
  event_type : string;
  object : PaymentIntent;
}.

(** [webhooks.constructEvent(rawBody, signatureHeader, secret)] checks the
    signature of the payload against the secret and parses it; it throws an
    error with a message when the signature does not verify. *)
Inductive Constructed :=
| signature_error (message : string)
| verified (event : Event).

Class Webhooks := {
  constructEvent : string -> option string -> option string -> Constructed
}.

(** [metadata.paymentId] *)
Fixpoint metadata_get (key : string) (md : list (string * string)) : option string :=
  match md with
  | [] => None
  | (k, v) :: rest => if decide (k = key) then Some v else metadata_get key rest
  end.

(** The id of [charges.data[0]] when there is one, [null] otherwise. *)
Definition first_charge (intent : PaymentIntent) : option string :=
  head (charges intent).

End Stripe.

(** ** HTTP responses *)

Inductive Body :=
| json_error (error : string)
| send_text (text : string)
| json_intent_created (paymentId clientSecret : string)
| json_request_created (paymentId message : string) (payment : Payment)
| json_client_secret (clientSecret paymentIntentId : string)
| json_sync (message : string) (st : Status) (synced : bool)
| json_message (message : string)
| json_received (received : bool).

Record Response := {
  code : nat;
  body : Body;
}.

(** [res.status(c).json({ error })] and [res.json(b)]. *)
Definition error (c : nat) (msg : string) : Response :=
  {| code := c; body := json_error msg |}.
Definition ok (b : Body) : Response := {| code := 200; body := b |}.

(** What a request leaves behind. *)
Record Result := {
  response : Response;
  store : Store;
  calls : list Stripe.Call;
}.

Definition respond (r : Response) (st : Store) (cs : list Stripe.Call) : Result :=
  {| response := r; store := st; calls := cs |}.

(** ** Handlers both versions of src/routes/payments.js share

    [POST /sync/:paymentId] (lines 161-230 and 657-725) and [POST /webhook]
    (lines 330-383 and 788-839) are the same code in the two versions. *)

Module Routes.

Import PaymentService.

(** [POST /payments/sync/:paymentId] (lines 161-230 and 657-725) *)
Definition post_sync (stripe : Stripe.Api) (now : Z) (userId paymentId : string)
    (db : Store) : Result :=
  match getById paymentId db with
  | None => respond (error 404 "Payment not found") db []
  | Some payment =>
      if bool_decide (tenantId (data payment) ≠ userId)
         && bool_decide (landlordId (data payment) ≠ userId)
      then respond (error 403 "Unauthorized") db []
      else if negb (JS.truthy_string (stripePaymentIntentId payment))
      then respond (error 400 "No Stripe payment intent found") db []
      else
        let intentId := default "" (stripePaymentIntentId payment) in
        let cs := [Stripe.called_retrieve intentId] in
        match Stripe.paymentIntents_retrieve stripe intentId with
        | None => respond (error 500 "Failed to sync payment") db cs
        | Some paymentIntent =>
            if bool_decide (Stripe.status paymentIntent = "succeeded")
               && bool_decide (status payment ≠ paid)
            then
              let stripeChargeId := Stripe.first_charge paymentIntent in
              match updateStatus now paymentId paid (with_charge stripeChargeId) db with
              | None => respond (error 500 "Failed to sync payment") db cs
              | Some db' =>
                  respond (ok (json_sync "Payment synced successfully" paid true)) db' cs
              end
            else if bool_decide (Stripe.status paymentIntent = "canceled")
                    && bool_decide (status payment = pending)
            then
              match updateStatus now paymentId failed no_extra db with
              | None => respond (error 500 "Failed to sync payment") db cs
              | Some db' =>
                  respond (ok (json_sync "Payment synced successfully" failed true)) db' cs
              end
            else
              respond (ok (json_sync "No sync needed" (status payment) false)) db cs
        end
  end.

(** [POST /payments/webhook] (lines 330-383 and 788-839): [rawBody] is the
    unparsed request body, [sig] the [stripe-signature] header and
    [webhookSecret] the configured secret. *)
Definition post_webhook `{Stripe.Webhooks} (now : Z) (rawBody : string)
    (sig webhookSecret : option string) (db : Store) : Result :=
  match Stripe.constructEvent rawBody sig webhookSecret with
  | Stripe.signature_error message =>
      respond {| code := 400; body := send_text ("Webhook Error: " ++ message) |} db []
  | Stripe.verified event =>
      let intent := Stripe.object event in
      let failure := respond (error 500 "Webhook processing failed") db [] in
      if decide (Stripe.event_type event = "payment_intent.succeeded") then
        match Stripe.metadata_get "paymentId" (Stripe.metadata intent) with
        | None => failure
        | Some paymentId =>
            let stripeChargeId := Stripe.first_charge intent in
            match updateStatus now paymentId paid (with_charge stripeChargeId) db with
            | None => failure
            | Some db' => respond (ok (json_received true)) db' []
            end
        end
      else if decide (Stripe.event_type event = "payment_intent.payment_failed") then
        match Stripe.metadata_get "paymentId" (Stripe.metadata intent) with
        | None => failure
        | Some failedPaymentId =>
            match updateStatus now failedPaymentId failed no_extra db with
            | None => failure
            | Some db' => respond (ok (json_received true)) db' []
            end
        end
      else respond (ok (json_received true)) db []
  end.

End Routes.

(** ** The lease-keyed routes (src/routes/payments.js, lines 1-385) *)

Module LeaseKeyed.

Import Firestore PaymentService.

(** A document of the [leases] collection, as far as the route reads it. *)
Record Lease := {
  lease_tenantId : string;
  lease_landlordId : string;
  lease_propertyId : string;
  lease_status : string;
  monthlyRent : JS.number;
  securityDeposit : option JS.number;
}.

(** The body of [POST /create]: [{ leaseId, period, type = 'rent' }]. *)
Record CreateBody := {
  body_leaseId : option string;
  body_period : option string;
  body_type : option string;
}.

(** Step 5 of the handler: the amount for the payment type, [None] for the
    [default] branch of the [switch]. *)
Definition determine_amount (type : string) (lease : Lease) : option JS.number :=
  if decide (type = "rent") then Some (monthlyRent lease)
  else if decide (type = "deposit")
  then Some (JS.or_else (securityDeposit lease) (monthlyRent lease))
  else None.

(** Step 7 of the handler: the argument handed to [paymentIntents.create]. *)
Definition intent_params (amountInCents : JS.number)
    (payment_id lease_id tenant_id period' type' : string) : Stripe.CreateParams :=
  {| Stripe.create_amount := amountInCents;
     Stripe.create_currency := "usd";
     Stripe.create_metadata :=
       [("paymentId", payment_id); ("leaseId", lease_id);
        ("tenantId", tenant_id); ("period", period'); ("type", type')];
     Stripe.automatic_payment_methods := true |}.

(** [Math.round(amount * 100)] *)
Definition in_cents (amount : JS.number) : JS.number :=
  JS.Math_round (JS.mul amount (JS.of_Z 100)).

(** [POST /payments/create] (lines 41-158); [leases] answers
    [db.collection('leases').doc(leaseId).get()]. *)
Definition post_create `{Client} (stripe : Stripe.Api) (leases : Lookup Lease)
    (newId : string) (now : Z) (userId : string) (req : CreateBody)
    (db : Store) : Result :=
  let tenantId := userId in
  if negb (JS.truthy_string (body_leaseId req))
     || negb (JS.truthy_string (body_period req))
  then respond (error 400 "Missing required fields: leaseId, period") db []
  else
    let leaseId := default "" (body_leaseId req) in
    let period := default "" (body_period req) in
    let type := default "rent" (body_type req) in
    if negb (JS.period_regex_test period)
    then respond (error 400 "Invalid period format. Use YYYY-MM") db []
    else
      let failure db' cs := respond (error 500 "Failed to create payment") db' cs in
      match leases leaseId with
      | None => failure db []
      | Some None => respond (error 404 "Lease not found") db []
      | Some (Some lease) =>
          if bool_decide (lease_tenantId lease ≠ tenantId)
          then respond (error 403 "Unauthorized") db []
          else if bool_decide (lease_status lease ≠ "active")
          then respond
                 (error 400 ("Cannot create payment for " ++ lease_status lease ++ " lease"))
                 db []
          else
            match existsForPeriod (JS.str leaseId) (JS.str period) JS.undefined db with
            | None => failure db []
            | Some true =>
                respond (error 409 ("Payment already exists for " ++ period)) db []
            | Some false =>
                match determine_amount type lease with
                | None => respond (error 400 "Invalid payment type") db []
                | Some amount =>
                    let '((paymentId, _), db1) :=
                      create newId now
                        {| leaseId := Some leaseId;
                           tenantId := tenantId;
                           landlordId := lease_landlordId lease;
                           propertyId := lease_propertyId lease;
                           amount := Some amount;
                           totalAmount := None;
                           rentAmount := None;
                           utilitiesAmount := None;
                           depositAmount := None;
                           currency := "USD";
                           type := Some type;
                           period := period;
                           description := None;
                           isFirstPayment := None |} db in
                    let amountInCents := in_cents amount in
                    if JS.le amountInCents JS.zero
                    then respond
                           (error 400 "Invalid payment amount: must be greater than 0")
                           db1 []
                    else
                      let params :=
                        intent_params amountInCents paymentId leaseId tenantId period type in
                      let cs := [Stripe.called_create params] in
                      match Stripe.paymentIntents_create stripe params with
                      | None => failure db1 cs
                      | Some paymentIntent =>
                          match updateStripeIntentId paymentId (Stripe.id paymentIntent) db1 with
                          | None => failure db1 cs
                          | Some db2 =>
                              respond
                                (ok (json_intent_created paymentId
                                       (Stripe.client_secret paymentIntent)))
                                db2 cs
                          end
                      end
                end
            end
      end.

Definition post_sync := Routes.post_sync.
Definition post_webhook `{Stripe.Webhooks} := Routes.post_webhook.

End LeaseKeyed.

(** ** The tenant/property-keyed routes (src/routes/payments.js, lines 385-840) *)

Module TenantProperty.

Import Firestore PaymentService.

(** [hasExistingPayments(tenantId, propertyId)] (lines 396-405) *)
Definition hasExistingPayments `{Client} (tenantId propertyId : string)
    (db : Store) : option bool :=
  snap ← get [where_eq f_tenantId (JS.str tenantId);
              where_eq f_propertyId (JS.str propertyId);
              where_status_in [paid; pending]] db;
  Some (negb (empty (limit 1 snap))).

(** The body of [POST /create]. The three amounts are JSON numbers; a
    missing amount takes the default [0] of the destructuring. *)
Record CreateBody := {
  body_tenantId : option string;
  body_propertyId : option string;
  body_period : option string;
  body_rentAmount : option JS.number;
  body_utilitiesAmount : option JS.number;
  body_depositAmount : option JS.number;
  body_description : option string;
}.

(** [parseFloat(x) || 0] for [x] with default [0]. *)
Definition parse_amount (x : option JS.number) : JS.number :=
  JS.or_else (Some (JS.parseFloat (default JS.zero x))) JS.zero.

(** [POST /payments/create] (lines 471-570) *)
Definition post_create `{Client} (newId : string) (now : Z) (userId : string)
    (req : CreateBody) (db : Store) : Result :=
  let landlordId := userId in
  if negb (JS.truthy_string (body_tenantId req))
     || negb (JS.truthy_string (body_propertyId req))
     || negb (JS.truthy_string (body_period req))
  then respond (error 400 "Missing required fields: tenantId, propertyId, period") db []
  else
    let tenantId := default "" (body_tenantId req) in
    let propertyId := default "" (body_propertyId req) in
    let period := default "" (body_period req) in
    let rent := parse_amount (body_rentAmount req) in
    let utilities := parse_amount (body_utilitiesAmount req) in
    let deposit := parse_amount (body_depositAmount req) in
    if JS.le rent JS.zero && JS.le utilities JS.zero && JS.le deposit JS.zero
    then respond
           (error 400 "At least one payment amount (rent, utilities, or deposit) must be greater than 0")
           db []
    else if negb (JS.period_regex_test period)
    then respond (error 400 "Invalid period format. Use YYYY-MM") db []
    else
      let failure := respond (error 500 "Failed to create payment request") db [] in
      match hasExistingPayments tenantId propertyId db with
      | None => failure
      | Some hasPayments =>
          if hasPayments && JS.gt deposit JS.zero
          then respond
                 (error 400 "Deposit can only be charged for the first payment. This tenant already has payments for this property.")
                 db []
          else
            let totalAmount := JS.add (JS.add rent utilities) deposit in
            if JS.le totalAmount JS.zero
            then respond (error 400 "Total payment amount must be greater than 0") db []
            else
              match get [where_eq f_landlordId (JS.str landlordId);
                         where_eq f_tenantId (JS.str tenantId);
                         where_eq f_propertyId (JS.str propertyId);
                         where_eq f_period (JS.str period);
                         where_status_in [pending; paid]] db with
              | None => failure
              | Some existingSnap =>
                  if negb (empty (limit 1 existingSnap))
                  then respond
                         (error 409 ("Payment already exists for this tenant and property in " ++ period))
                         db []
                  else
                    let '((paymentId, payment), db1) :=
                      create newId now
                        {| leaseId := None;
                           tenantId := tenantId;
                           landlordId := landlordId;
                           propertyId := propertyId;
                           amount := None;
                           totalAmount := Some totalAmount;
                           rentAmount := Some rent;
                           utilitiesAmount := Some utilities;
                           depositAmount := Some deposit;
                           currency := "USD";
                           type := None;
                           period := period;
                           description :=
                             Some (if JS.truthy_string (body_description req)
                                   then default "" (body_description req)
                                   else "Payment for " ++ period);
                           isFirstPayment := Some (negb hasPayments) |} db in
                    respond
                      (ok (json_request_created paymentId
                             "Payment request created successfully" payment))
                      db1 []
              end
      end.

(** The argument the pay route hands to [paymentIntents.create]: the total
    in cents and the metadata that link the intent back to the payment. *)
Definition intent_params (payment_id : string) (payment : Payment) : Stripe.CreateParams :=
  let amountInCents :=
    JS.Math_round (JS.mul (JS.to_number (totalAmount (data payment))) (JS.of_Z 100)) in
  {| Stripe.create_amount := amountInCents;
     Stripe.create_currency := "usd";
     Stripe.create_metadata :=
       [("paymentId", payment_id);
        ("tenantId", tenantId (data payment));
        ("landlordId", landlordId (data payment));
        ("propertyId", propertyId (data payment));
        ("period", period (data payment))];
     Stripe.automatic_payment_methods := true |}.

(** [POST /payments/pay/:paymentId] (lines 574-653) *)
Definition post_pay (stripe : Stripe.Api) (userId paymentId : string)
    (db : Store) : Result :=
  let tenantId' := userId in
  match getById paymentId db with
  | None => respond (error 404 "Payment not found") db []
  | Some payment =>
      if bool_decide (tenantId (data payment) ≠ tenantId')
      then respond (error 403 "Unauthorized: This payment is not for you") db []
      else if bool_decide (status payment = paid)
      then respond (error 400 "Payment already completed") db []
      else if bool_decide (status payment = cancelled)
      then respond (error 400 "Payment has been cancelled") db []
      else
        let failure cs := respond (error 500 "Failed to initiate payment") db cs in
        (* the rest of the handler, from "Create Stripe Payment Intent" on *)
        let create_intent (cs0 : list Stripe.Call) :=
          let params := intent_params paymentId payment in
          let cs := (cs0 ++ [Stripe.called_create params])%list in
          match Stripe.paymentIntents_create stripe params with
          | None => failure cs
          | Some paymentIntent =>
              match updateStripeIntentId paymentId (Stripe.id paymentIntent) db with
              | None => failure cs
              | Some db' =>
                  respond
                    (ok (json_client_secret (Stripe.client_secret paymentIntent)
                           (Stripe.id paymentIntent)))
                    db' cs
              end
          end in
        if JS.truthy_string (stripePaymentIntentId payment)
        then
          let intentId := default "" (stripePaymentIntentId payment) in
          let cs := [Stripe.called_retrieve intentId] in
          match Stripe.paymentIntents_retrieve stripe intentId with
          | None => failure cs
          | Some existingIntent =>
              if bool_decide (Stripe.status existingIntent = "succeeded")
              then respond (error 400 "Payment already completed") db cs
              else if bool_decide (Stripe.status existingIntent ≠ "canceled")
              then respond
                     (ok (json_client_secret (Stripe.client_secret existingIntent)
                            (Stripe.id existingIntent)))
                     db cs
              else create_intent cs
          end
        else create_intent []
  end.

Definition post_sync := Routes.post_sync.

(** [DELETE /payments/:paymentId] (lines 729-758) *)
Definition delete_payment (now : Z) (userId paymentId : string) (db : Store) : Result :=
  let landlordId' := userId in
  match getById paymentId db with
  | None => respond (error 404 "Payment not found") db []
  | Some payment =>
      if bool_decide (landlordId (data payment) ≠ landlordId')
      then respond (error 403 "Unauthorized") db []
      else if bool_decide (status payment = paid)
      then respond (error 400 "Cannot cancel a paid payment") db []
      else
        match updateStatus now paymentId cancelled no_extra db with
        | None => respond (error 500 "Failed to cancel payment") db []
        | Some db' => respond (ok (json_message "Payment cancelled successfully")) db' []
        end
  end.

Definition post_webhook `{Stripe.Webhooks} := Routes.post_webhook.

End TenantProperty.


(** ** The read side

    The methods of [PaymentService] and the routes of
    src/routes/payments.js that only read: the ordered listings with their
    enrichment, [GET /:paymentId], [POST /get-intent] and
    [GET /check-existing/:tenantId/:propertyId]. *)

(** Documents of the [users] and [properties] collections, as far as the
    payment code reads them. A field the document lacks is [None]. *)
Record User := {
  user_name : option string;
  user_displayName : option string;
  user_email : option string;
}.

Record Property := {
  property_landlordId : string;
  property_title : option string;
  property_address : option string;
  property_city : option string;
  property_state : option string;
}.

Module OrderedQuery.

(** [orderBy('createdAt', 'desc')]: newest first; documents created at the
    same time come in descending order of their ids, the store's rule for
    ties. *)
Definition newer_first (d1 d2 : string * Payment) : Prop :=
  (createdAt (snd d2) < createdAt (snd d1))%Z \/
  (createdAt (snd d1) = createdAt (snd d2) /\ String.leb (fst d2) (fst d1) = true).

#[global] Instance newer_first_dec (d1 d2 : string * Payment) :
  Decision (newer_first d1 d2).
Proof. unfold newer_first. apply _. Defined.

Definition order_by_createdAt_desc (docs : list (string * Payment))
  : list (string * Payment) :=
  merge_sort newer_first docs.

(** [collection.where(..).orderBy('createdAt', 'desc').get()] *)
Definition get_ordered `{Firestore.Client} (fs : list Firestore.Filter) (db : Store)
  : option (list (string * Payment)) :=
  order_by_createdAt_desc <$> Firestore.get fs db.

End OrderedQuery.

Module PaymentReads.

Import Firestore OrderedQuery.

(** A payment as the listings return it: [{ id, ...data }] and the fields
    [enrichPayment] attaches. *)
Record EnrichedPayment := {
  enriched_id : string;
  enriched_payment : Payment;
  tenantName : option string;
  tenantEmail : option string;
  propertyTitle : option string;
  propertyAddress : option string;
  propertyCity : option string;
  propertyState : option string;
}.

(** [a || b] on string fields that may be missing, with a string [b]. *)
Definition or_string (a : option string) (b : string) : string :=
  if JS.truthy_string a then default "" a else b.

(** The payment as [enrichPayment] got it: no field attached. *)
Definition bare (payment : string * Payment) : EnrichedPayment :=
  {| enriched_id := fst payment;
     enriched_payment := snd payment;
     tenantName := None; tenantEmail := None;
     propertyTitle := None; propertyAddress := None;
     propertyCity := None; propertyState := None |}.

(** [enrichPayment(payment)] (payment.service.js, lines 405-436): [users]
    and [properties] answer the two lookups. When one of them throws, the
    [catch] returns the payment as it came, without the fields a lookup
    before it had attached. *)
Definition enrichPayment (users : Lookup User) (properties : Lookup Property)
    (payment : string * Payment) : EnrichedPayment :=
  let p := snd payment in
  let looked_up :=
    tenant ← (if JS.truthy_string (Some (tenantId (data p)))
              then users (tenantId (data p)) else Some None);
    property ← (if JS.truthy_string (Some (propertyId (data p)))
                then properties (propertyId (data p)) else Some None);
    Some (tenant, property) in
  match looked_up with
  | None => bare payment
  | Some (tenant, property) =>
      {| enriched_id := fst payment;
         enriched_payment := p;
         tenantName :=
           tenantData ← tenant;
           Some (or_string (user_name tenantData)
                   (or_string (user_displayName tenantData) "Unknown Tenant"));
         tenantEmail := tenantData ← tenant; user_email tenantData;
         propertyTitle := propertyData ← property; property_title propertyData;
         propertyAddress := propertyData ← property; property_address propertyData;
         propertyCity := propertyData ← property; property_city propertyData;
         propertyState := propertyData ← property; property_state propertyData |}
  end.

(** [enrichPayments(payments)] *)
Definition enrichPayments (users : Lookup User) (properties : Lookup Property)
    (payments : list (string * Payment)) : list EnrichedPayment :=
  map (enrichPayment users properties) payments.

(** [getByTenant(tenantId)] (lines 448-457) *)
Definition getByTenant `{Client} (users : Lookup User)
    (properties : Lookup Property) (tenant : string) (db : Store)
  : option (list EnrichedPayment) :=
  snap ← get_ordered [where_eq f_tenantId (JS.str tenant)] db;
  Some (enrichPayments users properties snap).

(** [getByLandlord(landlordId)] (lines 462-471) *)
Definition getByLandlord `{Client} (users : Lookup User)
    (properties : Lookup Property) (landlord : string) (db : Store)
  : option (list EnrichedPayment) :=
  snap ← get_ordered [where_eq f_landlordId (JS.str landlord)] db;
  Some (enrichPayments users properties snap).

(** [getByLease(leaseId)] (lines 476-485) *)
Definition getByLease `{Client} (users : Lookup User)
    (properties : Lookup Property) (lease : string) (db : Store)
  : option (list EnrichedPayment) :=
  snap ← get_ordered [where_eq f_leaseId (JS.str lease)] db;
  Some (enrichPayments users properties snap).

End PaymentReads.

Module Reads.

Import PaymentService.

(** The answer of a route that writes nothing: an error response, whose
    body is [{ error }] or [{ error, status }], or the JSON value sent with
    status 200. *)
Inductive Reply (A : Type) :=
| rejected (code : nat) (error : string) (status : option string)
| answered (a : A).
Arguments rejected {A} code error status.
Arguments answered {A} a.

(** [GET /payments/tenant] and [GET /payments/landlord] (lines 11-38 and
    409-437) *)
Definition get_tenant `{Firestore.Client} (users : Firestore.Lookup User)
    (properties : Firestore.Lookup Property) (userId : string) (db : Store)
  : Reply (list PaymentReads.EnrichedPayment) :=
  match PaymentReads.getByTenant users properties userId db with
  | Some payments => answered payments
  | None => rejected 500 "Failed to fetch payments" None
  end.

Definition get_landlord `{Firestore.Client} (users : Firestore.Lookup User)
    (properties : Firestore.Lookup Property) (userId : string) (db : Store)
  : Reply (list PaymentReads.EnrichedPayment) :=
  match PaymentReads.getByLandlord users properties userId db with
  | Some payments => answered payments
  | None => rejected 500 "Failed to fetch payments" None
  end.

(** [GET /payments/:paymentId] (lines 305-327 and 762-784) *)
Definition get_payment (userId paymentId : string) (db : Store)
  : Reply (string * Payment) :=
  match getById paymentId db with
  | None => rejected 404 "Payment not found" None
  | Some payment =>
      if bool_decide (tenantId (data payment) ≠ userId)
         && bool_decide (landlordId (data payment) ≠ userId)
      then rejected 403 "Unauthorized" None
      else answered (paymentId, payment)
  end.

(** The body [POST /get-intent] answers with. *)
Record IntentInfo := {
  info_clientSecret : string;
  info_status : string;
  info_amount : JS.number;
}.

(** [POST /payments/get-intent] of the lease-keyed routes (lines 233-302):
    the reply and the calls made to the processor. *)
Definition post_get_intent (stripe : Stripe.Api) (userId : string)
    (body_paymentId : option string) (db : Store)
  : Reply IntentInfo * list Stripe.Call :=
  if negb (JS.truthy_string body_paymentId)
  then (rejected 400 "Payment ID is required" None, [])
  else
    let paymentId := default "" body_paymentId in
    match getById paymentId db with
    | None => (rejected 404 "Payment not found" None, [])
    | Some payment =>
        if bool_decide (tenantId (data payment) ≠ userId)
           && bool_decide (landlordId (data payment) ≠ userId)
        then (rejected 403 "Unauthorized" None, [])
        else if bool_decide (status payment = paid)
        then (rejected 400 "Payment already completed" (Some "paid"), [])
        else if negb (JS.truthy_string (stripePaymentIntentId payment))
        then (rejected 400 "Payment intent not found" None, [])
        else
          let intentId := default "" (stripePaymentIntentId payment) in
          let cs := [Stripe.called_retrieve intentId] in
          match Stripe.paymentIntents_retrieve stripe intentId with
          | None => (rejected 500 "Failed to retrieve payment intent" None, cs)
          | Some paymentIntent =>
              if bool_decide (Stripe.status paymentIntent = "succeeded")
              then (rejected 400 "Payment already completed" (Some "paid"), cs)
              else if bool_decide (Stripe.status paymentIntent = "canceled")
              then (rejected 400 "Payment was canceled" (Some "canceled"), cs)
              else
                (answered
                   {| info_clientSecret := Stripe.client_secret paymentIntent;
                      info_status := Stripe.status paymentIntent;
                      info_amount := Stripe.amount paymentIntent |}, cs)
          end
    end.

(** The body [GET /check-existing] answers with. *)
Record ExistingInfo := {
  info_hasExistingPayments : bool;
  info_requiresDeposit : bool;
}.

(** [GET /payments/check-existing/:tenantId/:propertyId] of the
    tenant/property-keyed routes (lines 441-467); [properties] holds the
    property documents under their ids. *)
Definition get_check_existing `{Firestore.Client} (properties : gmap string Property)
    (userId tenant property : string) (db : Store) : Reply ExistingInfo :=
  let landlord := userId in
  match properties !! property with
  | None => rejected 404 "Property not found" None
  | Some propertyData =>
      if bool_decide (property_landlordId propertyData ≠ landlord)
      then rejected 403 "Unauthorized" None
      else
        match TenantProperty.hasExistingPayments tenant property db with
        | None => rejected 500 "Failed to check payments" None
        | Some hasPayments =>
            answered {| info_hasExistingPayments := hasPayments;
                        info_requiresDeposit := negb hasPayments |}
        end
  end.

End Reads.

(** * Specification *)
(** ** Predicates and documents of the specification *)

(** A payment that blocks a new one: the statuses the duplicate checks ask
    for. *)
Definition active (p : Payment) : Prop := status p = pending \/ status p = paid.

Definition same_request (p q : Payment) : Prop :=
  landlordId (data p) = landlordId (data q) /\
  tenantId (data p) = tenantId (data q) /\
  propertyId (data p) = propertyId (data q) /\
  period (data p) = period (data q).

(** The payments of a landlord, in the order of the collection. *)
Definition payments_of (landlord : string) (db : Store) : list Payment :=
  List.filter (fun p => bool_decide (landlordId (data p) = landlord))
    (map snd (map_to_list db)).

(** The documents [getLandlordStats] reads: the landlord's, in ascending
    order of their ids. *)
Definition landlord_docs (landlord : string) (db : Store)
  : list (string * Payment) :=
  List.filter (fun d => bool_decide (landlordId (data (snd d)) = landlord))
    (Firestore.docs db).

(** The sum of a list of numbers: they are added one after the other, in
    the order of the list, starting from 0. *)
Fixpoint sum_after (acc : JS.number) (xs : list JS.number) : JS.number :=
  match xs with
  | [] => acc
  | x :: xs => sum_after (JS.add acc x) xs
  end.

Definition sum_of (xs : list JS.number) : JS.number := sum_after JS.zero xs.

(** What a stored payment adds to a sum of totals: its [totalAmount], and
    [NaN] when the document has no such field. *)
Definition total_of (d : string * Payment) : JS.number :=
  JS.to_number (totalAmount (data (snd d))).

(** Documents listed in ascending order of their ids, no id twice. *)
Definition ascending_ids (l : list (string * Payment)) : Prop :=
  StronglySorted (fun d1 d2 => String.ltb (fst d1) (fst d2) = true) l.

(** The landlord's payments with a given status, as the statistics read
    them: each once, in ascending order of their ids. *)
Definition listed (landlord : string) (s : Status) (db : Store)
    (l : list (string * Payment)) : Prop :=
  (forall k p, (k, p) ∈ l <->
     db !! k = Some p /\ landlordId (data p) = landlord /\ status p = s) /\
  ascending_ids l.

(** The checks of the tenant/property-keyed [POST /create] that come before
    its duplicate query, for a tenant who already has a pending or paid
    payment for the property: the three fields are present, some amount is
    greater than 0, the period is well formed, no deposit greater than 0 is
    asked for, and the total is not [<= 0]. *)
Definition passes_earlier_checks (req : TenantProperty.CreateBody) : bool :=
  let rent := TenantProperty.parse_amount (TenantProperty.body_rentAmount req) in
  let utilities := TenantProperty.parse_amount (TenantProperty.body_utilitiesAmount req) in
  let deposit := TenantProperty.parse_amount (TenantProperty.body_depositAmount req) in
  JS.truthy_string (TenantProperty.body_tenantId req)
  && JS.truthy_string (TenantProperty.body_propertyId req)
  && JS.truthy_string (TenantProperty.body_period req)
  && negb (JS.le rent JS.zero && JS.le utilities JS.zero && JS.le deposit JS.zero)
  && JS.period_regex_test (default "" (TenantProperty.body_period req))
  && negb (JS.gt deposit JS.zero)
  && negb (JS.le (JS.add (JS.add rent utilities) deposit) JS.zero).

(** The document [POST /create] of the tenant/property-keyed routes writes. *)
Definition requested (now : Z) (landlord : string) (req : TenantProperty.CreateBody)
    (hasPayments : bool) : Payment :=
  let rent := TenantProperty.parse_amount (TenantProperty.body_rentAmount req) in
  let utilities := TenantProperty.parse_amount (TenantProperty.body_utilitiesAmount req) in
  let deposit := TenantProperty.parse_amount (TenantProperty.body_depositAmount req) in
  let per := default "" (TenantProperty.body_period req) in
  {| data :=
       {| leaseId := None;
          tenantId := default "" (TenantProperty.body_tenantId req);
          landlordId := landlord;
          propertyId := default "" (TenantProperty.body_propertyId req);
          amount := None;
          totalAmount := Some (JS.add (JS.add rent utilities) deposit);
          rentAmount := Some rent;
          utilitiesAmount := Some utilities;
          depositAmount := Some deposit;
          currency := "USD";
          type := None;
          period := per;
          description :=
            Some (if JS.truthy_string (TenantProperty.body_description req)
                  then default "" (TenantProperty.body_description req)
                  else "Payment for " ++ per);
          isFirstPayment := Some (negb hasPayments) |};
     status := pending;
     stripePaymentIntentId := None;
     stripeChargeId := None;
     createdAt := now;
     paidAt := None |}.

(** ** Fixtures *)

Module Fixture.

(** The store client as the payment code gets it from [getFirestore()]: a
    filter whose value is [undefined] is refused with an exception. *)
Definition client : Firestore.Client := {| Firestore.where_undefined := None |}.

Definition amounts (total : Z) : PaymentData :=
  {| leaseId := None; tenantId := "tenant-1"; landlordId := "landlord-1";
     propertyId := "property-1"; amount := None;
     totalAmount := Some (JS.of_Z total); rentAmount := Some (JS.of_Z total);
     utilitiesAmount := Some JS.zero; depositAmount := Some JS.zero;
     currency := "USD"; type := None; period := "2025-03";
     description := Some "Payment for 2025-03"; isFirstPayment := Some true |}.

Definition payment (s : Status) : Payment :=
  {| data := amounts 1000; status := s; stripePaymentIntentId := None;
     stripeChargeId := None; createdAt := 1000; paidAt := None |}.

(** The same payment once initiate-charge has stored the intent id. *)
Definition charged (s : Status) : Payment :=
  set_stripePaymentIntentId (Some "pi_1") (payment s).

Definition intent (st : string) (cs : list string) : Stripe.PaymentIntent :=
  {| Stripe.id := "pi_1"; Stripe.status := st; Stripe.client_secret := "pi_1_secret";
     Stripe.amount := JS.of_Z 100000;
     Stripe.metadata :=
       [("paymentId", "pay-1"); ("tenantId", "tenant-1");
        ("landlordId", "landlord-1"); ("propertyId", "property-1");
        ("period", "2025-03")];
     Stripe.charges := cs |}.

(** A processor that creates every intent asked for and reports [st] for
    every intent retrieved. *)
Definition stripe (st : string) : Stripe.Api :=
  {| Stripe.paymentIntents_create := fun _ => Some (intent "requires_payment_method" []);
     Stripe.paymentIntents_retrieve := fun _ => Some (intent st ["ch_1"]) |}.

(** A verifier that accepts the one signature ["good"] and then parses the
    body as the event named by it, for the intent above with charges [cs]. *)
Definition webhooks (cs : list string) : Stripe.Webhooks :=
  {| Stripe.constructEvent := fun rawBody sig _ =>
       if decide (sig = Some "good")
       then Stripe.verified {| Stripe.event_type := rawBody;
                               Stripe.object := intent "succeeded" cs |}
       else Stripe.signature_error
              "No signatures found matching the expected signature for payload" |}.

(** A create request of the tenant/property-keyed route: rent and deposit
    for a period. *)
Definition create_request (per : string) (rent deposit : Z) : TenantProperty.CreateBody :=
  {| TenantProperty.body_tenantId := Some "tenant-1";
     TenantProperty.body_propertyId := Some "property-1";
     TenantProperty.body_period := Some per;
     TenantProperty.body_rentAmount := Some (JS.of_Z rent);
     TenantProperty.body_utilitiesAmount := None;
     TenantProperty.body_depositAmount := Some (JS.of_Z deposit);
     TenantProperty.body_description := None |}.

(** A create request of the tenant/property-keyed route with rent and
    utilities as the JSON numbers of the body. *)
Definition amounts_request (rent utilities : option JS.number)
  : TenantProperty.CreateBody :=
  {| TenantProperty.body_tenantId := Some "tenant-1";
     TenantProperty.body_propertyId := Some "property-1";
     TenantProperty.body_period := Some "2025-03";
     TenantProperty.body_rentAmount := rent;
     TenantProperty.body_utilitiesAmount := utilities;
     TenantProperty.body_depositAmount := None;
     TenantProperty.body_description := None |}.

(** The JSON number [0.0009765625], which is 2^-10: a tenth of a cent. *)
Definition tenth_of_a_cent : JS.number := S754_finite false 4503599627370496 (-62).

(** What [JSON.parse] makes of [1e999] and of [-1e999]: the infinities. *)
Definition overflow (negative : bool) : JS.number := S754_infinity negative.

(** An active lease of the tenant with the given monthly rent. *)
Definition lease (rent : Z) : LeaseKeyed.Lease :=
  {| LeaseKeyed.lease_tenantId := "tenant-1";
     LeaseKeyed.lease_landlordId := "landlord-1";
     LeaseKeyed.lease_propertyId := "property-1";
     LeaseKeyed.lease_status := "active";
     LeaseKeyed.monthlyRent := JS.of_Z rent;
     LeaseKeyed.securityDeposit := None |}.

Definition lease_request : LeaseKeyed.CreateBody :=
  {| LeaseKeyed.body_leaseId := Some "lease-1";
     LeaseKeyed.body_period := Some "2025-03";
     LeaseKeyed.body_type := None |}.

(** A [leases] collection that holds the lease above under ["lease-1"] and
    nothing else; the client throws on the id ["a/b"], which is not the
    path of a document. *)
Definition leases (rent : Z) : Firestore.Lookup LeaseKeyed.Lease :=
  fun id =>
    if decide (id = "lease-1") then Some (Some (lease rent))
    else if decide (id = "a/b") then None
    else Some None.

(** A payment as the lease-keyed create route would store it: it carries
    [amount] and no [totalAmount]. *)
Definition lease_keyed_payment (s : Status) : Payment :=
  {| data :=
       {| leaseId := Some "lease-1"; tenantId := "tenant-1";
          landlordId := "landlord-1"; propertyId := "property-1";
          amount := Some (JS.of_Z 1000); totalAmount := None;
          rentAmount := None; utilitiesAmount := None; depositAmount := None;
          currency := "USD"; type := Some "rent"; period := "2025-03";
          description := None; isFirstPayment := None |};
     status := s; stripePaymentIntentId := None; stripeChargeId := None;
     createdAt := 1000; paidAt := None |}.

End Fixture.

(** ** Predicates and samples for the further properties *)

(** A store that is the old one, or the old one after one [update] of the
    document [id]. *)
Definition touched_at_most (id : string) (db db' : Store) : Prop :=
  db' = db \/ exists f, Firestore.update id f db = Some db'.

(** Not older than: what [newer_first] says about the creation times. *)
Definition not_older (d1 d2 : string * Payment) : Prop :=
  (createdAt (snd d2) <= createdAt (snd d1))%Z.

Module Sample.

(** A processor that holds one intent: it answers every create and every
    retrieve with it. *)
Definition stripe_holding (i : Stripe.PaymentIntent) : Stripe.Api :=
  {| Stripe.paymentIntents_create := fun _ => Some i;
     Stripe.paymentIntents_retrieve := fun _ => Some i |}.

(** A processor that is down. *)
Definition stripe_down : Stripe.Api :=
  {| Stripe.paymentIntents_create := fun _ => None;
     Stripe.paymentIntents_retrieve := fun _ => None |}.

(** A lookup in a collection held as a map; the client throws on the id
    ["a/b"], which is not the path of a document. *)
Definition lookup_in {A} (coll : gmap string A) : Firestore.Lookup A :=
  fun id => if decide (id = "a/b") then None else Some (coll !! id).

Definition users : gmap string User :=
  {[ "tenant-1" := {| user_name := Some "";
                       user_displayName := Some "Ada";
                       user_email := Some "ada@example.org" |} ]}.

Definition properties : gmap string Property :=
  {[ "property-1" := {| property_landlordId := "landlord-1";
                         property_title := Some "Flat 3";
                         property_address := Some "1 Main St";
                         property_city := None;
                         property_state := None |} ]}.

(** The payment of the fixtures for another property. *)
Definition payment_for (property : string) : Payment :=
  {| data :=
       {| leaseId := None; tenantId := "tenant-1"; landlordId := "landlord-1";
          propertyId := property; amount := None;
          totalAmount := Some (JS.of_Z 1000); rentAmount := Some (JS.of_Z 1000);
          utilitiesAmount := Some JS.zero; depositAmount := Some JS.zero;
          currency := "USD"; type := None; period := "2025-03";
          description := Some "Payment for 2025-03"; isFirstPayment := Some true |};
     status := pending; stripePaymentIntentId := None; stripeChargeId := None;
     createdAt := 1000; paidAt := None |}.

End Sample.

(** * Properties *)

(** ** Numbers *)

Lemma add_NaN_l (y : JS.number) : JS.add JS.NaN y = JS.NaN.
Proof. reflexivity. Qed.

Lemma add_NaN_r (x : JS.number) : JS.add x JS.NaN = JS.NaN.
Proof. by destruct x. Qed.

Lemma gt_zero_not_le (x : JS.number) :
  JS.gt x JS.zero = true -> JS.le x JS.zero = false.
Proof. by destruct x as [[]|[]| |[] m e]. Qed.

(** ** The order of document ids *)

Lemma ascii_compare_refl (c : ascii) : Ascii.compare c c = Eq.
Proof. apply N.compare_refl. Qed.

Lemma ascii_compare_lt_trans (a b c : ascii) :
  Ascii.compare a b = Lt -> Ascii.compare b c = Lt -> Ascii.compare a c = Lt.
Proof. unfold Ascii.compare. rewrite !N.compare_lt_iff. apply N.lt_trans. Qed.

Lemma string_compare_refl (s : string) : String.compare s s = Eq.
Proof. induction s as [|a s IH]; [done|]. cbn. by rewrite ascii_compare_refl. Qed.

Lemma string_compare_lt_trans (s1 s2 s3 : string) :
  String.compare s1 s2 = Lt -> String.compare s2 s3 = Lt -> String.compare s1 s3 = Lt.
Proof.
  revert s2 s3. induction s1 as [|a s1 IH]; intros [|b s2] [|c s3]; cbn; try done.
  destruct (Ascii.compare a b) eqn:Hab; try done;
    destruct (Ascii.compare b c) eqn:Hbc; try done.
  - apply Ascii.compare_eq_iff in Hab, Hbc. subst. rewrite ascii_compare_refl. apply IH.
  - apply Ascii.compare_eq_iff in Hab. subst. by rewrite Hbc.
  - apply Ascii.compare_eq_iff in Hbc. subst. by rewrite Hab.
  - by rewrite (ascii_compare_lt_trans a b c).
Qed.

Lemma string_leb_trans (s1 s2 s3 : string) :
  String.leb s1 s2 = true -> String.leb s2 s3 = true -> String.leb s1 s3 = true.
Proof.
  unfold String.leb.
  destruct (String.compare s1 s2) eqn:H12; try done;
    destruct (String.compare s2 s3) eqn:H23; try done; intros _ _.
  - apply String.compare_eq_iff in H12, H23. subst. by rewrite string_compare_refl.
  - apply String.compare_eq_iff in H12. subst. by rewrite H23.
  - apply String.compare_eq_iff in H23. subst. by rewrite H12.
  - by rewrite (string_compare_lt_trans s1 s2 s3).
Qed.

Lemma string_leb_ltb (s1 s2 : string) :
  String.leb s1 s2 = true -> s1 <> s2 -> String.ltb s1 s2 = true.
Proof.
  unfold String.leb, String.ltb.
  destruct (String.compare s1 s2) eqn:Hc; try done.
  apply String.compare_eq_iff in Hc. by intros _ [].
Qed.

#[local] Instance id_le_total : Total Firestore.id_le.
Proof. intros [k1 p1] [k2 p2]. apply String.leb_total. Qed.

#[local] Instance id_le_trans : Transitive Firestore.id_le.
Proof. intros [k1 p1] [k2 p2] [k3 p3]. apply string_leb_trans. Qed.

Lemma map_is_fmap {A B} (f : A -> B) (l : list A) : map f l = f <$> l.
Proof. induction l as [|x l IH]; [done|]. cbn. by rewrite IH. Qed.

Lemma docs_Permutation (db : Store) : Firestore.docs db ≡ₚ map_to_list db.
Proof. apply merge_sort_Permutation. Qed.

(** The documents of a collection are its entries, *)
Lemma elem_of_docs (db : Store) (k : string) (p : Payment) :
  (k, p) ∈ Firestore.docs db <-> db !! k = Some p.
Proof. by rewrite docs_Permutation, elem_of_map_to_list. Qed.

(** each id once, *)
Lemma NoDup_docs (db : Store) : NoDup (Firestore.docs db).*1.
Proof. rewrite docs_Permutation. apply NoDup_fst_map_to_list. Qed.

(** in ascending order of the ids. *)
Lemma ascending_docs (db : Store) : ascending_ids (Firestore.docs db).
Proof.
  unfold ascending_ids.
  pose proof (NoDup_docs db) as Hnd.
  assert (StronglySorted Firestore.id_le (Firestore.docs db)) as Hs
    by (apply Sorted_StronglySorted; [apply _|apply Sorted_merge_sort; apply _]).
  induction Hs as [|d l Hs IH Hall]; [constructor|].
  cbn in Hnd. apply NoDup_cons in Hnd as [Hd Hnd].
  constructor; [by apply IH|].
  rewrite Forall_forall in Hall |- *. intros d' Hin.
  apply string_leb_ltb; [by apply Hall|].
  intros Heq. apply Hd. rewrite Heq. by apply list_elem_of_fmap_2.
Qed.

Lemma string_ltb_irrefl (s : string) : String.ltb s s = false.
Proof. unfold String.ltb. by rewrite string_compare_refl. Qed.

Lemma string_ltb_asym (s1 s2 : string) :
  String.ltb s1 s2 = true -> String.ltb s2 s1 = true -> False.
Proof.
  unfold String.ltb. rewrite (String.compare_antisym s1 s2).
  by destruct (String.compare s2 s1).
Qed.

(** A list in ascending order of ids has no document twice, and is the only
    such list of its documents. *)
Lemma ascending_NoDup (l : list (string * Payment)) : ascending_ids l -> NoDup l.
Proof.
  unfold ascending_ids. induction 1 as [|d l Hs IH Hall]; constructor; [|done].
  intros Hin. rewrite Forall_forall in Hall. specialize (Hall d Hin).
  by rewrite string_ltb_irrefl in Hall.
Qed.

Lemma ascending_unique (l1 l2 : list (string * Payment)) :
  ascending_ids l1 -> ascending_ids l2 -> (forall d, d ∈ l1 <-> d ∈ l2) -> l1 = l2.
Proof.
  intros Hs1 Hs2 Hmem.
  apply (StronglySorted_unique_strong
           (fun d1 d2 => String.ltb (fst d1) (fst d2) = true)); [|done|done|].
  - intros d1 d2 _ _ H12 H21. by destruct (string_ltb_asym _ _ H12 H21).
  - apply NoDup_Permutation; [by apply ascending_NoDup|by apply ascending_NoDup|done].
Qed.

Lemma ascending_filter (f : string * Payment -> bool) (l : list (string * Payment)) :
  ascending_ids l -> ascending_ids (List.filter f l).
Proof.
  unfold ascending_ids. induction 1 as [|d l Hs IH Hall]; cbn; [constructor|].
  destruct (f d); [|done]. constructor; [done|].
  rewrite Forall_forall in Hall |- *. intros d' [Hin _]%list_elem_of_In%filter_In.
  apply Hall. by apply list_elem_of_In.
Qed.

(** ** Queries *)

Section Queries.
Context `{Firestore.Client}.
Import Firestore.

Lemma empty_limit_one {A} (docs : list A) : empty (limit 1 docs) = empty docs.
Proof. by destruct docs. Qed.

Lemma empty_false_iff {A} (f : A -> bool) (l : list A) :
  empty (List.filter f l) = false <-> exists x, x ∈ l /\ f x = true.
Proof.
  induction l as [|a l IH]; simpl.
  - split; [done|]. intros (x & Hx & _). by apply elem_of_nil in Hx.
  - destruct (f a) eqn:Hfa; simpl.
    + split; [|done]. intros _. exists a. split; [left|done].
    + rewrite IH. split; intros (x & Hx & Hfx).
      * exists x. split; [by right|done].
      * apply elem_of_cons in Hx as [->|Hx]; [congruence|]. by exists x.
Qed.

(** A snapshot is not empty exactly when some stored document passes all the
    filters. *)
Lemma snapshot_nonempty (fs : list Filter) (db : Store) snap :
  get fs db = Some snap ->
  empty (limit 1 snap) = false <->
  exists k p, db !! k = Some p /\ forallb (matches p) fs = true.
Proof.
  unfold get. destruct (forallb accepted fs); [|done].
  intros [= <-]. rewrite empty_limit_one, empty_false_iff. split.
  - intros ([k p] & Hin & Hm). apply elem_of_docs in Hin. by exists k, p.
  - intros (k & p & Hkp & Hm). exists (k, p). split; [|done].
    by apply elem_of_docs.
Qed.

Lemma get_accepted (fs : list Filter) (db : Store) :
  forallb accepted fs = true -> is_Some (get fs db).
Proof. unfold get. intros ->. by eexists. Qed.

End Queries.

(** ** Webhook signature *)

(** C4. A webhook request whose signature does not verify is answered with
    400 and leaves every payment document as it was, in both versions of
    the routes; no call to the processor is made. *)
Theorem webhook_invalid_signature `{Stripe.Webhooks}
    (now : Z) (rawBody : string) (sig secret : option string) (db : Store)
    (message : string) :
  Stripe.constructEvent rawBody sig secret = Stripe.signature_error message ->
  let a := LeaseKeyed.post_webhook now rawBody sig secret db in
  let b := TenantProperty.post_webhook now rawBody sig secret db in
  (code (response a) = 400 /\ store a = db /\ calls a = []) /\
  (code (response b) = 400 /\ store b = db /\ calls b = []).
Proof.
  intros Hsig. cbn zeta.
  unfold LeaseKeyed.post_webhook, TenantProperty.post_webhook, Routes.post_webhook.
  by rewrite Hsig.
Qed.

Lemma webhook_invalid_signature_witness :
  let db : Store := {[ "pay-1" := Fixture.payment pending ]} in
  let a := @LeaseKeyed.post_webhook (Fixture.webhooks []) 5 "payment_intent.succeeded"
             (Some "forged") (Some "whsec") db in
  let b := @TenantProperty.post_webhook (Fixture.webhooks []) 5 "payment_intent.succeeded"
             (Some "forged") (Some "whsec") db in
  (code (response a) = 400 /\ store a = db /\ calls a = []) /\
  (code (response b) = 400 /\ store b = db /\ calls b = []).
Proof.
  exact (@webhook_invalid_signature (Fixture.webhooks []) 5 "payment_intent.succeeded"
           (Some "forged") (Some "whsec") {[ "pay-1" := Fixture.payment pending ]}
           "No signatures found matching the expected signature for payload"
           eq_refl).
Defined.

(** ** Initiate-charge: authorization and state checks *)

(** The claim as the specification has it fails: the payment's landlord is
    answered with 403. *)
Lemma pay_landlord_unauthorized :
  let db : Store := {[ "pay-1" := Fixture.payment pending ]} in
  landlordId (data (Fixture.payment pending)) = "landlord-1" /\
  response (TenantProperty.post_pay (Fixture.stripe "requires_payment_method")
              "landlord-1" "pay-1" db)
  = error 403 "Unauthorized: This payment is not for you".
Proof. split; reflexivity. Qed.

(** C7 (amended). Initiate-charge on an existing payment is answered with 403
    exactly when the requester is not the payment's tenant; for the tenant
    it is answered with 400, without any write or processor call, when the
    payment is paid or cancelled. *)
Theorem pay_authorization (stripe : Stripe.Api) (userId paymentId : string)
    (db : Store) (p : Payment) :
  db !! paymentId = Some p ->
  let r := TenantProperty.post_pay stripe userId paymentId db in
  (code (response r) = 403 <-> tenantId (data p) <> userId) /\
  (tenantId (data p) = userId -> status p = paid \/ status p = cancelled ->
   code (response r) = 400 /\ store r = db /\ calls r = []).
Proof.
  intros Hp. cbn zeta. unfold TenantProperty.post_pay, PaymentService.getById.
  rewrite Hp. case_bool_decide as Hten; simpl.
  { split; [done|]. intros Heq. done. }
  split.
  - split; [|done]. intros Hcode. exfalso. revert Hcode.
    repeat (case_bool_decide || case_match); simpl; done.
  - intros _ [Hs|Hs]; rewrite Hs; simpl; done.
Qed.

Lemma pay_authorization_witness :
  let db : Store := {[ "pay-1" := Fixture.payment paid ]} in
  let r := TenantProperty.post_pay (Fixture.stripe "succeeded") "tenant-1" "pay-1" db in
  (code (response r) = 403 <-> tenantId (data (Fixture.payment paid)) <> "tenant-1") /\
  (tenantId (data (Fixture.payment paid)) = "tenant-1" ->
   status (Fixture.payment paid) = paid \/ status (Fixture.payment paid) = cancelled ->
   code (response r) = 400 /\ store r = db /\ calls r = []).
Proof.
  exact (pay_authorization (Fixture.stripe "succeeded") "tenant-1" "pay-1"
           {[ "pay-1" := Fixture.payment paid ]} (Fixture.payment paid) eq_refl).
Defined.

(** ** The deposit rule *)

Section DepositRule.
Context `{Firestore.Client}.
Import Firestore PaymentService TenantProperty.

(** [hasExistingPayments] always answers, and answers [true] exactly when the
    tenant has a paid or pending payment for the property. *)
Lemma hasExistingPayments_spec (t pr : string) (db : Store) :
  exists b, hasExistingPayments t pr db = Some b /\
    (b = true <->
     exists k p, db !! k = Some p /\ tenantId (data p) = t /\
       propertyId (data p) = pr /\ (status p = paid \/ status p = pending)).
Proof.
  unfold hasExistingPayments.
  destruct (get_accepted
              [where_eq f_tenantId (JS.str t); where_eq f_propertyId (JS.str pr);
               where_status_in [paid; pending]] db eq_refl) as [snap Hsnap].
  rewrite Hsnap. simpl. eexists. split; [done|].
  rewrite negb_true_iff, (snapshot_nonempty _ _ _ Hsnap).
  split; intros (k & p & Hkp & Hm); exists k, p; (split; [done|]).
  - simpl in Hm. rewrite !andb_true_iff, !bool_decide_eq_true in Hm.
    destruct Hm as ([= ?] & [= ?] & Hst & _).
    repeat split; try done.
    rewrite !elem_of_cons in Hst. destruct Hst as [?|[?|Hnil]]; auto.
    by apply elem_of_nil in Hnil.
  - destruct Hm as (<- & <- & Hst). simpl.
    rewrite !andb_true_iff, !bool_decide_eq_true. repeat split; try done.
    rewrite !elem_of_cons. tauto.
Qed.

End DepositRule.

(** The claim as the specification has it fails twice: the rejection is a
    400, not a 409; and a prior failed payment, which is not cancelled, does
    not block a deposit. *)
Lemma deposit_rejection_is_400 :
  let req :=
    Fixture.create_request "2025-04" 1000 500 in
  let r1 := @TenantProperty.post_create Fixture.client "pay-2" 2000 "landlord-1" req
              {[ "pay-1" := Fixture.payment pending ]} in
  let r2 := @TenantProperty.post_create Fixture.client "pay-2" 2000 "landlord-1" req
              {[ "pay-1" := Fixture.payment failed ]} in
  code (response r1) = 400 /\ code (response r1) <> 409 /\
  code (response r2) = 200 /\
  (status <$> store r2 !! "pay-1") = Some failed /\
  (depositAmount ∘ data <$> store r2 !! "pay-2") = Some (Some (JS.of_Z 500)).
Proof. vm_compute. repeat split; congruence. Qed.

(** C6 (amended). A create request with a deposit amount greater than 0, for a
    tenant and property that already have a pending or paid payment, is
    rejected with 400 and creates no payment record. *)
Theorem deposit_rejected `{Firestore.Client}
    (newId : string) (now : Z) (userId : string)
    (req : TenantProperty.CreateBody) (db : Store) (k : string) (p : Payment) :
  db !! k = Some p ->
  status p = pending \/ status p = paid ->
  TenantProperty.body_tenantId req = Some (tenantId (data p)) ->
  TenantProperty.body_propertyId req = Some (propertyId (data p)) ->
  JS.gt (TenantProperty.parse_amount (TenantProperty.body_depositAmount req)) JS.zero = true ->
  let r := TenantProperty.post_create newId now userId req db in
  code (response r) = 400 /\ store r = db /\ calls r = [].
Proof.
  intros Hkp Hst Ht Hpr Hdep. cbn zeta. unfold TenantProperty.post_create.
  rewrite Ht, Hpr, Hdep, (gt_zero_not_le _ Hdep), !andb_false_r. simpl default.
  destruct (hasExistingPayments_spec (tenantId (data p)) (propertyId (data p)) db)
    as (b & -> & Hb).
  assert (b = true) as ->.
  { apply Hb. exists k, p. tauto. }
  repeat case_match; simpl; done.
Qed.

Lemma deposit_rejected_witness :
  let req :=
    Fixture.create_request "2025-04" 1000 500 in
  let db : Store := {[ "pay-1" := Fixture.payment paid ]} in
  let r := @TenantProperty.post_create Fixture.client "pay-2" 2000 "landlord-1" req db in
  code (response r) = 400 /\ store r = db /\ calls r = [].
Proof.
  exact (@deposit_rejected Fixture.client "pay-2" 2000 "landlord-1"
           (Fixture.create_request "2025-04" 1000 500)
           {[ "pay-1" := Fixture.payment paid ]} "pay-1" (Fixture.payment paid)
           eq_refl (or_intror eq_refl) eq_refl eq_refl eq_refl).
Defined.

(** ** One payment per period *)

Section Duplicates.
Context `{Firestore.Client}.
Import Firestore PaymentService TenantProperty.

Lemma truthy_string_default (o : option string) :
  JS.truthy_string o = true -> o = Some (default "" o).
Proof. by destruct o as [[]|]. Qed.

(** The duplicate query of [POST /create] always answers, and its snapshot
    is not empty exactly when the landlord already has a pending or paid
    payment for the tenant, property and period. *)
Lemma duplicate_query_spec (l t pr per : string) (db : Store) :
  exists snap,
    get [where_eq f_landlordId (JS.str l); where_eq f_tenantId (JS.str t);
         where_eq f_propertyId (JS.str pr); where_eq f_period (JS.str per);
         where_status_in [pending; paid]] db = Some snap /\
    (empty (limit 1 snap) = false <->
     exists k p, db !! k = Some p /\ active p /\
       landlordId (data p) = l /\ tenantId (data p) = t /\
       propertyId (data p) = pr /\ period (data p) = per).
Proof.
  destruct (get_accepted
              [where_eq f_landlordId (JS.str l); where_eq f_tenantId (JS.str t);
               where_eq f_propertyId (JS.str pr); where_eq f_period (JS.str per);
               where_status_in [pending; paid]] db eq_refl) as [snap Hsnap].
  exists snap. split; [done|].
  rewrite (snapshot_nonempty _ _ _ Hsnap).
  split; intros (k & p & Hkp & Hm); exists k, p; (split; [done|]).
  - simpl in Hm. rewrite !andb_true_iff, !bool_decide_eq_true in Hm.
    destruct Hm as ([= ?] & [= ?] & [= ?] & [= ?] & Hst & _).
    repeat split; try done. unfold active.
    rewrite !elem_of_cons in Hst. destruct Hst as [?|[?|Hnil]]; auto.
    by apply elem_of_nil in Hnil.
  - destruct Hm as (Hact & <- & <- & <- & <-). simpl.
    rewrite !andb_true_iff, !bool_decide_eq_true. repeat split; try done.
    rewrite !elem_of_cons. unfold active in Hact. tauto.
Qed.

(** What [POST /create] does to the collection: nothing, or it adds one
    pending payment of the requesting landlord for which no pending or paid
    payment with the same landlord, tenant, property and period was
    stored. *)
Lemma post_create_store (newId : string) (now : Z) (userId : string)
    (req : CreateBody) (db : Store) :
  let r := post_create newId now userId req db in
  store r = db \/
  exists q, store r = <[newId := q]> db /\ status q = pending /\
    stripePaymentIntentId q = None /\
    landlordId (data q) = userId /\
    ~ (exists k p, db !! k = Some p /\ active p /\ same_request p q).
Proof.
  cbn zeta. unfold post_create.
  destruct (hasExistingPayments_spec (default "" (body_tenantId req))
              (default "" (body_propertyId req)) db) as (b & -> & _).
  destruct (duplicate_query_spec userId (default "" (body_tenantId req))
              (default "" (body_propertyId req))
              (default "" (body_period req)) db) as (snap & -> & Hiff).
  unfold create.
  repeat (case_match; try (left; reflexivity)).
  all: right; eexists; (split; [reflexivity|]);
    cbn [status data landlordId stripePaymentIntentId]; repeat split.
  all: intros (k & p & Hkp & Hact & Hl & Ht & Hpr & Hper); cbn in Hl, Ht, Hpr, Hper.
  all: assert (empty (limit 1 snap) = false) as Hne
    by (apply Hiff; exists k, p; tauto).
  all: match goal with He : negb (empty (limit 1 _)) = false |- _ =>
         rewrite Hne in He; discriminate He end.
Qed.

Lemma duplicate_rejected (newId : string) (now : Z) (userId : string)
    (req : CreateBody) (db : Store) (k : string) (p : Payment) :
  db !! k = Some p -> active p -> landlordId (data p) = userId ->
  body_tenantId req = Some (tenantId (data p)) ->
  body_propertyId req = Some (propertyId (data p)) ->
  body_period req = Some (period (data p)) ->
  let r := post_create newId now userId req db in
  store r = db /\ calls r = [] /\
  (passes_earlier_checks req = true -> code (response r) = 409) /\
  (passes_earlier_checks req = false -> code (response r) = 400).
Proof.
  intros Hkp Hact Hl Ht Hpr Hper. cbn zeta.
  unfold passes_earlier_checks, post_create. rewrite Ht, Hpr, Hper. simpl default.
  destruct (hasExistingPayments_spec (tenantId (data p)) (propertyId (data p)) db)
    as (b & -> & Hb).
  assert (b = true) as ->.
  { apply Hb. exists k, p. unfold active in Hact. tauto. }
  destruct (duplicate_query_spec userId (tenantId (data p)) (propertyId (data p))
              (period (data p)) db) as (snap & -> & Hiff).
  assert (empty (limit 1 snap) = false) as ->.
  { apply Hiff. by exists k, p. }
  cbn [negb andb]. split; [|split; [|split]].
  - repeat case_match; reflexivity.
  - repeat case_match; reflexivity.
  - intros Hc. rewrite !andb_true_iff, !negb_true_iff in Hc.
    destruct Hc as ((((((-> & ->) & ->) & ->) & ->) & ->) & ->).
    reflexivity.
  - intros Hc.
    destruct (JS.truthy_string (Some (tenantId (data p)))); [|done].
    destruct (JS.truthy_string (Some (propertyId (data p)))); [|done].
    destruct (JS.truthy_string (Some (period (data p)))); [|done].
    cbn [negb orb andb] in *.
    destruct (JS.le (parse_amount (body_rentAmount req)) JS.zero
              && JS.le (parse_amount (body_utilitiesAmount req)) JS.zero
              && JS.le (parse_amount (body_depositAmount req)) JS.zero); [done|].
    destruct (JS.period_regex_test (period (data p))); [|done].
    destruct (JS.gt (parse_amount (body_depositAmount req)) JS.zero); [done|].
    destruct (JS.le (JS.add _ _) JS.zero); [done|].
    discriminate Hc.
Qed.

Lemma post_create_succeeds (newId : string) (now : Z) (userId : string)
    (req : CreateBody) (db : Store) :
  passes_earlier_checks req = true ->
  ~ (exists k p, db !! k = Some p /\ active p /\
       landlordId (data p) = userId /\
       body_tenantId req = Some (tenantId (data p)) /\
       body_propertyId req = Some (propertyId (data p)) /\
       body_period req = Some (period (data p))) ->
  exists b,
    post_create newId now userId req db
    = respond
        (ok (json_request_created newId "Payment request created successfully"
               (requested now userId req b)))
        (<[newId := requested now userId req b]> db) [].
Proof.
  intros Hc Hnone. unfold passes_earlier_checks in Hc.
  rewrite !andb_true_iff, !negb_true_iff in Hc.
  destruct Hc as ((((((Ht & Hp) & Hper) & Hpos) & Hre) & Hdep) & Htot).
  unfold post_create.
  rewrite Ht, Hp, Hper, Hpos, Hre, Hdep, Htot. cbn [negb orb].
  destruct (hasExistingPayments_spec (default "" (body_tenantId req))
              (default "" (body_propertyId req)) db) as (b & -> & _).
  destruct (duplicate_query_spec userId (default "" (body_tenantId req))
              (default "" (body_propertyId req))
              (default "" (body_period req)) db) as (snap & -> & Hiff).
  rewrite andb_false_r.
  destruct (empty (limit 1 snap)) eqn:Hempty; cbn [negb].
  - by exists b.
  - exfalso. apply Hnone. destruct Hiff as [Hsome _].
    destruct (Hsome eq_refl) as (k & p & Hkp & Hact & Hl & Hten & Hpr & Hpe).
    exists k, p. repeat split; try done.
    + by rewrite (truthy_string_default _ Ht), Hten.
    + by rewrite (truthy_string_default _ Hp), Hpr.
    + by rewrite (truthy_string_default _ Hper), Hpe.
Qed.

(** A request that passes the earlier checks is not blocked by failed or
    cancelled payments. *)
Lemma failed_does_not_block (newId : string) (now : Z) (userId : string)
    (req : CreateBody) (db : Store) :
  passes_earlier_checks req = true ->
  (forall k p, db !! k = Some p ->
     body_tenantId req = Some (tenantId (data p)) ->
     body_propertyId req = Some (propertyId (data p)) ->
     body_period req = Some (period (data p)) ->
     status p = failed \/ status p = cancelled) ->
  let r := post_create newId now userId req db in
  code (response r) = 200 /\
  exists q, store r = <[newId := q]> db /\ status q = pending /\
    landlordId (data q) = userId /\
    body_tenantId req = Some (tenantId (data q)) /\
    body_propertyId req = Some (propertyId (data q)) /\
    body_period req = Some (period (data q)).
Proof.
  intros Hc Hall. cbn zeta.
  destruct (post_create_succeeds newId now userId req db Hc) as (b & ->).
  { intros (k & p & Hkp & Hact & _ & Ht & Hp & Hper).
    destruct (Hall k p Hkp Ht Hp Hper) as [Hs|Hs]; destruct Hact as [Ha|Ha]; congruence. }
  split; [done|]. eexists. split; [reflexivity|].
  unfold passes_earlier_checks in Hc. rewrite !andb_true_iff in Hc.
  destruct Hc as ((((((Ht & Hp) & Hper) & _) & _) & _) & _).
  cbn [requested status data landlordId tenantId propertyId period].
  repeat split; by apply truthy_string_default.
Qed.

End Duplicates.

(** The claim as the specification has it fails. A failed payment is not
    cancelled, yet it does not block a second payment for the same tenant,
    property and period; nor does a pending payment that another landlord
    requested. And the routes alone bring the collection to hold a paid and
    a pending payment of one landlord for one tenant, property and period:
    a payment is created and charged, the charge fails, a second payment is
    created, and a sync then finds the first intent succeeded. Last, a
    request that is blocked by a pending payment is answered with 400, not
    409, when it asks for a deposit. *)
Lemma second_payment_not_blocked :
  let landlord := "landlord-1" in
  let request := Fixture.create_request "2025-03" 1000 0 in
  let same_key (p q : Payment) :=
    tenantId (data p) = tenantId (data q) /\
    propertyId (data p) = propertyId (data q) /\
    period (data p) = period (data q) in
  let after_failed :=
    @TenantProperty.post_create Fixture.client "pay-2" 2000 landlord request
      {[ "pay-1" := Fixture.payment failed ]} in
  let other_landlord :=
    @TenantProperty.post_create Fixture.client "pay-2" 2000 "landlord-2" request
      {[ "pay-1" := Fixture.payment pending ]} in
  let created :=
    @TenantProperty.post_create Fixture.client "pay-1" 1000 landlord request ∅ in
  let charged :=
    TenantProperty.post_pay (Fixture.stripe "requires_payment_method") "tenant-1" "pay-1"
      (store created) in
  let declined :=
    @TenantProperty.post_webhook (Fixture.webhooks []) 1500
      "payment_intent.payment_failed" (Some "good") (Some "whsec") (store charged) in
  let second :=
    @TenantProperty.post_create Fixture.client "pay-2" 2000 landlord request
      (store declined) in
  let synced :=
    TenantProperty.post_sync (Fixture.stripe "succeeded") 3000 "tenant-1" "pay-1"
      (store second) in
  let with_deposit :=
    @TenantProperty.post_create Fixture.client "pay-2" 2000 landlord
      (Fixture.create_request "2025-03" 1000 500)
      {[ "pay-1" := Fixture.payment pending ]} in
  (code (response after_failed) = 200 /\
   exists p q, store after_failed !! "pay-1" = Some p /\
     store after_failed !! "pay-2" = Some q /\
     status p <> cancelled /\ status q <> cancelled /\ same_key p q) /\
  (code (response other_landlord) = 200 /\
   exists p q, store other_landlord !! "pay-1" = Some p /\
     store other_landlord !! "pay-2" = Some q /\
     status p = pending /\ status q = pending /\ same_key p q) /\
  (code (response created) = 200 /\ code (response charged) = 200 /\
   code (response declined) = 200 /\ code (response second) = 200 /\
   code (response synced) = 200 /\
   exists p q, store synced !! "pay-1" = Some p /\ store synced !! "pay-2" = Some q /\
     status p = paid /\ status q = pending /\
     landlordId (data p) = landlordId (data q) /\ same_key p q) /\
  (code (response with_deposit) = 400 /\
   store with_deposit = {[ "pay-1" := Fixture.payment pending ]}).
Proof.
  cbn zeta. split; [|split; [|split]].
  - split; [reflexivity|]. eexists _, _.
    split; [reflexivity|]. split; [reflexivity|]. repeat split; discriminate.
  - split; [reflexivity|]. eexists _, _.
    split; [reflexivity|]. split; [reflexivity|]. repeat split.
  - do 5 (split; [reflexivity|]). eexists _, _.
    split; [reflexivity|]. split; [reflexivity|]. repeat split.
  - split; reflexivity.
Qed.

(** C3 (amended). A create request of a landlord for a tenant, property and
    period for which that landlord already has a pending or paid payment
    persists no record, calls nobody, and is answered with 409 when it
    passes the earlier checks and with 400 otherwise; the create route adds
    a payment, pending and of the requesting landlord, only when that
    landlord has no pending or paid payment for the tenant, property and
    period. Failed and cancelled payments do not block: a request that
    passes the earlier checks, all of whose stored payments for the tenant,
    property and period are failed or cancelled, is answered with 200 and
    stores a pending payment. *)
Theorem one_payment_per_period `{Firestore.Client}
    (newId : string) (now : Z) (userId : string)
    (req : TenantProperty.CreateBody) (db : Store) :
  let r := TenantProperty.post_create newId now userId req db in
  (forall k p, db !! k = Some p -> active p -> landlordId (data p) = userId ->
     TenantProperty.body_tenantId req = Some (tenantId (data p)) ->
     TenantProperty.body_propertyId req = Some (propertyId (data p)) ->
     TenantProperty.body_period req = Some (period (data p)) ->
     store r = db /\ calls r = [] /\
     (passes_earlier_checks req = true -> code (response r) = 409) /\
     (passes_earlier_checks req = false -> code (response r) = 400)) /\
  (store r = db \/
   exists q, store r = <[newId := q]> db /\ status q = pending /\
     stripePaymentIntentId q = None /\ landlordId (data q) = userId /\
     ~ (exists k p, db !! k = Some p /\ active p /\ same_request p q)) /\
  (passes_earlier_checks req = true ->
   (forall k p, db !! k = Some p ->
      TenantProperty.body_tenantId req = Some (tenantId (data p)) ->
      TenantProperty.body_propertyId req = Some (propertyId (data p)) ->
      TenantProperty.body_period req = Some (period (data p)) ->
      status p = failed \/ status p = cancelled) ->
   code (response r) = 200 /\
   exists q, store r = <[newId := q]> db /\ status q = pending /\
     landlordId (data q) = userId /\
     TenantProperty.body_tenantId req = Some (tenantId (data q)) /\
     TenantProperty.body_propertyId req = Some (propertyId (data q)) /\
     TenantProperty.body_period req = Some (period (data q))).
Proof.
  cbn zeta. split; [|split].
  - intros k p. apply duplicate_rejected.
  - apply post_create_store.
  - apply failed_does_not_block.
Qed.

Lemma one_payment_per_period_witness :
  let pending_db : Store := {[ "pay-1" := Fixture.payment pending ]} in
  let failed_db : Store := {[ "pay-1" := Fixture.payment failed ]} in
  let request := Fixture.create_request "2025-03" 1000 0 in
  let blocked :=
    @TenantProperty.post_create Fixture.client "pay-2" 2000 "landlord-1" request pending_db in
  let with_deposit :=
    @TenantProperty.post_create Fixture.client "pay-2" 2000 "landlord-1"
      (Fixture.create_request "2025-03" 1000 500) pending_db in
  let accepted :=
    @TenantProperty.post_create Fixture.client "pay-2" 2000 "landlord-1" request failed_db in
  (store blocked = pending_db /\ code (response blocked) = 409) /\
  (store with_deposit = pending_db /\ code (response with_deposit) = 400) /\
  code (response accepted) = 200.
Proof.
  intros pending_db failed_db request.
  assert (pending_db !! "pay-1" = Some (Fixture.payment pending)) as Hp by reflexivity.
  pose proof (@one_payment_per_period Fixture.client "pay-2" 2000 "landlord-1"
                request pending_db) as (Hdup & _).
  pose proof (@one_payment_per_period Fixture.client "pay-2" 2000 "landlord-1"
                (Fixture.create_request "2025-03" 1000 500) pending_db) as (Hdep & _).
  pose proof (@one_payment_per_period Fixture.client "pay-2" 2000 "landlord-1"
                request failed_db) as (_ & _ & Hfailed).
  destruct (Hdup "pay-1" (Fixture.payment pending) Hp (or_introl eq_refl)
              eq_refl eq_refl eq_refl eq_refl) as (Hs1 & _ & Hc1 & _).
  destruct (Hdep "pay-1" (Fixture.payment pending) Hp (or_introl eq_refl)
              eq_refl eq_refl eq_refl eq_refl) as (Hs2 & _ & _ & Hc2).
  assert (passes_earlier_checks request = true) as Hpass by (vm_compute; reflexivity).
  assert (passes_earlier_checks (Fixture.create_request "2025-03" 1000 500) = false)
    as Hfail by (vm_compute; reflexivity).
  destruct (Hfailed Hpass) as (Hc3 & _).
  { intros k p Hkp _ _ _.
    destruct (decide (k = "pay-1")) as [->|Hk].
    - assert (p = Fixture.payment failed) as ->
        by (unfold failed_db in Hkp; rewrite lookup_singleton_eq in Hkp; congruence).
      by left.
    - unfold failed_db in Hkp. rewrite lookup_singleton_ne in Hkp by done.
      discriminate Hkp. }
  cbn zeta. repeat split; auto.
Defined.

(** ** Status transitions *)

Lemma update_Some (id : string) (f : Payment -> Payment) (db db' : Store) :
  Firestore.update id f db = Some db' ->
  exists p, db !! id = Some p /\ db' = <[id := f p]> db.
Proof.
  unfold Firestore.update. destruct id; [done|].
  destruct (db !! _) as [p|] eqn:Hp; [|done].
  intros [= <-]. by exists p.
Qed.

Lemma update_is_Some (id : string) (f : Payment -> Payment) (db : Store) (p : Payment) :
  id <> "" -> db !! id = Some p ->
  Firestore.update id f db = Some (<[id := f p]> db).
Proof. unfold Firestore.update. intros Hid ->. by destruct id. Qed.

(** [updateStatus] writes the new status, the charge id when one is given,
    and [paidAt] when the new status is [paid]. *)
Lemma updateStatus_Some (now : Z) (id : string) (st : Status) (extra : PaymentService.ExtraData)
    (db db' : Store) :
  PaymentService.updateStatus now id st extra db = Some db' ->
  exists p p', db !! id = Some p /\ db' = <[id := p']> db /\
    status p' = st /\ data p' = data p /\
    stripePaymentIntentId p' = stripePaymentIntentId p /\
    paidAt p' = (if decide (st = paid) then Some now else paidAt p) /\
    stripeChargeId p' =
      match extra with
      | PaymentService.no_extra => stripeChargeId p
      | PaymentService.with_charge c => c
      end.
Proof.
  unfold PaymentService.updateStatus. intros (p & Hp & ->)%update_Some.
  eexists p, _. split; [done|]. split; [done|].
  by destruct extra, (decide (st = paid)).
Qed.

(** In a proof about a handler: a successful [updateStatus] in the context
    is replaced by the document it read and the document it wrote. *)
Ltac invert_updateStatus q p' Hq Hst :=
  match goal with
  | Hu : PaymentService.updateStatus _ _ _ _ _ = Some _ |- _ =>
      let Hd := fresh "Hd" in
      let Hi := fresh "Hi" in
      apply updateStatus_Some in Hu as (q & p' & Hq & -> & Hst & Hd & Hi & _)
  end.

Section Transitions.
Import Firestore PaymentService.

(** Whether [updateStatus] throws does not depend on the time. *)
Lemma updateStatus_None (now now' : Z) (id : string) (st : Status) (extra : ExtraData)
    (db : Store) :
  updateStatus now id st extra db = None -> updateStatus now' id st extra db = None.
Proof.
  unfold updateStatus, update. destruct id; [done|]. by destruct (db !! _).
Qed.





End Transitions.




(** ** Reconciliation: repeated delivery *)

(** Manual sync is idempotent: a second sync of the same payment, whatever
    the time, leaves the collection as the first one left it. *)
Lemma sync_idempotent (stripe : Stripe.Api) (now1 now2 : Z) (userId paymentId : string)
    (db : Store) :
  let once := store (Routes.post_sync stripe now1 userId paymentId db) in
  store (Routes.post_sync stripe now2 userId paymentId once) = once.
Proof.
  cbn zeta.
  remember (Routes.post_sync stripe now1 userId paymentId db) as r1 eqn:Hr1.
  unfold Routes.post_sync, PaymentService.getById in Hr1.
  destruct (db !! paymentId) as [p|] eqn:Hp.
  2: { subst r1. cbn [store respond].
       unfold Routes.post_sync, PaymentService.getById. by rewrite Hp. }
  repeat case_match; subst r1; cbn [store respond];
    try match goal with Hu : PaymentService.updateStatus _ _ _ _ _ = None |- _ =>
          apply (updateStatus_None _ now2) in Hu end;
    try (unfold Routes.post_sync, PaymentService.getById; rewrite Hp;
         repeat match goal with Hc : ?c = _ |- context [?c] => rewrite Hc end;
         reflexivity).
  - invert_updateStatus q p' Hq Hst.
    rewrite Hp in Hq. injection Hq as <-.
    unfold Routes.post_sync, PaymentService.getById. rewrite lookup_insert_eq, Hd, Hi, Hst.
    repeat match goal with Hc : ?c = _ |- context [?c] => rewrite Hc end.
    rewrite (bool_decide_eq_false_2 (paid <> paid)) by auto.
    rewrite (bool_decide_eq_false_2 (paid = pending)) by done.
    by rewrite !andb_false_r.
  - invert_updateStatus q p' Hq Hst.
    rewrite Hp in Hq. injection Hq as <-.
    unfold Routes.post_sync, PaymentService.getById. rewrite lookup_insert_eq, Hd, Hi, Hst.
    match goal with Hc' : bool_decide (Stripe.status _ = "canceled") && _ = true |- _ =>
      apply andb_true_iff in Hc' as [Hcan%bool_decide_eq_true _] end.
    repeat match goal with Hc : ?c = _ |- context [?c] => rewrite Hc end.
    reflexivity.
Qed.

(** C2. Reconciliation is meant to be idempotent: "succeeded" applied twice
    should leave the record of the first application, and a delivery after
    a sync has marked the payment paid should change nothing. The manual
    sync route is ([sync_idempotent]); the webhook route is not. It calls
    [updateStatus] without reading the stored status, so that a
    [payment_intent.succeeded] event delivered a second time, or after a
    sync, stamps [paidAt] again and overwrites [stripeChargeId]. *)
Theorem webhook_redelivery_rewrites_paid_record :
  let deliver now db :=
    store (@Routes.post_webhook (Fixture.webhooks []) now "payment_intent.succeeded"
             (Some "good") (Some "whsec") db) in
  let db0 : Store := {[ "pay-1" := Fixture.charged pending ]} in
  let once := deliver 1000%Z db0 in
  let twice := deliver 2000%Z once in
  let synced :=
    store (Routes.post_sync (Fixture.stripe "succeeded") 1000 "tenant-1" "pay-1" db0) in
  let resent := deliver 2000%Z synced in
  (status <$> once !! "pay-1" = Some paid /\
   paidAt <$> once !! "pay-1" = Some (Some 1000%Z) /\
   paidAt <$> twice !! "pay-1" = Some (Some 2000%Z) /\
   twice <> once) /\
  (status <$> synced !! "pay-1" = Some paid /\
   paidAt <$> synced !! "pay-1" = Some (Some 1000%Z) /\
   stripeChargeId <$> synced !! "pay-1" = Some (Some "ch_1") /\
   paidAt <$> resent !! "pay-1" = Some (Some 2000%Z) /\
   stripeChargeId <$> resent !! "pay-1" = Some None /\
   resent <> synced).
Proof.
  cbn zeta. repeat split; try reflexivity.
  - intros Heq. apply (f_equal (fun db : Store => paidAt <$> db !! "pay-1")) in Heq.
    vm_compute in Heq. discriminate Heq.
  - intros Heq. apply (f_equal (fun db : Store => paidAt <$> db !! "pay-1")) in Heq.
    vm_compute in Heq. discriminate Heq.
Qed.

(** The same defect on the failure event: a [payment_intent.payment_failed]
    event that arrives after the payment is paid marks it failed. *)
Lemma webhook_failed_overwrites_paid :
  let db : Store := {[ "pay-1" := Fixture.charged paid ]} in
  status <$> store (@Routes.post_webhook (Fixture.webhooks []) 2000
                      "payment_intent.payment_failed" (Some "good") (Some "whsec") db)
               !! "pay-1" = Some failed.
Proof. reflexivity. Qed.

(** ** The steps of a payment *)

Section Steps.
Context `{Firestore.Client} `{Stripe.Webhooks}.
Import Firestore PaymentService.

Lemma post_pay_creates_intent (stripe : Stripe.Api) (userId paymentId : string)
    (db : Store) (p : Payment) (intent : Stripe.PaymentIntent) :
  paymentId <> "" -> db !! paymentId = Some p ->
  tenantId (data p) = userId ->
  status p = pending \/ status p = failed ->
  stripePaymentIntentId p = None ->
  Stripe.paymentIntents_create stripe (TenantProperty.intent_params paymentId p)
  = Some intent ->
  TenantProperty.post_pay stripe userId paymentId db
  = respond
      (ok (json_client_secret (Stripe.client_secret intent) (Stripe.id intent)))
      (<[paymentId := set_stripePaymentIntentId (Some (Stripe.id intent)) p]> db)
      [Stripe.called_create (TenantProperty.intent_params paymentId p)].
Proof.
  intros Hid Hp Hten Hst Hint Hcreate. unfold TenantProperty.post_pay, getById.
  rewrite Hp, Hint, Hcreate. unfold updateStripeIntentId.
  rewrite (update_is_Some _ _ _ p Hid Hp).
  rewrite bool_decide_eq_false_2 by (intros Hne; by apply Hne).
  by destruct Hst as [-> | ->].
Qed.

Lemma post_webhook_succeeded (now : Z) (rawBody : string) (sig secret : option string)
    (ev : Stripe.Event) (paymentId : string) (db : Store) (p : Payment) :
  Stripe.constructEvent rawBody sig secret = Stripe.verified ev ->
  Stripe.event_type ev = "payment_intent.succeeded" ->
  Stripe.metadata_get "paymentId" (Stripe.metadata (Stripe.object ev)) = Some paymentId ->
  paymentId <> "" -> db !! paymentId = Some p ->
  Routes.post_webhook now rawBody sig secret db
  = respond (ok (json_received true))
      (<[paymentId :=
           set_paidAt (Some now)
             (set_stripeChargeId (Stripe.first_charge (Stripe.object ev))
                (set_status paid p))]> db) [].
Proof.
  intros Hev Hty Hmd Hid Hp. unfold Routes.post_webhook.
  rewrite Hev, Hty, Hmd. unfold updateStatus.
  by rewrite (update_is_Some _ _ _ p Hid Hp).
Qed.

Lemma post_sync_paid (stripe : Stripe.Api) (now : Z) (userId paymentId : string)
    (db : Store) (p : Payment) (intentId : string) (intent : Stripe.PaymentIntent) :
  db !! paymentId = Some p -> status p = paid ->
  tenantId (data p) = userId \/ landlordId (data p) = userId ->
  stripePaymentIntentId p = Some intentId -> intentId <> "" ->
  Stripe.paymentIntents_retrieve stripe intentId = Some intent ->
  Routes.post_sync stripe now userId paymentId db
  = respond (ok (json_sync "No sync needed" paid false)) db
      [Stripe.called_retrieve intentId].
Proof.
  intros Hp Hst Hauth Hint Hne Hret. unfold Routes.post_sync, getById.
  rewrite Hp, Hint, Hst. simpl (default _ _). rewrite Hret.
  assert (bool_decide (tenantId (data p) <> userId)
          && bool_decide (landlordId (data p) <> userId) = false) as ->.
  { apply andb_false_iff.
    destruct Hauth as [Ha|Ha]; [left|right]; apply bool_decide_eq_false_2; auto. }
  assert (JS.truthy_string (Some intentId) = true) as -> by (by destruct intentId).
  rewrite (bool_decide_eq_false_2 (paid <> paid)) by auto.
  rewrite (bool_decide_eq_false_2 (paid = pending)) by done.
  by rewrite !andb_false_r.
Qed.

End Steps.

(** ** The life of one payment *)

(** C5. A payment created for tenant [T], property [P], period "2025-03"
    with rent 1000 is stored pending with no intent id; initiate-charge then
    asks the processor for an intent of 100000 cents, stores the intent id
    and returns the client secret; a verified [payment_intent.succeeded]
    webhook for that intent marks the payment paid, with [paidAt] and
    [stripeChargeId] set; a manual sync after that changes nothing and
    reports [synced: false]. *)
Theorem payment_scenario `{Firestore.Client} `{Stripe.Webhooks}
    (T P L newId : string) (t0 t2 t3 : Z) (stripe stripe' : Stripe.Api)
    (intent intent' : Stripe.PaymentIntent)
    (rawBody : string) (sig secret : option string) (ev : Stripe.Event)
    (ch : string) (others : list string) (syncUser : string) (db : Store) :
  T <> "" -> P <> "" -> newId <> "" -> Stripe.id intent <> "" ->
  ~ (exists k p, db !! k = Some p /\ active p /\ landlordId (data p) = L /\
       tenantId (data p) = T /\ propertyId (data p) = P /\
       period (data p) = "2025-03") ->
  let req :=
    {| TenantProperty.body_tenantId := Some T;
       TenantProperty.body_propertyId := Some P;
       TenantProperty.body_period := Some "2025-03";
       TenantProperty.body_rentAmount := Some (JS.of_Z 1000);
       TenantProperty.body_utilitiesAmount := None;
       TenantProperty.body_depositAmount := None;
       TenantProperty.body_description := None |} in
  let created := TenantProperty.post_create newId t0 L req db in
  let params :=
    {| Stripe.create_amount := JS.of_Z 100000;
       Stripe.create_currency := "usd";
       Stripe.create_metadata :=
         [("paymentId", newId); ("tenantId", T); ("landlordId", L);
          ("propertyId", P); ("period", "2025-03")];
       Stripe.automatic_payment_methods := true |} in
  Stripe.paymentIntents_create stripe params = Some intent ->
  let charged := TenantProperty.post_pay stripe T newId (store created) in
  Stripe.constructEvent rawBody sig secret = Stripe.verified ev ->
  Stripe.event_type ev = "payment_intent.succeeded" ->
  Stripe.metadata (Stripe.object ev) = Stripe.create_metadata params ->
  Stripe.charges (Stripe.object ev) = ch :: others ->
  let notified := TenantProperty.post_webhook t2 rawBody sig secret (store charged) in
  syncUser = T \/ syncUser = L ->
  Stripe.paymentIntents_retrieve stripe' (Stripe.id intent) = Some intent' ->
  let synced := TenantProperty.post_sync stripe' t3 syncUser newId (store notified) in
  (code (response created) = 200 /\
   exists p, store created !! newId = Some p /\
     status p = pending /\ stripePaymentIntentId p = None /\
     tenantId (data p) = T /\ propertyId (data p) = P /\
     period (data p) = "2025-03" /\
     rentAmount (data p) = Some (JS.of_Z 1000) /\
     totalAmount (data p) = Some (JS.of_Z 1000)) /\
  (calls charged = [Stripe.called_create params] /\
   response charged
   = ok (json_client_secret (Stripe.client_secret intent) (Stripe.id intent)) /\
   stripePaymentIntentId <$> store charged !! newId = Some (Some (Stripe.id intent))) /\
  (code (response notified) = 200 /\
   exists p, store notified !! newId = Some p /\
     status p = paid /\ paidAt p = Some t2 /\ stripeChargeId p = Some ch /\
     stripePaymentIntentId p = Some (Stripe.id intent)) /\
  (store synced = store notified /\
   response synced = ok (json_sync "No sync needed" paid false)).
Proof.
  intros HT HP Hnew Hintent Hnone req created params Hcreate charged
    Hev Hty Hmd Hch notified Huser Hret synced.
  assert (passes_earlier_checks req = true) as Hchecks.
  { subst req. destruct T; [done|]. destruct P; [done|]. reflexivity. }
  destruct (post_create_succeeds newId t0 L req db Hchecks) as (b & Hcreated).
  { intros (k & p & Hkp & Hact & Hl & Hten & Hpr & Hper). apply Hnone.
    exists k, p. simpl in Hten, Hpr, Hper. repeat split; congruence. }
  set (p0 := requested t0 L req b) in *.
  assert (Stripe.paymentIntents_create stripe (TenantProperty.intent_params newId p0)
          = Some intent) as Hcreate' by exact Hcreate.
  assert (store created !! newId = Some p0) as Hp0.
  { subst created. rewrite Hcreated. apply lookup_insert_eq. }
  pose proof (post_pay_creates_intent stripe T newId (store created) p0 intent
                Hnew Hp0 eq_refl (or_introl eq_refl) eq_refl Hcreate') as Hcharged.
  fold charged in Hcharged.
  set (p1 := set_stripePaymentIntentId (Some (Stripe.id intent)) p0) in *.
  assert (store charged !! newId = Some p1) as Hp1.
  { rewrite Hcharged. apply lookup_insert_eq. }
  assert (Stripe.metadata_get "paymentId" (Stripe.metadata (Stripe.object ev))
          = Some newId) as Hpid by (by rewrite Hmd).
  pose proof (post_webhook_succeeded t2 rawBody sig secret ev newId (store charged) p1
                Hev Hty Hpid Hnew Hp1) as Hnotified.
  fold (TenantProperty.post_webhook t2 rawBody sig secret (store charged)) in Hnotified.
  fold notified in Hnotified.
  set (p2 := set_paidAt (Some t2)
               (set_stripeChargeId (Stripe.first_charge (Stripe.object ev))
                  (set_status paid p1))) in *.
  assert (store notified !! newId = Some p2) as Hp2.
  { rewrite Hnotified. apply lookup_insert_eq. }
  assert (tenantId (data p2) = syncUser \/ landlordId (data p2) = syncUser) as Hauth.
  { destruct Huser as [-> | ->]; [left|right]; reflexivity. }
  pose proof (post_sync_paid stripe' t3 syncUser newId (store notified) p2
                (Stripe.id intent) intent' Hp2 eq_refl Hauth eq_refl Hintent Hret)
    as Hsynced.
  fold (TenantProperty.post_sync stripe' t3 syncUser newId (store notified)) in Hsynced.
  fold synced in Hsynced.
  split; [|split; [|split]].
  - split; [subst created; by rewrite Hcreated|].
    exists p0. split; [done|]. repeat split; reflexivity.
  - rewrite Hcharged. cbn [calls response store respond]. repeat split.
    by rewrite lookup_insert_eq.
  - split; [by rewrite Hnotified|].
    exists p2. split; [done|]. repeat split.
    unfold p2, Stripe.first_charge. cbn. by rewrite Hch.
  - by rewrite Hsynced.
Qed.

Lemma payment_scenario_witness :
  let req :=
    {| TenantProperty.body_tenantId := Some "tenant-1";
       TenantProperty.body_propertyId := Some "property-1";
       TenantProperty.body_period := Some "2025-03";
       TenantProperty.body_rentAmount := Some (JS.of_Z 1000);
       TenantProperty.body_utilitiesAmount := None;
       TenantProperty.body_depositAmount := None;
       TenantProperty.body_description := None |} in
  let created :=
    @TenantProperty.post_create Fixture.client "pay-1" 1000 "landlord-1" req ∅ in
  let charged :=
    TenantProperty.post_pay (Fixture.stripe "requires_payment_method") "tenant-1" "pay-1"
      (store created) in
  let notified :=
    @TenantProperty.post_webhook (Fixture.webhooks ["ch_1"]) 2000
      "payment_intent.succeeded" (Some "good") (Some "whsec") (store charged) in
  let synced :=
    TenantProperty.post_sync (Fixture.stripe "succeeded") 3000 "tenant-1" "pay-1"
      (store notified) in
  code (response created) = 200 /\
  response charged = ok (json_client_secret "pi_1_secret" "pi_1") /\
  code (response notified) = 200 /\
  store synced = store notified /\
  response synced = ok (json_sync "No sync needed" paid false).
Proof.
  assert (~ (exists k p, (∅ : Store) !! k = Some p /\ active p /\
               landlordId (data p) = "landlord-1" /\ tenantId (data p) = "tenant-1" /\
               propertyId (data p) = "property-1" /\ period (data p) = "2025-03"))
    as Hnone.
  { intros (k & p & Hkp & _). rewrite lookup_empty in Hkp. discriminate Hkp. }
  pose proof (@payment_scenario Fixture.client (Fixture.webhooks ["ch_1"])
                "tenant-1" "property-1" "landlord-1" "pay-1" 1000 2000 3000
                (Fixture.stripe "requires_payment_method") (Fixture.stripe "succeeded")
                (Fixture.intent "requires_payment_method" [])
                (Fixture.intent "succeeded" ["ch_1"])
                "payment_intent.succeeded" (Some "good") (Some "whsec")
                {| Stripe.event_type := "payment_intent.succeeded";
                   Stripe.object := Fixture.intent "succeeded" ["ch_1"] |}
                "ch_1" [] "tenant-1" ∅
                ltac:(discriminate) ltac:(discriminate) ltac:(discriminate)
                ltac:(discriminate) Hnone eq_refl eq_refl eq_refl eq_refl eq_refl
                (or_introl eq_refl) eq_refl)
    as ((Hc & _) & (_ & Hpay & _) & (Hn & _) & Hs1 & Hs2).
  cbn zeta. repeat split; assumption.
Defined.

(** ** The create routes: what is checked before the write *)

(** The tenant/property-keyed create route makes all its checks before it
    writes: a request it does not answer with 200 leaves the collection as
    it was. *)
Lemma tenant_property_create_checks_first `{Firestore.Client}
    (newId : string) (now : Z) (userId : string)
    (req : TenantProperty.CreateBody) (db : Store) :
  let r := TenantProperty.post_create newId now userId req db in
  code (response r) <> 200 -> store r = db /\ calls r = [].
Proof.
  cbn zeta. unfold TenantProperty.post_create, PaymentService.create.
  repeat case_match; cbn [store response calls code respond ok error]; done.
Qed.

(** Initiate-charge by the tenant, on a pending or failed payment without
    an intent, asks the processor for an intent of the payment's total in
    cents, whatever that amount is. *)
Lemma pay_asks_for_intent (stripe : Stripe.Api) (userId paymentId : string)
    (db : Store) (p : Payment) :
  db !! paymentId = Some p -> tenantId (data p) = userId ->
  status p = pending \/ status p = failed ->
  stripePaymentIntentId p = None ->
  calls (TenantProperty.post_pay stripe userId paymentId db)
  = [Stripe.called_create (TenantProperty.intent_params paymentId p)].
Proof.
  intros Hp Hten Hst Hint. unfold TenantProperty.post_pay, PaymentService.getById.
  rewrite Hp, Hint.
  rewrite bool_decide_eq_false_2 by (intros Hne; by apply Hne).
  destruct Hst as [-> | ->]; cbn; by repeat case_match.
Qed.

(** C8. The tenant/property-keyed create route checks the total in currency
    units ([totalAmount <= 0]) and initiate-charge checks nothing, so that
    a pending payment is persisted whose charge amount, the
    [Math.round(totalAmount * 100)] cents handed to the processor, is not
    positive: 0 for a total of a tenth of a cent, [NaN] for a rent of
    [1e999] with utilities of [-1e999]. The lease-keyed route does test
    that amount ([amountInCents <= 0]). *)
Theorem create_persists_unchargeable_payment :
  let create req :=
    @TenantProperty.post_create Fixture.client "pay-1" 1000 "landlord-1" req ∅ in
  let small := create (Fixture.amounts_request (Some Fixture.tenth_of_a_cent) None) in
  let no_total :=
    create (Fixture.amounts_request (Some (Fixture.overflow false))
              (Some (Fixture.overflow true))) in
  let persisted (r : Result) (total cents : JS.number) :=
    code (response r) = 200 /\
    exists q, store r !! "pay-1" = Some q /\
      status q = pending /\ stripePaymentIntentId q = None /\
      totalAmount (data q) = Some total /\
      Stripe.create_amount (TenantProperty.intent_params "pay-1" q) = cents /\
      JS.gt cents JS.zero = false /\
      forall stripe,
        calls (TenantProperty.post_pay stripe "tenant-1" "pay-1" (store r))
        = [Stripe.called_create (TenantProperty.intent_params "pay-1" q)] in
  persisted small Fixture.tenth_of_a_cent JS.zero /\
  persisted no_total JS.NaN JS.NaN /\
  JS.le (LeaseKeyed.in_cents Fixture.tenth_of_a_cent) JS.zero = true.
Proof.
  cbn zeta. split; [|split]; [| |reflexivity].
  - split; [reflexivity|]. eexists. split; [reflexivity|].
    do 5 (split; [reflexivity|]).
    intros stripe. apply pay_asks_for_intent; try reflexivity. by left.
  - split; [reflexivity|]. eexists. split; [reflexivity|].
    do 5 (split; [reflexivity|]).
    intros stripe. apply pay_asks_for_intent; try reflexivity. by left.
Qed.

(** ** The lease-keyed create route *)

Section LeaseCreate.
Context `{Firestore.Client}.
Import Firestore PaymentService LeaseKeyed.

(** The duplicate guard of the lease-keyed route calls
    [existsForPeriod(leaseId, period)]: the lease id lands in the
    [tenantId] filter, the period in the [propertyId] filter, and the
    [period] filter is [undefined]. The guard answers [true] only when the
    client lets documents through an [undefined] filter and some pending or
    paid document has the lease id as tenant and the period as property. *)
Lemma lease_guard_true (lid per : string) (db : Store) :
  existsForPeriod (JS.str lid) (JS.str per) JS.undefined db = Some true <->
  where_undefined = Some true /\
  exists k p, db !! k = Some p /\ tenantId (data p) = lid /\
    propertyId (data p) = per /\ active p.
Proof.
  unfold existsForPeriod, get. cbn [forallb accepted andb].
  destruct where_undefined as [w|] eqn:Hw; cbn [bool_decide is_Some mbind option_bind].
  2: { rewrite bool_decide_eq_false_2 by (by intros [? ?]). cbn.
       split; [done|]. by intros [? _]. }
  rewrite bool_decide_eq_true_2 by by eexists.
  cbn -[matches limit empty docs]. rewrite empty_limit_one.
  split.
  - intros [= Hne%negb_true_iff]. apply empty_false_iff in Hne as ([k p] & Hin & Hm).
    apply elem_of_docs in Hin. cbn in Hm. rewrite Hw in Hm. cbn in Hm.
    rewrite !andb_true_iff, !bool_decide_eq_true in Hm.
    destruct Hm as ([= ?] & [= ?] & -> & Hst & _).
    split; [done|]. exists k, p. repeat split; try done.
    unfold active. rewrite !elem_of_cons in Hst. destruct Hst as [?|[?|Hnil]]; auto.
    by apply elem_of_nil in Hnil.
  - intros ([= ->] & k & p & Hkp & <- & <- & Hact). f_equal. apply negb_true_iff.
    apply empty_false_iff. exists (k, p). split; [by apply elem_of_docs|].
    cbn. rewrite Hw. cbn. rewrite !andb_true_iff, !bool_decide_eq_true.
    repeat split; try done. rewrite !elem_of_cons. unfold active in Hact. tauto.
Qed.

(** With a client that refuses an [undefined] filter value, the guard
    throws whatever is stored. *)
Lemma lease_guard_throws (lid per : string) (db : Store) :
  where_undefined = None ->
  existsForPeriod (JS.str lid) (JS.str per) JS.undefined db = None.
Proof.
  intros Hw. unfold existsForPeriod, get. cbn [forallb accepted andb].
  rewrite Hw. by rewrite bool_decide_eq_false_2 by (by intros [? ?]).
Qed.

(** What the lease-keyed [POST /create] does to the collection: nothing, or
    it adds one pending document that stores [amount] and no
    [totalAmount]; the document has an intent id only when the request
    succeeded. *)
Lemma lease_create_store (stripe : Stripe.Api) (leases : Lookup Lease)
    (newId : string) (now : Z) (userId : string) (req : CreateBody) (db : Store) :
  let r := post_create stripe leases newId now userId req db in
  store r = db \/
  exists q, store r = <[newId := q]> db /\ status q = pending /\
    totalAmount (data q) = None /\ is_Some (amount (data q)) /\
    (stripePaymentIntentId q = None \/ code (response r) = 200).
Proof.
  cbn zeta. unfold post_create, create.
  repeat (case_match; try (left; reflexivity)); cbn [store response code respond ok error].
  all: try (right; eexists; split; [reflexivity|]; cbn; by eauto).
  match goal with Hu : updateStripeIntentId _ _ _ = Some _ |- _ =>
    apply update_Some in Hu as (q & Hq & ->) end.
  rewrite lookup_insert_eq in Hq. injection Hq as <-.
  right. eexists. split; [apply insert_insert_eq|]. cbn. by eauto.
Qed.

(** With a client that refuses an [undefined] filter value the route never
    gets past the guard: it writes nothing, calls nobody, and answers
    neither 200 nor 409. *)
Lemma lease_create_never_writes (stripe : Stripe.Api) (leases : Lookup Lease)
    (newId : string) (now : Z) (userId : string) (req : CreateBody) (db : Store) :
  where_undefined = None ->
  let r := post_create stripe leases newId now userId req db in
  store r = db /\ calls r = [] /\ code (response r) <> 200 /\ code (response r) <> 409.
Proof.
  intros Hw. cbn zeta. unfold post_create.
  rewrite (lease_guard_throws _ _ db Hw).
  repeat case_match; cbn [store calls response code respond error]; done.
Qed.

(** With such a client a request that reaches the guard is answered with
    500. *)
Lemma lease_create_fails_at_guard (stripe : Stripe.Api) (leases : Lookup Lease)
    (newId : string) (now : Z) (userId : string) (req : CreateBody) (db : Store)
    (lid per : string) (lease : Lease) :
  where_undefined = None ->
  body_leaseId req = Some lid -> body_period req = Some per ->
  lid <> "" -> JS.period_regex_test per = true ->
  leases lid = Some (Some lease) ->
  lease_tenantId lease = userId -> lease_status lease = "active" ->
  post_create stripe leases newId now userId req db
  = respond (error 500 "Failed to create payment") db [].
Proof.
  intros Hw Hlid Hper Hne Hre Hlease Hten Hact.
  unfold post_create. rewrite Hlid, Hper. cbn [default from_option id].
  assert (JS.truthy_string (Some lid) = true) as -> by (by destruct lid).
  assert (JS.truthy_string (Some per) = true) as -> by (by destruct per).
  rewrite Hre, Hlease, (lease_guard_throws _ _ db Hw). cbn [negb orb].
  rewrite (bool_decide_eq_false_2 (lease_tenantId lease <> userId)) by auto.
  by rewrite (bool_decide_eq_false_2 (lease_status lease <> "active")) by auto.
Qed.

Lemma lease_guard_not_409 (stripe : Stripe.Api) (leases : Lookup Lease)
    (newId : string) (now : Z) (userId : string) (req : CreateBody) (db : Store) :
  (forall k p, db !! k = Some p ->
     ~ (Some (tenantId (data p)) = body_leaseId req /\
        Some (propertyId (data p)) = body_period req)) ->
  code (response (post_create stripe leases newId now userId req db)) <> 409.
Proof.
  intros Hnone. unfold post_create.
  destruct (JS.truthy_string (body_leaseId req)) eqn:Hl; [|done].
  destruct (JS.truthy_string (body_period req)) eqn:Hp; [|done].
  apply truthy_string_default in Hl, Hp. cbn [negb orb].
  destruct (existsForPeriod _ _ _ db) as [[|]|] eqn:Hex.
  - apply lease_guard_true in Hex as (_ & k & p & Hkp & Hten & Hpr & _).
    destruct (Hnone k p Hkp). rewrite Hl, Hp. by rewrite Hten, Hpr.
  - unfold create. repeat case_match; cbn [response code respond error ok]; done.
  - repeat case_match; cbn [response code respond error ok]; done.
Qed.

End LeaseCreate.

(** ** The duplicate guard of the lease-keyed route *)

(** The claim as the specification has it fails in its last part: no
    payment has the lease id as tenant, the 409 is not answered, and yet
    neither a first nor a second create for the lease and period
    succeeds. The store client refuses the guard's [undefined] filter
    value, both requests are answered with 500 and nothing is stored. *)
Lemma lease_second_create_fails :
  let stripe := Fixture.stripe "requires_payment_method" in
  let first :=
    @LeaseKeyed.post_create Fixture.client stripe (Fixture.leases 1000) "pay-1" 1000
      "tenant-1" Fixture.lease_request ∅ in
  let second :=
    @LeaseKeyed.post_create Fixture.client stripe (Fixture.leases 1000) "pay-2" 2000
      "tenant-1" Fixture.lease_request (store first) in
  response first = error 500 "Failed to create payment" /\ store first = ∅ /\
  response second = error 500 "Failed to create payment" /\ store second = ∅ /\
  calls first = [] /\ calls second = [].
Proof. repeat split; reflexivity. Qed.

(** C9 (amended). The duplicate guard of the lease-keyed create route calls
    [existsForPeriod(leaseId, period)], so that the lease id is compared
    with [tenantId], the period with [propertyId], and the period filter is
    [undefined]. In every state of the collection in which no payment has
    the lease id as [tenantId] and the period as [propertyId], the route
    never answers 409. With a store client that refuses an [undefined]
    filter value the guard throws: the route then persists nothing, calls
    nobody and never answers 200, and a request that reaches the guard is
    answered with 500. *)
Theorem lease_duplicate_guard_unreachable `{Firestore.Client}
    (stripe : Stripe.Api) (leases : Firestore.Lookup LeaseKeyed.Lease)
    (newId : string) (now : Z) (userId : string)
    (req : LeaseKeyed.CreateBody) (db : Store) :
  (forall k p, db !! k = Some p ->
     ~ (Some (tenantId (data p)) = LeaseKeyed.body_leaseId req /\
        Some (propertyId (data p)) = LeaseKeyed.body_period req)) ->
  let r := LeaseKeyed.post_create stripe leases newId now userId req db in
  code (response r) <> 409 /\
  (forall lid per,
     PaymentService.existsForPeriod (JS.str lid) (JS.str per) JS.undefined db = Some true <->
     Firestore.where_undefined = Some true /\
     exists k p, db !! k = Some p /\ tenantId (data p) = lid /\
       propertyId (data p) = per /\ active p) /\
  (Firestore.where_undefined = None ->
   (forall lid per,
      PaymentService.existsForPeriod (JS.str lid) (JS.str per) JS.undefined db = None) /\
   store r = db /\ calls r = [] /\ code (response r) <> 200 /\
   (forall lid per lease,
      LeaseKeyed.body_leaseId req = Some lid ->
      LeaseKeyed.body_period req = Some per ->
      lid <> "" -> JS.period_regex_test per = true ->
      leases lid = Some (Some lease) ->
      LeaseKeyed.lease_tenantId lease = userId ->
      LeaseKeyed.lease_status lease = "active" ->
      r = respond (error 500 "Failed to create payment") db [])).
Proof.
  intros Hnone r. split; [by apply lease_guard_not_409|].
  split; [intros lid per; apply lease_guard_true|].
  intros Hw. split; [intros lid per; by apply lease_guard_throws|].
  destruct (lease_create_never_writes stripe leases newId now userId req db Hw)
    as (Hs & Hc & H200 & _).
  do 3 (split; [done|]).
  intros lid per lease. by apply lease_create_fails_at_guard.
Qed.

Lemma lease_duplicate_guard_unreachable_witness :
  let r :=
    @LeaseKeyed.post_create Fixture.client (Fixture.stripe "requires_payment_method")
      (Fixture.leases 1000) "pay-1" 1000 "tenant-1" Fixture.lease_request ∅ in
  code (response r) <> 409 /\
  r = respond (error 500 "Failed to create payment") ∅ [].
Proof.
  intros r.
  assert (forall k p, (∅ : Store) !! k = Some p ->
            ~ (Some (tenantId (data p)) = LeaseKeyed.body_leaseId Fixture.lease_request /\
               Some (propertyId (data p)) = LeaseKeyed.body_period Fixture.lease_request))
    as Hnone.
  { intros k p Hkp. rewrite lookup_empty in Hkp. discriminate Hkp. }
  destruct (@lease_duplicate_guard_unreachable Fixture.client
              (Fixture.stripe "requires_payment_method") (Fixture.leases 1000)
              "pay-1" 1000 "tenant-1" Fixture.lease_request ∅ Hnone)
    as (Hno409 & _ & Hthrows).
  destruct (Hthrows eq_refl) as (_ & _ & _ & _ & H500).
  split; [exact Hno409|].
  exact (H500 "lease-1" "2025-03" (Fixture.lease 1000) eq_refl eq_refl
           ltac:(discriminate) eq_refl eq_refl eq_refl eq_refl).
Defined.

(** ** Landlord statistics *)

Section Stats.
Context `{Firestore.Client}.
Import Firestore PaymentService.

Lemma sum_from_NaN (payments : list Payment) :
  fold_left (fun sum p => JS.add sum (JS.to_number (totalAmount (data p))))
    payments JS.NaN = JS.NaN.
Proof. induction payments as [|p l IH]; [done|]. cbn [fold_left]. by rewrite add_NaN_l. Qed.

(** One payment without [totalAmount] turns the whole sum into [NaN]. *)
Lemma sum_totalAmount_NaN (payments : list Payment) (p : Payment) :
  p ∈ payments -> totalAmount (data p) = None ->
  sum_totalAmount payments = JS.NaN.
Proof.
  unfold sum_totalAmount. generalize JS.zero as acc.
  induction payments as [|q l IH]; intros acc Hin Hnone.
  - by apply elem_of_nil in Hin.
  - cbn [fold_left]. apply elem_of_cons in Hin as [<-|Hin].
    + rewrite Hnone. cbn [JS.to_number]. rewrite add_NaN_r. apply sum_from_NaN.
    + by apply IH.
Qed.

(** The [reduce] of the statistics is the sum of the totals, in the order
    of the documents. *)
Lemma sum_totalAmount_sum_of (l : list (string * Payment)) :
  sum_totalAmount (map snd l) = sum_of (map total_of l).
Proof.
  unfold sum_totalAmount, sum_of. generalize JS.zero as acc.
  induction l as [|d l IH]; intros acc; [done|]. cbn. apply IH.
Qed.

Lemma sum_of_snoc (xs : list JS.number) (x : JS.number) :
  sum_of (xs ++ [x]) = JS.add (sum_of xs) x.
Proof.
  unfold sum_of. generalize JS.zero as acc.
  induction xs as [|y xs IH]; intros acc; [done|]. cbn. apply IH.
Qed.

Lemma filter_map_snd {A B} (f : B -> bool) (l : list (A * B)) :
  map snd (List.filter (fun d => f (snd d)) l) = List.filter f (map snd l).
Proof.
  induction l as [|[a b] l IH]; [done|]. cbn. destruct (f b); cbn; by rewrite IH.
Qed.

Lemma filter_Permutation {A} (f : A -> bool) (l1 l2 : list A) :
  l1 ≡ₚ l2 -> List.filter f l1 ≡ₚ List.filter f l2.
Proof.
  induction 1 as [|x l1 l2 Hp IH|x y l|l1 l2 l3 Hp1 IH1 Hp2 IH2]; cbn.
  - done.
  - destruct (f x); by rewrite IH.
  - destruct (f x), (f y); try done. apply perm_swap.
  - by rewrite IH1.
Qed.

Lemma landlord_snapshot (landlord : string) (db : Store) :
  get [where_eq f_landlordId (JS.str landlord)] db = Some (landlord_docs landlord db).
Proof.
  unfold get, landlord_docs. cbn [forallb accepted]. f_equal.
  apply filter_ext. intros [k p]. cbn.
  rewrite andb_true_r. apply bool_decide_ext. split; congruence.
Qed.

(** They are the landlord's payments, in another order. *)
Lemma landlord_docs_payments_of (landlord : string) (db : Store) :
  map snd (landlord_docs landlord db) ≡ₚ payments_of landlord db.
Proof.
  unfold landlord_docs, payments_of.
  assert (map snd
            (List.filter (fun d => bool_decide (landlordId (data (snd d)) = landlord))
               (docs db))
          = List.filter (fun p => bool_decide (landlordId (data p) = landlord))
              (map snd (docs db))) as ->.
  { induction (docs db) as [|[k p] l IH]; [done|]. cbn.
    case_bool_decide; cbn; by rewrite IH. }
  apply filter_Permutation. rewrite !map_is_fmap. by rewrite docs_Permutation.
Qed.

Lemma listed_landlord_docs (landlord : string) (s : Status) (db : Store) :
  listed landlord s db
    (List.filter (fun d => has_status s (snd d)) (landlord_docs landlord db)).
Proof.
  split.
  - intros k p. unfold landlord_docs.
    rewrite list_elem_of_In, !filter_In, <- list_elem_of_In, elem_of_docs.
    cbn. unfold has_status. rewrite !bool_decide_eq_true. tauto.
  - apply ascending_filter, ascending_filter, ascending_docs.
Qed.

(** The list the statistics read is determined by the collection. *)
Lemma listed_unique (landlord : string) (s : Status) (db : Store)
    (l1 l2 : list (string * Payment)) :
  listed landlord s db l1 -> listed landlord s db l2 -> l1 = l2.
Proof.
  intros [Hm1 Hs1] [Hm2 Hs2]. apply ascending_unique; [done|done|].
  intros [k p]. by rewrite Hm1, Hm2.
Qed.

Lemma elem_of_landlord_docs (landlord : string) (db : Store) (s : Status)
    (k : string) (p : Payment) :
  db !! k = Some p -> landlordId (data p) = landlord -> status p = s ->
  p ∈ List.filter (has_status s) (map snd (landlord_docs landlord db)).
Proof.
  intros Hkp Hl Hs. apply list_elem_of_In, filter_In. split.
  - apply in_map_iff. exists (k, p). split; [done|].
    apply filter_In. split; [by apply list_elem_of_In, elem_of_docs|].
    by apply bool_decide_eq_true.
  - by apply bool_decide_eq_true.
Qed.

End Stats.

(** C10. [getLandlordStats] computes [totalRevenue] as the sum of
    [totalAmount] over the landlord's paid payments and [pendingAmount] as
    the sum over the pending ones, the payments taken each once, in
    ascending order of their ids, and added one after the other from 0; as
    soon as one of those payments has no [totalAmount] the sum is [NaN];
    and every document the lease-keyed create route writes has an [amount]
    and no [totalAmount]. *)
Theorem landlord_stats_NaN `{Firestore.Client} (landlord : string) (db : Store) :
  exists stats paid_docs pending_docs,
    PaymentService.getLandlordStats landlord db = Some stats /\
    listed landlord paid db paid_docs /\
    listed landlord pending db pending_docs /\
    PaymentService.totalRevenue stats = sum_of (map total_of paid_docs) /\
    PaymentService.pendingAmount stats = sum_of (map total_of pending_docs) /\
    ((exists k p, db !! k = Some p /\ landlordId (data p) = landlord /\
        status p = paid /\ totalAmount (data p) = None) ->
     PaymentService.totalRevenue stats = JS.NaN) /\
    ((exists k p, db !! k = Some p /\ landlordId (data p) = landlord /\
        status p = pending /\ totalAmount (data p) = None) ->
     PaymentService.pendingAmount stats = JS.NaN) /\
    (forall stripe leases newId now userId req k q,
       store (LeaseKeyed.post_create stripe leases newId now userId req db) !! k = Some q ->
       db !! k <> Some q ->
       totalAmount (data q) = None /\ is_Some (amount (data q))).
Proof.
  unfold PaymentService.getLandlordStats.
  rewrite (landlord_snapshot landlord db). cbn [mbind option_bind].
  eexists _,
    (List.filter (fun d => PaymentService.has_status paid (snd d))
       (landlord_docs landlord db)),
    (List.filter (fun d => PaymentService.has_status pending (snd d))
       (landlord_docs landlord db)).
  split; [reflexivity|].
  cbn [PaymentService.totalRevenue PaymentService.pendingAmount].
  split; [apply listed_landlord_docs|]. split; [apply listed_landlord_docs|].
  split; [by rewrite <- sum_totalAmount_sum_of, filter_map_snd|].
  split; [by rewrite <- sum_totalAmount_sum_of, filter_map_snd|].
  split; [|split].
  - intros (k & p & Hkp & Hl & Hs & Hnone).
    eapply sum_totalAmount_NaN; [|exact Hnone]. by eapply elem_of_landlord_docs.
  - intros (k & p & Hkp & Hl & Hs & Hnone).
    eapply sum_totalAmount_NaN; [|exact Hnone]. by eapply elem_of_landlord_docs.
  - intros stripe leases newId now userId req k q Hq Hnew.
    destruct (lease_create_store stripe leases newId now userId req db)
      as [Hsame|(q' & Hs & _ & Hnone & Ham & _)].
    + by rewrite Hsame in Hq.
    + rewrite Hs in Hq. destruct (decide (k = newId)) as [->|Hk].
      * rewrite lookup_insert_eq in Hq. by injection Hq as <-.
      * by rewrite lookup_insert_ne in Hq.
Qed.

Lemma landlord_stats_NaN_witness :
  let db : Store :=
    {[ "pay-1" := Fixture.payment paid;
       "pay-2" := Fixture.lease_keyed_payment pending ]} in
  exists stats,
    @PaymentService.getLandlordStats Fixture.client "landlord-1" db = Some stats /\
    PaymentService.totalRevenue stats = JS.of_Z 1000 /\
    PaymentService.pendingAmount stats = JS.NaN.
Proof.
  intros db.
  destruct (@landlord_stats_NaN Fixture.client "landlord-1" db)
    as (stats & paid_docs & pending_docs & Hstats & _ & _ & _ & _ & _ & Hpending & _).
  exists stats. split; [exact Hstats|]. split.
  - injection Hstats as <-. reflexivity.
  - apply Hpending.
    exists "pay-2", (Fixture.lease_keyed_payment pending). repeat split.
Defined.

(** * Further properties of the payment code *)

(** ** What the writing routes touch *)

Lemma update_frame (id : string) (f : Payment -> Payment) (db db' : Store) :
  Firestore.update id f db = Some db' ->
  dom db' = dom db /\ forall k, k <> id -> db' !! k = db !! k.
Proof.
  intros (p & Hp & ->)%update_Some. split.
  - by apply dom_insert_lookup_L.
  - intros k Hk. by apply lookup_insert_ne.
Qed.

Lemma touched_at_most_frame (id : string) (db db' : Store) :
  touched_at_most id db db' ->
  dom db' = dom db /\ forall k, k <> id -> db' !! k = db !! k.
Proof. intros [->|[f Hf]]; [done|]. by eapply update_frame. Qed.

Lemma sync_touches (stripe : Stripe.Api) (now : Z) (userId paymentId : string)
    (db : Store) :
  touched_at_most paymentId db (store (Routes.post_sync stripe now userId paymentId db)).
Proof.
  unfold Routes.post_sync, PaymentService.updateStatus.
  repeat case_match; cbn [store respond]; try (by left); right; by eexists.
Qed.

Lemma pay_touches (stripe : Stripe.Api) (userId paymentId : string) (db : Store) :
  touched_at_most paymentId db (store (TenantProperty.post_pay stripe userId paymentId db)).
Proof.
  unfold TenantProperty.post_pay, PaymentService.updateStripeIntentId.
  repeat case_match; cbn [store respond]; try (by left); right; by eexists.
Qed.

Lemma cancel_touches (now : Z) (userId paymentId : string) (db : Store) :
  touched_at_most paymentId db (store (TenantProperty.delete_payment now userId paymentId db)).
Proof.
  unfold TenantProperty.delete_payment, PaymentService.updateStatus.
  repeat case_match; cbn [store respond]; try (by left); right; by eexists.
Qed.

Lemma webhook_touches `{Stripe.Webhooks} (now : Z) (rawBody : string)
    (sig secret : option string) (db : Store) :
  let r := Routes.post_webhook now rawBody sig secret db in
  store r = db \/
  exists ev id, Stripe.constructEvent rawBody sig secret = Stripe.verified ev /\
    Stripe.metadata_get "paymentId" (Stripe.metadata (Stripe.object ev)) = Some id /\
    touched_at_most id db (store r).
Proof.
  cbn zeta. unfold Routes.post_webhook, PaymentService.updateStatus.
  destruct (Stripe.constructEvent rawBody sig secret) as [msg|ev] eqn:Hev; [by left|].
  repeat case_match; cbn [store respond]; try (by left).
  all: right; eexists ev, _; split; [done|]; split; [done|]; right; by eexists.
Qed.

(** X1. Manual sync, initiate-charge and landlord cancellation change at most
    the document they are asked about, and a webhook at most the document
    its event's metadata names; none of them adds or removes a document. *)
Theorem writes_touch_one_document `{Stripe.Webhooks}
    (stripe : Stripe.Api) (now : Z) (userId paymentId : string)
    (rawBody : string) (sig secret : option string) (db : Store) :
  let sync := store (Routes.post_sync stripe now userId paymentId db) in
  let pay := store (TenantProperty.post_pay stripe userId paymentId db) in
  let cancel := store (TenantProperty.delete_payment now userId paymentId db) in
  let hook := store (Routes.post_webhook now rawBody sig secret db) in
  (dom sync = dom db /\ forall k, k <> paymentId -> sync !! k = db !! k) /\
  (dom pay = dom db /\ forall k, k <> paymentId -> pay !! k = db !! k) /\
  (dom cancel = dom db /\ forall k, k <> paymentId -> cancel !! k = db !! k) /\
  (dom hook = dom db /\
   forall k, hook !! k <> db !! k ->
     exists ev, Stripe.constructEvent rawBody sig secret = Stripe.verified ev /\
       Stripe.metadata_get "paymentId" (Stripe.metadata (Stripe.object ev)) = Some k).
Proof.
  cbn zeta. split; [|split; [|split]].
  - apply touched_at_most_frame, sync_touches.
  - apply touched_at_most_frame, pay_touches.
  - apply touched_at_most_frame, cancel_touches.
  - destruct (webhook_touches now rawBody sig secret db) as [->|(ev & id & Hev & Hid & Ht)].
    + split; [done|]. intros k Hk. by destruct Hk.
    + apply touched_at_most_frame in Ht as [Hdom Hframe]. split; [done|].
      intros k Hk. exists ev. split; [done|].
      destruct (decide (k = id)) as [->|Hne]; [done|]. by destruct Hk; apply Hframe.
Qed.

(** ** Who may do what *)

(** X2. For an existing payment, reading it ([GET /:paymentId]), syncing it
    and asking for its intent are refused with 403 exactly to a requester
    who is neither its tenant nor its landlord, and cancelling it exactly
    to a requester who is not its landlord; a refused request writes
    nothing and makes no call to the processor. *)
Theorem authorization_matrix (stripe : Stripe.Api) (now : Z) (userId paymentId : string)
    (db : Store) (p : Payment) :
  db !! paymentId = Some p -> paymentId <> "" ->
  let outsider := tenantId (data p) <> userId /\ landlordId (data p) <> userId in
  let read := Reads.get_payment userId paymentId db in
  let sync := Routes.post_sync stripe now userId paymentId db in
  let intent := Reads.post_get_intent stripe userId (Some paymentId) db in
  let cancel := TenantProperty.delete_payment now userId paymentId db in
  (read = Reads.rejected 403 "Unauthorized" None <-> outsider) /\
  (~ outsider -> read = Reads.answered (paymentId, p)) /\
  (code (response sync) = 403 <-> outsider) /\
  (intent = (Reads.rejected 403 "Unauthorized" None, []) <-> outsider) /\
  (code (response cancel) = 403 <-> landlordId (data p) <> userId) /\
  (code (response sync) = 403 -> store sync = db /\ calls sync = []) /\
  (code (response cancel) = 403 -> store cancel = db /\ calls cancel = []).
Proof.
  intros Hp Hid. cbn zeta.
  assert (JS.truthy_string (Some paymentId) = true) as Htr by (by destruct paymentId).
  unfold Reads.get_payment, Routes.post_sync, Reads.post_get_intent,
    TenantProperty.delete_payment, PaymentService.getById.
  rewrite Htr. cbn [negb default from_option id]. rewrite Hp.
  assert (bool_decide (tenantId (data p) <> userId)
          && bool_decide (landlordId (data p) <> userId) = true
          <-> tenantId (data p) <> userId /\ landlordId (data p) <> userId) as Hout
    by (by rewrite andb_true_iff, !bool_decide_eq_true).
  destruct (bool_decide (tenantId (data p) <> userId)
            && bool_decide (landlordId (data p) <> userId)) eqn:Hb.
  - destruct (proj1 Hout eq_refl) as [Ht Hl].
    rewrite (bool_decide_eq_true_2 _ Hl). cbn [response code respond error store calls].
    repeat split; try done.
    intros Hin. by destruct Hin.
  - assert (~ (tenantId (data p) <> userId /\ landlordId (data p) <> userId)) as Hin.
    { intros Ho. apply Hout in Ho. discriminate Ho. }
    split; [split; [done|by intros Ho]|]. split; [done|].
    split; [split; [|by intros Ho]|].
    { intros Hcode. exfalso. revert Hcode.
      repeat case_match; cbn [response code respond error ok]; congruence. }
    split; [split; [|by intros Ho]|].
    { intros Hcode. exfalso. revert Hcode. repeat case_match; congruence. }
    split; [|split].
    + destruct (decide (landlordId (data p) <> userId)) as [Hl|Hl].
      * by rewrite (bool_decide_eq_true_2 _ Hl).
      * rewrite (bool_decide_eq_false_2 _ Hl). split; [|done].
        intros Hcode. exfalso. revert Hcode.
        repeat case_match; cbn [response code respond error ok]; congruence.
    + intros Hcode. exfalso. revert Hcode.
      repeat case_match; cbn [response code respond error ok]; congruence.
    + destruct (bool_decide (landlordId (data p) <> userId)); [done|].
      repeat case_match; cbn [response code respond error ok]; congruence.
Qed.

Lemma authorization_matrix_witness :
  let db : Store := {[ "pay-1" := Fixture.charged pending ]} in
  Reads.get_payment "stranger" "pay-1" db = Reads.rejected 403 "Unauthorized" None /\
  code (response (Routes.post_sync (Fixture.stripe "succeeded") 5 "stranger" "pay-1" db)) = 403 /\
  code (response (TenantProperty.delete_payment 5 "tenant-1" "pay-1" db)) = 403.
Proof.
  intros db.
  assert (db !! "pay-1" = Some (Fixture.charged pending)) as Hp by reflexivity.
  destruct (authorization_matrix (Fixture.stripe "succeeded") 5 "stranger" "pay-1" db
              (Fixture.charged pending) Hp ltac:(discriminate))
    as (Hread & _ & Hsync & _).
  destruct (authorization_matrix (Fixture.stripe "succeeded") 5 "tenant-1" "pay-1" db
              (Fixture.charged pending) Hp ltac:(discriminate))
    as (_ & _ & _ & _ & Hcancel & _).
  split; [|split].
  - apply Hread. split; discriminate.
  - apply Hsync. split; discriminate.
  - apply Hcancel. discriminate.
Defined.

(** ** Cancellation *)

(** X3. When its landlord cancels a payment that is not paid, the payment
    becomes cancelled and nothing else in the document changes; after that
    initiate-charge writes nothing and calls the processor for nobody, and
    answers the tenant with 400 "Payment has been cancelled". *)
Theorem cancel_then_pay (stripe : Stripe.Api) (now : Z) (landlord paymentId : string)
    (db : Store) (p : Payment) :
  paymentId <> "" -> db !! paymentId = Some p ->
  landlordId (data p) = landlord -> status p <> paid ->
  let cancel := TenantProperty.delete_payment now landlord paymentId db in
  response cancel = ok (json_message "Payment cancelled successfully") /\
  store cancel = <[paymentId := set_status cancelled p]> db /\
  forall user,
    let pay := TenantProperty.post_pay stripe user paymentId (store cancel) in
    store pay = store cancel /\ calls pay = [] /\
    (tenantId (data p) = user ->
     response pay = error 400 "Payment has been cancelled").
Proof.
  intros Hid Hp Hl Hst. cbn zeta.
  assert (TenantProperty.delete_payment now landlord paymentId db
          = respond (ok (json_message "Payment cancelled successfully"))
              (<[paymentId := set_status cancelled p]> db) []) as Hc.
  { unfold TenantProperty.delete_payment, PaymentService.getById,
      PaymentService.updateStatus.
    rewrite Hp. rewrite (update_is_Some _ _ _ p Hid Hp).
    rewrite bool_decide_eq_false_2 by (intros Hne; by apply Hne).
    by rewrite bool_decide_eq_false_2. }
  rewrite Hc. cbn [response store respond]. split; [done|]. split; [done|].
  intros user. unfold TenantProperty.post_pay, PaymentService.getById.
  rewrite lookup_insert_eq. cbn [data status set_status].
  destruct (bool_decide (tenantId (data p) <> user)) eqn:Ht.
  - apply bool_decide_eq_true in Ht. by repeat split.
  - cbn. by repeat split.
Qed.

Lemma cancel_then_pay_witness :
  let db : Store := {[ "pay-1" := Fixture.charged pending ]} in
  let cancel := TenantProperty.delete_payment 5 "landlord-1" "pay-1" db in
  response cancel = ok (json_message "Payment cancelled successfully") /\
  response (TenantProperty.post_pay (Fixture.stripe "requires_payment_method")
              "tenant-1" "pay-1" (store cancel))
  = error 400 "Payment has been cancelled".
Proof.
  intros db.
  assert (db !! "pay-1" = Some (Fixture.charged pending)) as Hp by reflexivity.
  destruct (cancel_then_pay (Fixture.stripe "requires_payment_method") 5 "landlord-1"
              "pay-1" db (Fixture.charged pending) ltac:(discriminate) Hp eq_refl
              ltac:(discriminate)) as (Hc & _ & Hpay).
  split; [exact Hc|]. destruct (Hpay "tenant-1") as (_ & _ & Hr). exact (Hr eq_refl).
Defined.

(** ** Manual sync *)

(** X4. The status a manual sync reports is the status stored after it, and
    its [synced] flag tells whether it wrote: with [synced: false] the
    collection is as before; with [synced: true] the status changed, to paid
    (and then [paidAt] is the time of the sync) or to failed. *)
Theorem sync_reports_stored_status (stripe : Stripe.Api) (now : Z)
    (userId paymentId : string) (db : Store) (msg : string) (st : Status)
    (synced : bool) :
  let r := Routes.post_sync stripe now userId paymentId db in
  response r = ok (json_sync msg st synced) ->
  status <$> store r !! paymentId = Some st /\
  (synced = false -> store r = db) /\
  (synced = true ->
   status <$> db !! paymentId <> Some st /\
   ((st = paid /\ paidAt <$> store r !! paymentId = Some (Some now)) \/ st = failed)).
Proof.
  cbn zeta. unfold Routes.post_sync, PaymentService.getById.
  destruct (db !! paymentId) as [p|] eqn:Hp; [|done].
  repeat case_match; cbn [response store respond]; try done.
  - intros [= <- <- <-].
    match goal with Hu : PaymentService.updateStatus _ _ _ _ _ = Some _ |- _ =>
      apply updateStatus_Some in Hu as (q & p' & Hq & -> & Hst & _ & _ & Hpaid & _) end.
    match goal with Hc : _ && _ = true |- _ =>
      apply andb_true_iff in Hc as [_ Hnp%bool_decide_eq_true] end.
    rewrite lookup_insert_eq. cbn [fmap option_fmap option_map]. rewrite Hst.
    split; [done|]. split; [done|]. intros _. split.
    + cbn. congruence.
    + left. split; [done|]. rewrite Hpaid. by rewrite decide_True.
  - intros [= <- <- <-].
    match goal with Hu : PaymentService.updateStatus _ _ _ _ _ = Some _ |- _ =>
      apply updateStatus_Some in Hu as (q & p' & Hq & -> & Hst & _) end.
    match goal with Hc : _ && bool_decide (status p = pending) = true |- _ =>
      apply andb_true_iff in Hc as [_ Hpe%bool_decide_eq_true] end.
    rewrite lookup_insert_eq. cbn [fmap option_fmap option_map]. rewrite Hst.
    split; [done|]. split; [done|]. intros _. split.
    + cbn. congruence.
    + by right.
  - intros [= <- <- <-]. rewrite Hp. by repeat split.
Qed.

Lemma sync_reports_stored_status_witness :
  let db : Store := {[ "pay-1" := Fixture.charged pending ]} in
  let r := Routes.post_sync (Fixture.stripe "succeeded") 7000 "tenant-1" "pay-1" db in
  status <$> store r !! "pay-1" = Some paid /\
  paidAt <$> store r !! "pay-1" = Some (Some 7000%Z).
Proof.
  intros db r.
  destruct (sync_reports_stored_status (Fixture.stripe "succeeded") 7000 "tenant-1"
              "pay-1" db "Payment synced successfully" paid true eq_refl)
    as (Hst & _ & Hsynced).
  split; [exact Hst|].
  destruct (Hsynced eq_refl) as (_ & [[_ Hpaid]|Hf]); [exact Hpaid|discriminate Hf].
Defined.

(** ** Webhook events *)

(** X5. A verified event that is neither [payment_intent.succeeded] nor
    [payment_intent.payment_failed] is acknowledged with 200 and ignored;
    an event of those two types whose metadata names no stored payment is
    answered with 500; in both cases the collection is left as it was. *)
Theorem webhook_leaves_store `{Stripe.Webhooks} (now : Z) (rawBody : string)
    (sig secret : option string) (ev : Stripe.Event) (db : Store) :
  Stripe.constructEvent rawBody sig secret = Stripe.verified ev ->
  let r := Routes.post_webhook now rawBody sig secret db in
  let handled :=
    Stripe.event_type ev = "payment_intent.succeeded" \/
    Stripe.event_type ev = "payment_intent.payment_failed" in
  (~ handled -> response r = ok (json_received true) /\ store r = db) /\
  (handled ->
   (forall id, Stripe.metadata_get "paymentId" (Stripe.metadata (Stripe.object ev))
               = Some id -> db !! id = None) ->
   response r = error 500 "Webhook processing failed" /\ store r = db).
Proof.
  intros Hev. cbn zeta. unfold Routes.post_webhook. rewrite Hev.
  assert (forall now' id st extra, db !! id = None ->
            PaymentService.updateStatus now' id st extra db = None) as Hmiss.
  { intros now' id st extra Hnone. unfold PaymentService.updateStatus, Firestore.update.
    rewrite Hnone. by destruct id. }
  split.
  - intros Hother. rewrite !decide_False by tauto. done.
  - intros Hhandled Hnone.
    destruct (Stripe.metadata_get "paymentId" (Stripe.metadata (Stripe.object ev)))
      as [id|] eqn:Hid.
    + rewrite !(Hmiss _ _ _ _ (Hnone id eq_refl)).
      destruct Hhandled as [-> | ->]; by cbn.
    + destruct Hhandled as [-> | ->]; by cbn.
Qed.

Lemma webhook_leaves_store_witness :
  let db : Store := {[ "pay-1" := Fixture.charged pending ]} in
  let r := @Routes.post_webhook (Fixture.webhooks []) 9 "charge.refunded"
             (Some "good") (Some "whsec") db in
  response r = ok (json_received true) /\ store r = db.
Proof.
  intros db r.
  destruct (@webhook_leaves_store (Fixture.webhooks []) 9 "charge.refunded"
              (Some "good") (Some "whsec")
              {| Stripe.event_type := "charge.refunded";
                 Stripe.object := Fixture.intent "succeeded" [] |} db eq_refl)
    as [Hother _].
  apply Hother. intros [Hs|Hf]; discriminate.
Defined.

Lemma post_webhook_failed `{Stripe.Webhooks} (now : Z) (rawBody : string)
    (sig secret : option string) (ev : Stripe.Event) (paymentId : string)
    (db : Store) (p : Payment) :
  Stripe.constructEvent rawBody sig secret = Stripe.verified ev ->
  Stripe.event_type ev = "payment_intent.payment_failed" ->
  Stripe.metadata_get "paymentId" (Stripe.metadata (Stripe.object ev)) = Some paymentId ->
  paymentId <> "" -> db !! paymentId = Some p ->
  Routes.post_webhook now rawBody sig secret db
  = respond (ok (json_received true)) (<[paymentId := set_status failed p]> db) [].
Proof.
  intros Hev Hty Hmd Hid Hp. unfold Routes.post_webhook.
  rewrite Hev, Hty, Hmd. unfold PaymentService.updateStatus.
  rewrite decide_False by done. rewrite decide_True by done.
  by rewrite (update_is_Some _ _ _ p Hid Hp).
Qed.

(** X6. A verified event for a stored payment is applied whatever the
    stored status: [payment_intent.succeeded] leaves the payment paid, with
    [paidAt] the time of delivery and [stripeChargeId] the event's first
    charge ([null] when it has none); [payment_intent.payment_failed] leaves
    it failed and keeps [paidAt] and [stripeChargeId]. The request data, the
    intent id and [createdAt] are kept. *)
Theorem webhook_applies_event `{Stripe.Webhooks} (now : Z) (rawBody : string)
    (sig secret : option string) (ev : Stripe.Event) (paymentId : string)
    (db : Store) (p : Payment) :
  Stripe.constructEvent rawBody sig secret = Stripe.verified ev ->
  Stripe.metadata_get "paymentId" (Stripe.metadata (Stripe.object ev)) = Some paymentId ->
  paymentId <> "" -> db !! paymentId = Some p ->
  let r := Routes.post_webhook now rawBody sig secret db in
  (Stripe.event_type ev = "payment_intent.succeeded" ->
   response r = ok (json_received true) /\
   exists p', store r = <[paymentId := p']> db /\
     status p' = paid /\ paidAt p' = Some now /\
     stripeChargeId p' = head (Stripe.charges (Stripe.object ev)) /\
     data p' = data p /\ stripePaymentIntentId p' = stripePaymentIntentId p /\
     createdAt p' = createdAt p) /\
  (Stripe.event_type ev = "payment_intent.payment_failed" ->
   response r = ok (json_received true) /\
   exists p', store r = <[paymentId := p']> db /\
     status p' = failed /\ paidAt p' = paidAt p /\
     stripeChargeId p' = stripeChargeId p /\
     data p' = data p /\ stripePaymentIntentId p' = stripePaymentIntentId p /\
     createdAt p' = createdAt p).
Proof.
  intros Hev Hmd Hid Hp. cbn zeta. split; intros Hty.
  - rewrite (post_webhook_succeeded now rawBody sig secret ev paymentId db p) by done.
    split; [done|]. by eexists.
  - rewrite (post_webhook_failed now rawBody sig secret ev paymentId db p) by done.
    split; [done|]. by eexists.
Qed.

Lemma webhook_applies_event_witness :
  let db : Store := {[ "pay-1" := Fixture.charged cancelled ]} in
  let r := @Routes.post_webhook (Fixture.webhooks ["ch_9"]) 9 "payment_intent.succeeded"
             (Some "good") (Some "whsec") db in
  exists p', store r = <[ "pay-1" := p' ]> db /\ status p' = paid /\
    paidAt p' = Some 9%Z /\ stripeChargeId p' = Some "ch_9".
Proof.
  intros db r.
  assert (db !! "pay-1" = Some (Fixture.charged cancelled)) as Hp by reflexivity.
  destruct (@webhook_applies_event (Fixture.webhooks ["ch_9"]) 9
              "payment_intent.succeeded" (Some "good") (Some "whsec")
              {| Stripe.event_type := "payment_intent.succeeded";
                 Stripe.object := Fixture.intent "succeeded" ["ch_9"] |}
              "pay-1" db (Fixture.charged cancelled) eq_refl eq_refl
              ltac:(discriminate) Hp) as [Hs _].
  destruct (Hs eq_refl) as (_ & p' & Hstore & Hst & Hpaid & Hch & _).
  exists p'. repeat split; assumption.
Defined.

(** ** Initiate-charge with an intent already stored *)

Lemma pay_existing_intent (stripe : Stripe.Api) (userId paymentId : string)
    (db : Store) (p : Payment) (intentId : string) (existing : Stripe.PaymentIntent) :
  db !! paymentId = Some p -> tenantId (data p) = userId ->
  status p = pending \/ status p = failed ->
  stripePaymentIntentId p = Some intentId -> intentId <> "" ->
  Stripe.paymentIntents_retrieve stripe intentId = Some existing ->
  let r := TenantProperty.post_pay stripe userId paymentId db in
  let params := TenantProperty.intent_params paymentId p in
  (Stripe.status existing = "succeeded" ->
   r = respond (error 400 "Payment already completed") db
         [Stripe.called_retrieve intentId]) /\
  (Stripe.status existing = "canceled" ->
   forall fresh, paymentId <> "" ->
     Stripe.paymentIntents_create stripe params = Some fresh ->
     r = respond
           (ok (json_client_secret (Stripe.client_secret fresh) (Stripe.id fresh)))
           (<[paymentId := set_stripePaymentIntentId (Some (Stripe.id fresh)) p]> db)
           [Stripe.called_retrieve intentId; Stripe.called_create params]) /\
  (Stripe.status existing <> "succeeded" -> Stripe.status existing <> "canceled" ->
   r = respond
         (ok (json_client_secret (Stripe.client_secret existing) (Stripe.id existing)))
         db [Stripe.called_retrieve intentId]).
Proof.
  intros Hp Hten Hst Hint Hne Hret. cbn zeta.
  unfold TenantProperty.post_pay, PaymentService.getById. rewrite Hp, Hint.
  assert (JS.truthy_string (Some intentId) = true) as -> by (by destruct intentId).
  cbn [default from_option id]. rewrite Hret.
  rewrite (bool_decide_eq_false_2 (tenantId (data p) <> userId))
    by (intros Hn; by apply Hn).
  assert (bool_decide (status p = paid) = false) as ->
    by (destruct Hst as [-> | ->]; done).
  assert (bool_decide (status p = cancelled) = false) as ->
    by (destruct Hst as [-> | ->]; done).
  split; [|split].
  - intros ->. done.
  - intros Hcan fresh Hid Hcreate. rewrite Hcan, Hcreate. cbn.
    unfold PaymentService.updateStripeIntentId.
    by rewrite (update_is_Some _ _ _ p Hid Hp).
  - intros Hs Hc. rewrite (bool_decide_eq_false_2 _ Hs).
    by rewrite (bool_decide_eq_true_2 _ Hc).
Qed.

(** X7. With an intent id already stored on a pending or failed payment,
    initiate-charge by the tenant depends on what the processor reports for
    that intent: succeeded, it answers 400 and does not mark the payment
    paid; canceled, it creates a new intent and stores its id in place of
    the old one; anything else, it hands out the existing intent's client
    secret again and creates nothing. *)
Theorem pay_with_stored_intent (stripe : Stripe.Api) (userId paymentId : string)
    (db : Store) (p : Payment) (intentId : string) (existing : Stripe.PaymentIntent) :
  db !! paymentId = Some p -> tenantId (data p) = userId ->
  status p = pending \/ status p = failed ->
  stripePaymentIntentId p = Some intentId -> intentId <> "" ->
  Stripe.paymentIntents_retrieve stripe intentId = Some existing ->
  let r := TenantProperty.post_pay stripe userId paymentId db in
  let params := TenantProperty.intent_params paymentId p in
  (Stripe.status existing = "succeeded" ->
   r = respond (error 400 "Payment already completed") db
         [Stripe.called_retrieve intentId]) /\
  (Stripe.status existing = "canceled" ->
   forall fresh, paymentId <> "" ->
     Stripe.paymentIntents_create stripe params = Some fresh ->
     r = respond
           (ok (json_client_secret (Stripe.client_secret fresh) (Stripe.id fresh)))
           (<[paymentId := set_stripePaymentIntentId (Some (Stripe.id fresh)) p]> db)
           [Stripe.called_retrieve intentId; Stripe.called_create params]) /\
  (Stripe.status existing <> "succeeded" -> Stripe.status existing <> "canceled" ->
   r = respond
         (ok (json_client_secret (Stripe.client_secret existing) (Stripe.id existing)))
         db [Stripe.called_retrieve intentId]).
Proof. apply pay_existing_intent. Qed.

Lemma pay_with_stored_intent_witness :
  let db : Store := {[ "pay-1" := Fixture.charged pending ]} in
  TenantProperty.post_pay (Fixture.stripe "succeeded") "tenant-1" "pay-1" db
  = respond (error 400 "Payment already completed") db [Stripe.called_retrieve "pi_1"].
Proof.
  intros db.
  assert (db !! "pay-1" = Some (Fixture.charged pending)) as Hp by reflexivity.
  destruct (pay_with_stored_intent (Fixture.stripe "succeeded") "tenant-1" "pay-1" db
              (Fixture.charged pending) "pi_1" (Fixture.intent "succeeded" ["ch_1"])
              Hp eq_refl (or_introl eq_refl) eq_refl ltac:(discriminate) eq_refl)
    as [Hs _].
  exact (Hs eq_refl).
Defined.

(** X8. Initiate-charge can be retried: once it has created an intent, a
    second call by the tenant, while the processor reports that intent as
    neither succeeded nor canceled, returns the same client secret and
    intent id, leaves the collection as the first call left it, and asks
    the processor for no second intent. *)
Theorem pay_twice (stripe stripe' : Stripe.Api) (userId paymentId : string)
    (db : Store) (p : Payment) (intent : Stripe.PaymentIntent) :
  paymentId <> "" -> db !! paymentId = Some p ->
  tenantId (data p) = userId ->
  status p = pending \/ status p = failed ->
  stripePaymentIntentId p = None ->
  Stripe.paymentIntents_create stripe (TenantProperty.intent_params paymentId p)
  = Some intent ->
  Stripe.id intent <> "" ->
  Stripe.paymentIntents_retrieve stripe' (Stripe.id intent) = Some intent ->
  Stripe.status intent <> "succeeded" -> Stripe.status intent <> "canceled" ->
  let first := TenantProperty.post_pay stripe userId paymentId db in
  let second := TenantProperty.post_pay stripe' userId paymentId (store first) in
  response second = response first /\
  store second = store first /\
  calls second = [Stripe.called_retrieve (Stripe.id intent)].
Proof.
  intros Hid Hp Hten Hst Hnone Hcreate Hiid Hret Hs Hc. cbn zeta.
  rewrite (post_pay_creates_intent stripe userId paymentId db p intent) by done.
  cbn [store response respond].
  set (p1 := set_stripePaymentIntentId (Some (Stripe.id intent)) p).
  assert ((<[paymentId := p1]> db) !! paymentId = Some p1) as Hp1
    by apply lookup_insert_eq.
  destruct (pay_existing_intent stripe' userId paymentId (<[paymentId := p1]> db) p1
              (Stripe.id intent) intent Hp1 Hten Hst eq_refl Hiid Hret)
    as (_ & _ & Hopen).
  by rewrite (Hopen Hs Hc).
Qed.

Lemma pay_twice_witness :
  let db : Store := {[ "pay-1" := Fixture.payment pending ]} in
  let stripe := Sample.stripe_holding (Fixture.intent "requires_payment_method" []) in
  let first := TenantProperty.post_pay stripe "tenant-1" "pay-1" db in
  let second := TenantProperty.post_pay stripe "tenant-1" "pay-1" (store first) in
  response second = response first /\ store second = store first /\
  calls second = [Stripe.called_retrieve "pi_1"].
Proof.
  intros db stripe.
  assert (db !! "pay-1" = Some (Fixture.payment pending)) as Hp by reflexivity.
  exact (pay_twice stripe stripe "tenant-1" "pay-1" db (Fixture.payment pending)
           (Fixture.intent "requires_payment_method" [])
           ltac:(discriminate) Hp eq_refl (or_introl eq_refl) eq_refl eq_refl
           ltac:(discriminate)
           (eq_refl : Stripe.paymentIntents_retrieve stripe "pi_1" = Some _)
           ltac:(discriminate) ltac:(discriminate)).
Defined.

(** ** Creation: what is refused *)

Lemma period_regex_shape (s : string) :
  JS.period_regex_test s = true ->
  String.length s = 7 /\ String.get 4 s = Some "-"%char /\
  forall i c, i <> 4 -> String.get i s = Some c -> JS.is_digit c = true.
Proof.
  destruct s as [|y1 [|y2 [|y3 [|y4 [|d [|m1 [|m2 [|]]]]]]]]; try done.
  cbn [JS.period_regex_test]. rewrite !andb_true_iff, bool_decide_eq_true.
  intros ((((((H1 & H2) & H3) & H4) & ->) & H5) & H6).
  split; [done|]. split; [done|].
  intros i c Hi. do 7 (destruct i as [|i]; [cbn; try done; congruence|]). done.
Qed.

(** X9. A period passes the format check only if it is seven characters
    long, a hyphen at the fifth place and digits elsewhere; a create request
    whose period is missing or does not pass is answered with 400 by both
    create routes, which then write nothing and do not call the
    processor. *)
Theorem malformed_period_rejected `{Firestore.Client}
    (stripe : Stripe.Api) (leases : Firestore.Lookup LeaseKeyed.Lease)
    (newId : string) (now : Z) (userId : string)
    (lease_req : LeaseKeyed.CreateBody) (req : TenantProperty.CreateBody) (db : Store) :
  let a := LeaseKeyed.post_create stripe leases newId now userId lease_req db in
  let b := TenantProperty.post_create newId now userId req db in
  (forall s, JS.period_regex_test s = true ->
     String.length s = 7 /\ String.get 4 s = Some "-"%char /\
     forall i c, i <> 4 -> String.get i s = Some c -> JS.is_digit c = true) /\
  ((forall per, LeaseKeyed.body_period lease_req = Some per ->
      JS.period_regex_test per = false) ->
   code (response a) = 400 /\ store a = db /\ calls a = []) /\
  ((forall per, TenantProperty.body_period req = Some per ->
      JS.period_regex_test per = false) ->
   code (response b) = 400 /\ store b = db /\ calls b = []).
Proof.
  cbn zeta. split; [apply period_regex_shape|]. split; intros Hbad.
  - unfold LeaseKeyed.post_create.
    destruct (LeaseKeyed.body_period lease_req) as [per|] eqn:Hper.
    + cbn [default from_option id]. rewrite (Hbad per eq_refl). cbn [negb].
      by repeat case_match.
    + cbn. by rewrite orb_true_r.
  - unfold TenantProperty.post_create.
    destruct (TenantProperty.body_period req) as [per|] eqn:Hper.
    + cbn [default from_option id]. rewrite (Hbad per eq_refl). cbn [negb].
      by repeat case_match.
    + cbn. by rewrite orb_true_r.
Qed.

Lemma malformed_period_rejected_witness :
  let b := @TenantProperty.post_create Fixture.client "pay-1" 5 "landlord-1"
             (Fixture.create_request "2025-3" 1000 0) ∅ in
  code (response b) = 400 /\ store b = ∅ /\ calls b = [].
Proof.
  intros b.
  destruct (@malformed_period_rejected Fixture.client Sample.stripe_down
              (Fixture.leases 1000) "pay-1" 5 "landlord-1" Fixture.lease_request
              (Fixture.create_request "2025-3" 1000 0) ∅) as (_ & _ & Hb).
  apply Hb. intros per [= <-]. reflexivity.
Defined.

(** X10. With its fields present and the period well formed, the lease-keyed
    create route answers 500 when the lookup of the lease throws, 404 when
    the lease does not exist, 403 when the lease is another tenant's, and
    400 naming the lease's status when the lease is not active; in each
    case it writes nothing and does not call the processor. *)
Theorem lease_create_refusals `{Firestore.Client}
    (stripe : Stripe.Api) (leases : Firestore.Lookup LeaseKeyed.Lease)
    (newId : string) (now : Z) (userId : string)
    (req : LeaseKeyed.CreateBody) (db : Store) (lid per : string) :
  LeaseKeyed.body_leaseId req = Some lid -> LeaseKeyed.body_period req = Some per ->
  lid <> "" -> JS.period_regex_test per = true ->
  let r := LeaseKeyed.post_create stripe leases newId now userId req db in
  (leases lid = None ->
   r = respond (error 500 "Failed to create payment") db []) /\
  (leases lid = Some None ->
   r = respond (error 404 "Lease not found") db []) /\
  (forall lease, leases lid = Some (Some lease) ->
     LeaseKeyed.lease_tenantId lease <> userId ->
     r = respond (error 403 "Unauthorized") db []) /\
  (forall lease, leases lid = Some (Some lease) ->
     LeaseKeyed.lease_tenantId lease = userId ->
     LeaseKeyed.lease_status lease <> "active" ->
     r = respond
           (error 400 ("Cannot create payment for " ++ LeaseKeyed.lease_status lease
                       ++ " lease")) db []).
Proof.
  intros Hlid Hper Hne Hre. cbn zeta. unfold LeaseKeyed.post_create.
  rewrite Hlid, Hper. cbn [default from_option id].
  assert (JS.truthy_string (Some lid) = true) as -> by (by destruct lid).
  assert (JS.truthy_string (Some per) = true) as -> by (by destruct per).
  rewrite Hre. cbn [negb orb]. split; [|split; [|split]].
  - by intros ->.
  - by intros ->.
  - intros lease -> Hten. by rewrite (bool_decide_eq_true_2 _ Hten).
  - intros lease -> Hten Hst.
    rewrite (bool_decide_eq_false_2 (LeaseKeyed.lease_tenantId lease <> userId))
      by (intros Hn; by apply Hn).
    by rewrite (bool_decide_eq_true_2 _ Hst).
Qed.

Lemma lease_create_refusals_witness :
  let create user lid :=
    @LeaseKeyed.post_create Fixture.client Sample.stripe_down (Fixture.leases 1000)
      "pay-1" 5 user
      {| LeaseKeyed.body_leaseId := Some lid;
         LeaseKeyed.body_period := Some "2025-03";
         LeaseKeyed.body_type := None |} ∅ in
  create "tenant-2" "lease-1" = respond (error 403 "Unauthorized") ∅ [] /\
  create "tenant-1" "lease-2" = respond (error 404 "Lease not found") ∅ [] /\
  create "tenant-1" "a/b" = respond (error 500 "Failed to create payment") ∅ [].
Proof.
  intros create.
  assert (forall user lid, lid <> "" ->
            let r := create user lid in
            (Fixture.leases 1000 lid = None ->
             r = respond (error 500 "Failed to create payment") ∅ []) /\
            (Fixture.leases 1000 lid = Some None ->
             r = respond (error 404 "Lease not found") ∅ []) /\
            (forall lease, Fixture.leases 1000 lid = Some (Some lease) ->
               LeaseKeyed.lease_tenantId lease <> user ->
               r = respond (error 403 "Unauthorized") ∅ [])) as Happly.
  { intros user lid Hne.
    destruct (@lease_create_refusals Fixture.client Sample.stripe_down
                (Fixture.leases 1000) "pay-1" 5 user
                {| LeaseKeyed.body_leaseId := Some lid;
                   LeaseKeyed.body_period := Some "2025-03";
                   LeaseKeyed.body_type := None |} ∅ lid "2025-03"
                eq_refl eq_refl Hne eq_refl) as (H500 & H404 & H403 & _).
    by repeat split. }
  split; [|split].
  - destruct (Happly "tenant-2" "lease-1" ltac:(discriminate)) as (_ & _ & H403).
    apply (H403 (Fixture.lease 1000)); [reflexivity|discriminate].
  - destruct (Happly "tenant-1" "lease-2" ltac:(discriminate)) as (_ & H404 & _).
    by apply H404.
  - destruct (Happly "tenant-1" "a/b" ltac:(discriminate)) as (H500 & _).
    by apply H500.
Defined.

(** ** Creation: what is stored *)

Section CreateStored.
Context `{Firestore.Client}.
Import Firestore PaymentService TenantProperty.

(** The tenant/property-keyed create route answers 200 exactly along one
    path of its handler. *)
Lemma tenant_property_create_200 (newId : string) (now : Z) (userId : string)
    (req : CreateBody) (db : Store) :
  let r := post_create newId now userId req db in
  let deposit := parse_amount (body_depositAmount req) in
  code (response r) = 200 ->
  exists b,
    hasExistingPayments (default "" (body_tenantId req))
      (default "" (body_propertyId req)) db = Some b /\
    b && JS.gt deposit JS.zero = false /\
    JS.truthy_string (body_tenantId req) = true /\
    JS.truthy_string (body_propertyId req) = true /\
    JS.truthy_string (body_period req) = true /\
    JS.period_regex_test (default "" (body_period req)) = true /\
    JS.le (JS.add (JS.add (parse_amount (body_rentAmount req))
                     (parse_amount (body_utilitiesAmount req))) deposit) JS.zero
    = false /\
    r = respond
          (ok (json_request_created newId "Payment request created successfully"
                 (requested now userId req b)))
          (<[newId := requested now userId req b]> db) [].
Proof.
  cbn zeta. unfold post_create, create.
  destruct (JS.truthy_string (body_tenantId req)); [|done].
  destruct (JS.truthy_string (body_propertyId req)); [|done].
  destruct (JS.truthy_string (body_period req)); [|done]. cbn [negb orb].
  destruct (_ && _ && _); [done|].
  destruct (JS.period_regex_test _); [|done]. cbn [negb].
  destruct (hasExistingPayments _ _ db) as [b|]; [|done].
  destruct (b && _) eqn:Hdep; [done|].
  destruct (JS.le _ JS.zero) eqn:Hle; [done|].
  destruct (get _ db) as [snap|]; [|done].
  destruct (negb (empty (limit 1 snap))); [done|].
  intros _. by exists b.
Qed.

End CreateStored.

(** X12. The tenant/property-keyed create route never calls the processor
    and writes only when it answers 200. It then stores, under the new id,
    a pending payment with no intent id, no charge id and no [paidAt], whose
    total is rent plus utilities plus deposit and not [<= 0], and whose
    [isFirstPayment] flag is true exactly when the tenant had no pending or
    paid payment for the property; a deposit greater than 0 is only ever
    stored on a first payment. *)
Theorem create_stores_first_payment_flag `{Firestore.Client}
    (newId : string) (now : Z) (userId : string)
    (req : TenantProperty.CreateBody) (db : Store) :
  let r := TenantProperty.post_create newId now userId req db in
  calls r = [] /\
  (code (response r) <> 200 -> store r = db) /\
  (code (response r) = 200 ->
   exists q rent utilities deposit first,
     store r = <[newId := q]> db /\
     response r = ok (json_request_created newId "Payment request created successfully" q) /\
     status q = pending /\ stripePaymentIntentId q = None /\
     stripeChargeId q = None /\ paidAt q = None /\ createdAt q = now /\
     landlordId (data q) = userId /\
     rentAmount (data q) = Some rent /\ utilitiesAmount (data q) = Some utilities /\
     depositAmount (data q) = Some deposit /\
     totalAmount (data q) = Some (JS.add (JS.add rent utilities) deposit) /\
     JS.le (JS.add (JS.add rent utilities) deposit) JS.zero = false /\
     isFirstPayment (data q) = Some first /\
     (first = true <->
      ~ exists k p, db !! k = Some p /\ tenantId (data p) = tenantId (data q) /\
          propertyId (data p) = propertyId (data q) /\
          (status p = paid \/ status p = pending)) /\
     (JS.gt deposit JS.zero = true -> first = true)).
Proof.
  cbn zeta. split; [|split].
  - unfold TenantProperty.post_create, PaymentService.create.
    by repeat case_match.
  - apply tenant_property_create_checks_first.
  - intros Hcode.
    destruct (tenant_property_create_200 newId now userId req db Hcode)
      as (b & Hb & Hdep & _ & _ & _ & _ & Hle & Hr).
    rewrite Hr. cbn [store response respond].
    eexists (requested now userId req b), _, _, _, (negb b).
    repeat split; try reflexivity; try done.
    + intros Hfirst%negb_true_iff. subst b.
      destruct (hasExistingPayments_spec (default "" (TenantProperty.body_tenantId req))
                  (default "" (TenantProperty.body_propertyId req)) db)
        as (b' & Hb' & Hiff).
      rewrite Hb in Hb'. injection Hb' as <-. intros Hex. by apply Hiff in Hex.
    + intros Hnone. apply negb_true_iff.
      destruct (hasExistingPayments_spec (default "" (TenantProperty.body_tenantId req))
                  (default "" (TenantProperty.body_propertyId req)) db)
        as (b' & Hb' & Hiff).
      rewrite Hb in Hb'. injection Hb' as <-.
      destruct b; [|done]. exfalso. apply Hnone. by apply Hiff.
    + intros Hd. rewrite Hd, andb_true_r in Hdep. by rewrite Hdep.
Qed.

(** X13. A payment the tenant/property-keyed create route has answered with
    can be read back: [GET /:paymentId] answers the landlord and the tenant
    with the document stored under the id of the create response, whose
    request data, status, intent id, charge id and [paidAt] are those of
    the payment in that response, and refuses anybody else with 403.
    ([createdAt], a [Date] in the create response and a timestamp in the
    stored document, is not compared.) *)
Theorem create_then_read `{Firestore.Client}
    (newId : string) (now : Z) (userId : string)
    (req : TenantProperty.CreateBody) (db : Store)
    (id msg : string) (q : Payment) :
  let r := TenantProperty.post_create newId now userId req db in
  response r = ok (json_request_created id msg q) ->
  id = newId /\
  (forall user, user = userId \/ TenantProperty.body_tenantId req = Some user ->
     exists stored,
       Reads.get_payment user id (store r) = Reads.answered (id, stored) /\
       data stored = data q /\ status stored = status q /\
       stripePaymentIntentId stored = stripePaymentIntentId q /\
       stripeChargeId stored = stripeChargeId q /\ paidAt stored = paidAt q) /\
  (forall u, u <> userId -> TenantProperty.body_tenantId req <> Some u ->
     Reads.get_payment u id (store r) = Reads.rejected 403 "Unauthorized" None).
Proof.
  cbn zeta. intros Hresp.
  assert (code (response (TenantProperty.post_create newId now userId req db)) = 200)
    as Hcode by (by rewrite Hresp).
  destruct (tenant_property_create_200 newId now userId req db Hcode)
    as (b & _ & _ & Hten & _ & _ & _ & _ & Hr).
  rewrite Hr in Hresp |- *. cbn [response store respond] in *.
  injection Hresp as <- <- <-. split; [done|].
  unfold Reads.get_payment, PaymentService.getById. rewrite lookup_insert_eq.
  cbn [requested data landlordId tenantId].
  apply truthy_string_default in Hten.
  split.
  - intros user Huser. eexists. split; [|by repeat split].
    destruct Huser as [-> | Ht].
    + rewrite (bool_decide_eq_false_2 (userId <> userId)) by (intros Hn; by apply Hn).
      by rewrite andb_false_r.
    + rewrite Ht. cbn [default from_option id].
      by rewrite (bool_decide_eq_false_2 (user <> user)) by (intros Hn; by apply Hn).
  - intros u Hu Hnt.
    rewrite (bool_decide_eq_true_2 (userId <> u)) by (intros ->; by apply Hu).
    rewrite bool_decide_eq_true_2; [done|].
    intros Heq. apply Hnt. by rewrite Hten, Heq.
Qed.

Lemma create_then_read_witness :
  let r := @TenantProperty.post_create Fixture.client "pay-1" 5 "landlord-1"
             (Fixture.create_request "2025-03" 1000 0) ∅ in
  (exists stored,
     Reads.get_payment "tenant-1" "pay-1" (store r) = Reads.answered ("pay-1", stored) /\
     status stored = pending) /\
  Reads.get_payment "stranger" "pay-1" (store r)
  = Reads.rejected 403 "Unauthorized" None.
Proof.
  intros r.
  assert (response r
          = ok (json_request_created "pay-1" "Payment request created successfully"
                  (requested 5 "landlord-1" (Fixture.create_request "2025-03" 1000 0)
                     false))) as Hresp by reflexivity.
  destruct (@create_then_read Fixture.client "pay-1" 5 "landlord-1"
              (Fixture.create_request "2025-03" 1000 0) ∅ "pay-1"
              "Payment request created successfully"
              (requested 5 "landlord-1" (Fixture.create_request "2025-03" 1000 0) false)
              Hresp)
    as (_ & Hread & Hother).
  split.
  - destruct (Hread "tenant-1" (or_intror eq_refl)) as (stored & Hget & _ & Hst & _).
    exists stored. by split.
  - apply Hother; discriminate.
Defined.

(** ** The deposit check and the create route agree *)

(** X14. [GET /check-existing] answers [requiresDeposit] as the negation of
    [hasExistingPayments], and it tells the landlord what the create route
    will do with a deposit for that tenant and property: with
    [requiresDeposit: false] a create request asking for a deposit is
    refused with 400 and writes nothing; with [requiresDeposit: true] a
    create request with a deposit, a well-formed period and a total that is
    not [<= 0] succeeds and stores a first payment. *)
Theorem check_existing_agrees_with_create `{Firestore.Client}
    (properties : gmap string Property) (newId : string) (now : Z)
    (landlord tenant property : string) (req : TenantProperty.CreateBody)
    (db : Store) (info : Reads.ExistingInfo) :
  Reads.get_check_existing properties landlord tenant property db = Reads.answered info ->
  TenantProperty.body_tenantId req = Some tenant ->
  TenantProperty.body_propertyId req = Some property ->
  let rent := TenantProperty.parse_amount (TenantProperty.body_rentAmount req) in
  let utilities := TenantProperty.parse_amount (TenantProperty.body_utilitiesAmount req) in
  let deposit := TenantProperty.parse_amount (TenantProperty.body_depositAmount req) in
  JS.gt deposit JS.zero = true ->
  let r := TenantProperty.post_create newId now landlord req db in
  Reads.info_requiresDeposit info = negb (Reads.info_hasExistingPayments info) /\
  (Reads.info_requiresDeposit info = false ->
   code (response r) = 400 /\ store r = db) /\
  (Reads.info_requiresDeposit info = true ->
   tenant <> "" -> property <> "" ->
   (exists per, TenantProperty.body_period req = Some per /\
      JS.period_regex_test per = true) ->
   JS.le (JS.add (JS.add rent utilities) deposit) JS.zero = false ->
   code (response r) = 200 /\
   isFirstPayment ∘ data <$> store r !! newId = Some (Some true) /\
   depositAmount ∘ data <$> store r !! newId = Some (Some deposit)).
Proof.
  intros Hinfo Hten Hpr rent utilities deposit Hdep r.
  unfold Reads.get_check_existing in Hinfo.
  destruct (properties !! property) as [pd|]; [|done].
  destruct (bool_decide _); [done|].
  destruct (hasExistingPayments_spec tenant property db) as (b & Hb & Hiff).
  rewrite Hb in Hinfo. injection Hinfo as <-.
  cbn [Reads.info_requiresDeposit Reads.info_hasExistingPayments].
  split; [done|]. split.
  - intros Hreq%negb_false_iff. subst b r.
    unfold TenantProperty.post_create. rewrite Hten, Hpr.
    cbn [default from_option id]. fold rent utilities deposit.
    rewrite Hb, Hdep, (gt_zero_not_le _ Hdep), !andb_false_r.
    by repeat case_match.
  - intros Hreq%negb_true_iff Htne Hpne (per & Hper & Hre) Htot. subst b.
    assert (r = respond
                  (ok (json_request_created newId "Payment request created successfully"
                         (requested now landlord req false)))
                  (<[newId := requested now landlord req false]> db) []) as Hr.
    { subst r. unfold TenantProperty.post_create.
      rewrite Hten, Hpr, Hper. cbn [default from_option id].
      assert (JS.truthy_string (Some tenant) = true) as -> by (by destruct tenant).
      assert (JS.truthy_string (Some property) = true) as -> by (by destruct property).
      assert (JS.truthy_string (Some per) = true) as -> by (by destruct per).
      fold rent utilities deposit.
      rewrite (gt_zero_not_le _ Hdep), !andb_false_r, Hre, Hb.
      cbn [negb orb andb]. rewrite Htot.
      destruct (duplicate_query_spec landlord tenant property per db)
        as (snap & -> & Hdup).
      destruct (Firestore.empty (Firestore.limit 1 snap)) eqn:Hempty;
        [unfold requested; rewrite Hten, Hpr, Hper; cbn [default from_option id negb PaymentService.create]; fold rent utilities deposit; reflexivity|].
      exfalso. destruct (proj1 Hdup eq_refl) as (k & p & Hkp & Hact & _ & Ht & Hp & _).
      assert (false = true) as Hff; [|discriminate Hff].
      apply Hiff. exists k, p. unfold active in Hact. tauto. }
    rewrite Hr. cbn [response store respond code ok]. split; [done|].
    rewrite lookup_insert_eq. by split.
Qed.

Lemma check_existing_agrees_with_create_witness :
  let db : Store := {[ "pay-1" := Fixture.payment failed ]} in
  let r := @TenantProperty.post_create Fixture.client "pay-2" 5 "landlord-1"
             (Fixture.create_request "2025-04" 1000 500) db in
  code (response r) = 200 /\
  isFirstPayment ∘ data <$> store r !! "pay-2" = Some (Some true).
Proof.
  intros db r.
  assert (@Reads.get_check_existing Fixture.client Sample.properties "landlord-1"
            "tenant-1" "property-1" db
          = Reads.answered {| Reads.info_hasExistingPayments := false;
                              Reads.info_requiresDeposit := true |}) as Hinfo
    by (vm_compute; reflexivity).
  assert (JS.gt (TenantProperty.parse_amount
                   (TenantProperty.body_depositAmount
                      (Fixture.create_request "2025-04" 1000 500))) JS.zero = true)
    as Hdep by (vm_compute; reflexivity).
  destruct (@check_existing_agrees_with_create Fixture.client Sample.properties "pay-2" 5
              "landlord-1" "tenant-1" "property-1"
              (Fixture.create_request "2025-04" 1000 500) db _ Hinfo eq_refl eq_refl Hdep)
    as (_ & _ & Hfirst).
  assert (JS.le (JS.add (JS.add
                   (TenantProperty.parse_amount
                      (TenantProperty.body_rentAmount
                         (Fixture.create_request "2025-04" 1000 500)))
                   (TenantProperty.parse_amount
                      (TenantProperty.body_utilitiesAmount
                         (Fixture.create_request "2025-04" 1000 500))))
                   (TenantProperty.parse_amount
                      (TenantProperty.body_depositAmount
                         (Fixture.create_request "2025-04" 1000 500)))) JS.zero = false)
    as Htot by (vm_compute; reflexivity).
  assert (exists per,
            TenantProperty.body_period (Fixture.create_request "2025-04" 1000 500)
            = Some per /\ JS.period_regex_test per = true) as Hper
    by (exists "2025-04"; split; reflexivity).
  destruct (Hfirst eq_refl ltac:(discriminate) ltac:(discriminate) Hper Htot)
    as (Hc & Hf & _).
  split; assumption.
Defined.

(** ** Asking for the intent again *)

(** X15. [POST /get-intent] hands out a client secret only for a stored
    payment that the requester is tenant or landlord of, that is not paid,
    that has an intent id, and whose intent the processor reports as neither
    succeeded nor canceled; the secret, status and amount it returns are
    those of that intent, and the only call it makes is the retrieve. *)
Theorem get_intent_answers_only_open (stripe : Stripe.Api) (userId : string)
    (body_paymentId : option string) (db : Store) (info : Reads.IntentInfo)
    (cs : list Stripe.Call) :
  Reads.post_get_intent stripe userId body_paymentId db = (Reads.answered info, cs) ->
  exists paymentId p intentId intent,
    body_paymentId = Some paymentId /\ db !! paymentId = Some p /\
    (tenantId (data p) = userId \/ landlordId (data p) = userId) /\
    status p <> paid /\
    stripePaymentIntentId p = Some intentId /\ intentId <> "" /\
    Stripe.paymentIntents_retrieve stripe intentId = Some intent /\
    Stripe.status intent <> "succeeded" /\ Stripe.status intent <> "canceled" /\
    info = {| Reads.info_clientSecret := Stripe.client_secret intent;
              Reads.info_status := Stripe.status intent;
              Reads.info_amount := Stripe.amount intent |} /\
    cs = [Stripe.called_retrieve intentId].
Proof.
  unfold Reads.post_get_intent, PaymentService.getById.
  destruct (JS.truthy_string body_paymentId) eqn:Hbody; [|done].
  apply truthy_string_default in Hbody. cbn [negb].
  destruct (db !! default "" body_paymentId) as [p|] eqn:Hp; [|done].
  destruct (bool_decide (tenantId (data p) <> userId)
            && bool_decide (landlordId (data p) <> userId)) eqn:Hauth; [done|].
  destruct (bool_decide (status p = paid)) eqn:Hpaid; [done|].
  destruct (JS.truthy_string (stripePaymentIntentId p)) eqn:Hint; [|done].
  pose proof Hint as Htruthy.
  apply truthy_string_default in Hint. cbn [negb].
  destruct (Stripe.paymentIntents_retrieve stripe _) as [intent|] eqn:Hret; [|done].
  destruct (bool_decide (Stripe.status intent = "succeeded")) eqn:Hs; [done|].
  destruct (bool_decide (Stripe.status intent = "canceled")) eqn:Hc; [done|].
  intros [= <- <-].
  exists (default "" body_paymentId), p, (default "" (stripePaymentIntentId p)), intent.
  apply bool_decide_eq_false in Hpaid, Hs, Hc.
  apply andb_false_iff in Hauth.
  repeat split; try done.
  - destruct Hauth as [Ha%bool_decide_eq_false|Ha%bool_decide_eq_false];
      [left|right]; by apply dec_stable.
  - clear Hint Hret. by destruct (stripePaymentIntentId p) as [[|]|].
Qed.

Lemma get_intent_answers_only_open_witness :
  let db : Store := {[ "pay-1" := Fixture.charged pending ]} in
  let stripe := Sample.stripe_holding (Fixture.intent "requires_payment_method" []) in
  exists p, db !! "pay-1" = Some p /\ status p <> paid.
Proof.
  intros db stripe.
  destruct (get_intent_answers_only_open stripe "tenant-1" (Some "pay-1") db
              {| Reads.info_clientSecret := "pi_1_secret";
                 Reads.info_status := "requires_payment_method";
                 Reads.info_amount := JS.of_Z 100000 |}
              [Stripe.called_retrieve "pi_1"] eq_refl)
    as (paymentId & p & intentId & intent & [= <-] & Hp & _ & Hst & _).
  by exists p.
Defined.

(** ** Listings *)

Section Listings.
Context `{Firestore.Client}.
Import Firestore OrderedQuery PaymentReads.

#[local] Instance newer_first_total : Total newer_first.
Proof.
  intros [k1 p1] [k2 p2]. unfold newer_first. cbn [fst snd].
  destruct (Z.lt_trichotomy (createdAt p1) (createdAt p2)) as [Hlt|[Heq|Hgt]].
  - right. by left.
  - destruct (String.leb_total k1 k2) as [Hle|Hle].
    + right. right. by split.
    + left. right. by split.
  - left. by left.
Qed.

Lemma newer_first_not_older (d1 d2 : string * Payment) :
  newer_first d1 d2 -> not_older d1 d2.
Proof. unfold newer_first, not_older. lia. Qed.

Lemma Sorted_not_older (l : list (string * Payment)) :
  Sorted newer_first l -> StronglySorted not_older l.
Proof.
  intros Hs. apply Sorted_StronglySorted.
  - intros x y z. unfold not_older. lia.
  - induction Hs as [|x l Hs IH Hhd]; constructor; [done|].
    destruct Hhd; constructor. by apply newer_first_not_older.
Qed.

Lemma NoDup_fst_filter {A B} (f : A * B -> bool) (l : list (A * B)) :
  NoDup (map fst l) -> NoDup (map fst (List.filter f l)).
Proof.
  induction l as [|x l IH]; [done|]. cbn. intros [Hx Hl]%NoDup_cons.
  destruct (f x); cbn; [|by apply IH]. apply NoDup_cons. split; [|by apply IH].
  intros Hin. apply Hx. apply list_elem_of_In, in_map_iff in Hin as (y & Hy & Hin).
  apply filter_In in Hin as [Hin _]. apply list_elem_of_In, in_map_iff. by exists y.
Qed.

(** An ordered query with one equality filter answers with the matching
    documents, each once, newest first. *)
Lemma get_ordered_spec (f : Field) (v : string) (db : Store) :
  exists snap,
    get_ordered [where_eq f (JS.str v)] db = Some snap /\
    (forall k p, (k, p) ∈ snap <-> db !! k = Some p /\ field f p = Some v) /\
    NoDup (map fst snap) /\
    StronglySorted not_older snap.
Proof.
  unfold get_ordered, get. cbn [forallb accepted andb fmap option_fmap option_map].
  eexists. split; [reflexivity|]. unfold order_by_createdAt_desc.
  set (matching := List.filter _ (docs db)).
  assert (merge_sort newer_first matching ≡ₚ matching) as Hperm
    by apply merge_sort_Permutation.
  split; [|split].
  - intros k p. rewrite Hperm. unfold matching.
    rewrite list_elem_of_In, filter_In, <- list_elem_of_In, elem_of_docs.
    cbn. rewrite andb_true_r, bool_decide_eq_true. done.
  - apply NoDup_ListNoDup.
    eapply Permutation_NoDup; [apply Permutation_map; symmetry; exact Hperm|].
    apply NoDup_ListNoDup, NoDup_fst_filter.
    rewrite map_is_fmap.
    apply NoDup_docs.
  - apply Sorted_not_older, Sorted_merge_sort. apply _.
Qed.

Lemma enriched_id_payment (users : Lookup User) (properties : Lookup Property)
    (d : string * Payment) :
  enriched_id (enrichPayment users properties d) = fst d /\
  enriched_payment (enrichPayment users properties d) = snd d.
Proof. unfold enrichPayment. by repeat case_match. Qed.

Lemma enriched_listing (users : Lookup User) (properties : Lookup Property)
    (snap : list (string * Payment)) :
  NoDup (map fst snap) -> StronglySorted not_older snap ->
  let l := enrichPayments users properties snap in
  (forall e, e ∈ l <-> exists k p, (k, p) ∈ snap /\ e = enrichPayment users properties (k, p)) /\
  NoDup (map enriched_id l) /\
  StronglySorted
    (fun e1 e2 => (createdAt (enriched_payment e2) <= createdAt (enriched_payment e1))%Z) l.
Proof.
  intros Hnd Hs. cbn zeta. unfold enrichPayments. split; [|split].
  - intros e. rewrite list_elem_of_In, in_map_iff. split.
    + intros ([k p] & <- & Hin). exists k, p. by rewrite list_elem_of_In.
    + intros (k & p & Hin & ->). exists (k, p). by rewrite <- list_elem_of_In.
  - rewrite map_map. erewrite map_ext; [exact Hnd|].
    intros d. apply enriched_id_payment.
  - induction Hs as [|d l Hs IH Hall]; cbn; constructor.
    + apply IH. by apply NoDup_cons in Hnd as [_ Hnd].
    + apply Forall_forall. intros e Hin.
      apply list_elem_of_In, in_map_iff in Hin as (d' & <- & Hin).
      rewrite Forall_forall in Hall.
      rewrite !(proj2 (enriched_id_payment users properties _)).
      apply Hall. by apply list_elem_of_In.
Qed.

End Listings.

(** X17. [getByTenant], [getByLandlord] and [getByLease] always answer, with
    what [enrichPayment] makes of exactly the stored payments of that
    tenant, landlord or lease, each payment once, ordered so that no
    payment comes before a newer one; [GET /tenant] and [GET /landlord]
    answer the requester with that list of the payments they are tenant or
    landlord of, and never with 500. *)
Theorem listings_newest_first `{Firestore.Client}
    (users : Firestore.Lookup User) (properties : Firestore.Lookup Property)
    (who : string) (db : Store) :
  let listing (result : option (list PaymentReads.EnrichedPayment))
              (mine : Payment -> Prop) :=
    exists l, result = Some l /\
      (forall e, e ∈ l <->
         exists k p, db !! k = Some p /\ mine p /\
           e = PaymentReads.enrichPayment users properties (k, p)) /\
      NoDup (map PaymentReads.enriched_id l) /\
      StronglySorted
        (fun e1 e2 => (createdAt (PaymentReads.enriched_payment e2)
                       <= createdAt (PaymentReads.enriched_payment e1))%Z) l in
  listing (PaymentReads.getByTenant users properties who db)
    (fun p => tenantId (data p) = who) /\
  listing (PaymentReads.getByLandlord users properties who db)
    (fun p => landlordId (data p) = who) /\
  listing (PaymentReads.getByLease users properties who db)
    (fun p => leaseId (data p) = Some who) /\
  Some (Reads.get_tenant users properties who db)
  = Reads.answered <$> PaymentReads.getByTenant users properties who db /\
  Some (Reads.get_landlord users properties who db)
  = Reads.answered <$> PaymentReads.getByLandlord users properties who db.
Proof.
  cbn zeta.
  assert (forall f : Firestore.Field,
            exists l,
              (snap ← OrderedQuery.get_ordered [Firestore.where_eq f (JS.str who)] db;
               Some (PaymentReads.enrichPayments users properties snap)) = Some l /\
              (forall e, e ∈ l <->
                 exists k p, db !! k = Some p /\ Firestore.field f p = Some who /\
                   e = PaymentReads.enrichPayment users properties (k, p)) /\
              NoDup (map PaymentReads.enriched_id l) /\
              StronglySorted
                (fun e1 e2 => (createdAt (PaymentReads.enriched_payment e2)
                               <= createdAt (PaymentReads.enriched_payment e1))%Z) l)
    as Hall.
  { intros f. destruct (get_ordered_spec f who db) as (snap & -> & Hmem & Hnd & Hs).
    destruct (enriched_listing users properties snap Hnd Hs) as (Hmem' & Hnd' & Hs').
    eexists. split; [reflexivity|]. split; [|by split].
    intros e. rewrite Hmem'. split.
    - intros (k & p & Hin & ->). apply Hmem in Hin as [Hkp Hf]. by exists k, p.
    - intros (k & p & Hkp & Hf & ->). exists k, p. split; [|done]. by apply Hmem. }
  split; [|split; [|split; [|split]]].
  - destruct (Hall Firestore.f_tenantId) as (l & Hl & Hmem & Hrest).
    exists l. split; [exact Hl|]. split; [|exact Hrest].
    intros e. rewrite Hmem. split; intros (k & p & Hkp & Hf & He); exists k, p;
      cbn in *; repeat split; congruence.
  - destruct (Hall Firestore.f_landlordId) as (l & Hl & Hmem & Hrest).
    exists l. split; [exact Hl|]. split; [|exact Hrest].
    intros e. rewrite Hmem. split; intros (k & p & Hkp & Hf & He); exists k, p;
      cbn in *; repeat split; congruence.
  - destruct (Hall Firestore.f_leaseId) as (l & Hl & Hmem & Hrest).
    exists l. split; [exact Hl|]. split; [|exact Hrest].
    intros e. by rewrite Hmem.
  - destruct (Hall Firestore.f_tenantId) as (l & Hl & _).
    unfold Reads.get_tenant, PaymentReads.getByTenant. by rewrite Hl.
  - destruct (Hall Firestore.f_landlordId) as (l & Hl & _).
    unfold Reads.get_landlord, PaymentReads.getByLandlord. by rewrite Hl.
Qed.

(** X18. Enrichment keeps the payment and its id as they are, and it is
    all or nothing when a lookup throws: the payment then comes back with
    no field attached, the tenant's included when only the property lookup
    threw. A [tenantName] that is attached is never blank and comes from
    the tenant's user document: its [name] when that is not empty, else
    its [displayName] when that is not empty, else "Unknown Tenant"; it is
    attached whenever that document is found and the property lookup does
    not throw. *)
Theorem enrichment_names (users : Firestore.Lookup User)
    (properties : Firestore.Lookup Property) (k : string) (p : Payment) :
  let e := PaymentReads.enrichPayment users properties (k, p) in
  let tenant := tenantId (data p) in
  let property := propertyId (data p) in
  PaymentReads.enriched_id e = k /\ PaymentReads.enriched_payment e = p /\
  ((tenant <> "" /\ users tenant = None) \/
   (property <> "" /\ properties property = None) ->
   e = PaymentReads.bare (k, p)) /\
  (forall n, PaymentReads.tenantName e = Some n ->
     n <> "" /\
     exists u, users tenant = Some (Some u) /\
       PaymentReads.tenantEmail e = user_email u /\
       (JS.truthy_string (user_name u) = true -> user_name u = Some n) /\
       (JS.truthy_string (user_name u) = false ->
        JS.truthy_string (user_displayName u) = true -> user_displayName u = Some n) /\
       (JS.truthy_string (user_name u) = false ->
        JS.truthy_string (user_displayName u) = false -> n = "Unknown Tenant")) /\
  (forall u, tenant <> "" -> users tenant = Some (Some u) ->
     property = "" \/ is_Some (properties property) ->
     is_Some (PaymentReads.tenantName e)).
Proof.
  cbn zeta.
  destruct (enriched_id_payment users properties (k, p)) as [Hid Hpay].
  split; [done|]. split; [done|].
  unfold PaymentReads.enrichPayment. cbn [fst snd].
  assert (forall s : string, s <> "" -> JS.truthy_string (Some s) = true) as Htruthy
    by (by intros [|]).
  assert (JS.truthy_string (Some "") = false) as Hempty by done.
  split; [|split].
  - intros [[Hne Hthrow]|[Hne Hthrow]].
    + by rewrite (Htruthy _ Hne), Hthrow.
    + rewrite (Htruthy (propertyId (data p)) Hne), Hthrow.
      by destruct (if JS.truthy_string (Some (tenantId (data p))) then _ else _).
  - intros n.
    destruct (tenantId (data p)) as [|c t] eqn:Hten; cbn [JS.truthy_string].
    { cbn [mbind option_bind].
      destruct (if JS.truthy_string (Some (propertyId (data p))) then _ else _);
        cbn; done. }
    destruct (users (String c t)) as [[u|]|] eqn:Hu; cbn [mbind option_bind];
      [| |done].
    2: { destruct (if JS.truthy_string (Some (propertyId (data p))) then _ else _);
           cbn; done. }
    destruct (if JS.truthy_string (Some (propertyId (data p))) then _ else _);
      cbn [mbind option_bind PaymentReads.tenantName PaymentReads.tenantEmail
           PaymentReads.bare]; [|done].
    intros [= <-]. unfold PaymentReads.or_string.
    destruct (user_name u) as [[|c1 n1]|] eqn:Hn;
      destruct (user_displayName u) as [[|c2 n2]|] eqn:Hd;
      cbn; (split; [done|]); exists u; rewrite Hn, Hd; repeat split; try done.
  - intros u Hne Hu Hprop. rewrite (Htruthy _ Hne), Hu. cbn [mbind option_bind].
    destruct Hprop as [-> | [pr Hpr]].
    + rewrite Hempty. cbn. by eexists.
    + destruct (JS.truthy_string (Some (propertyId (data p)))); [rewrite Hpr|];
        cbn; by eexists.
Qed.

Lemma enrichment_names_witness :
  let users := Sample.lookup_in Sample.users in
  let properties := Sample.lookup_in Sample.properties in
  let odd := Sample.payment_for "a/b" in
  PaymentReads.tenantName
    (PaymentReads.enrichPayment users properties ("pay-1", Fixture.payment pending))
  = Some "Ada" /\
  PaymentReads.enrichPayment users properties ("pay-2", odd)
  = PaymentReads.bare ("pay-2", odd).
Proof.
  intros users properties odd. split.
  - destruct (enrichment_names users properties "pay-1" (Fixture.payment pending))
      as (_ & _ & _ & Hname & Hsome).
    assert (is_Some (properties (propertyId (data (Fixture.payment pending)))))
      as Hfound by (by eexists).
    destruct (Hsome _ ltac:(discriminate) eq_refl (or_intror Hfound)) as [n Hn].
    destruct (Hname n Hn) as (_ & u & Hu & _ & _ & Hdisplay & _).
    injection Hu as <-. rewrite Hn. exact (eq_sym (Hdisplay eq_refl eq_refl)).
  - destruct (enrichment_names users properties "pay-2" odd) as (_ & _ & Hbare & _).
    apply Hbare. right. split; [discriminate|reflexivity].
Defined.

(** ** Statistics and existence checks *)

Lemma count_by_status (payments : list Payment) :
  length payments
  = length (List.filter (PaymentService.has_status pending) payments)
    + length (List.filter (PaymentService.has_status paid) payments)
    + length (List.filter (PaymentService.has_status failed) payments)
    + length (List.filter (PaymentService.has_status cancelled) payments).
Proof.
  induction payments as [|p l IH]; [done|]. cbn [List.filter length].
  change (PaymentService.has_status pending p) with (bool_decide (status p = pending)).
  change (PaymentService.has_status paid p) with (bool_decide (status p = paid)).
  change (PaymentService.has_status failed p) with (bool_decide (status p = failed)).
  change (PaymentService.has_status cancelled p)
    with (bool_decide (status p = cancelled)).
  destruct (status p); repeat case_bool_decide; try done; cbn [length]; lia.
Qed.

(** X19. [getLandlordStats] counts the landlord's payments and nobody
    else's: [total] is their number, and it is the sum of the pending, paid
    and failed counts plus the number of cancelled payments, which the
    statistics do not report. *)
Theorem landlord_stats_counts `{Firestore.Client} (landlord : string) (db : Store) :
  exists stats,
    PaymentService.getLandlordStats landlord db = Some stats /\
    PaymentService.total stats = length (payments_of landlord db) /\
    PaymentService.total stats
    = PaymentService.pendingCount stats + PaymentService.paidCount stats
      + PaymentService.failedCount stats
      + length (List.filter (PaymentService.has_status cancelled)
                  (payments_of landlord db)) /\
    (PaymentService.total stats = 0 <->
     ~ exists k p, db !! k = Some p /\ landlordId (data p) = landlord).
Proof.
  unfold PaymentService.getLandlordStats.
  rewrite (landlord_snapshot landlord db). cbn [mbind option_bind].
  pose proof (landlord_docs_payments_of landlord db) as Hperm.
  eexists. split; [reflexivity|].
  cbn [PaymentService.total PaymentService.pendingCount PaymentService.paidCount
       PaymentService.failedCount].
  split; [by rewrite Hperm|].
  split.
  { rewrite (count_by_status (map snd (landlord_docs landlord db))).
    f_equal. apply Permutation_length. by apply filter_Permutation. }
  rewrite Hperm. split.
  - intros Hzero (k & p & Hkp & Hl).
    assert (p ∈ payments_of landlord db) as Hin.
    { apply list_elem_of_In, filter_In. split.
      - apply in_map_iff. exists (k, p). split; [done|].
        by apply list_elem_of_In, elem_of_map_to_list.
      - by apply bool_decide_eq_true. }
    destruct (payments_of landlord db); [by apply elem_of_nil in Hin|done].
  - intros Hnone. destruct (payments_of landlord db) as [|p l] eqn:Hps; [done|].
    exfalso. apply Hnone.
    assert (In p (payments_of landlord db)) as Hin by (rewrite Hps; by left).
    apply filter_In in Hin as [Hin Hl]. apply in_map_iff in Hin as ([k p'] & <- & Hin).
    exists k, p'. split.
    + by apply elem_of_map_to_list, list_elem_of_In.
    + by apply bool_decide_eq_true in Hl.
Qed.

Section Existence.
Context `{Firestore.Client}.
Import Firestore PaymentService.

Lemma existsForPeriod_spec (t pr per : string) (db : Store) :
  exists b, existsForPeriod (JS.str t) (JS.str pr) (JS.str per) db = Some b /\
    (b = true <->
     exists k p, db !! k = Some p /\ tenantId (data p) = t /\
       propertyId (data p) = pr /\ period (data p) = per /\ active p).
Proof.
  unfold existsForPeriod.
  destruct (get_accepted
              [where_eq f_tenantId (JS.str t); where_eq f_propertyId (JS.str pr);
               where_eq f_period (JS.str per); where_status_in [pending; paid]]
              db eq_refl) as [snap Hsnap].
  rewrite Hsnap. cbn [mbind option_bind]. eexists. split; [done|].
  rewrite negb_true_iff, (snapshot_nonempty _ _ _ Hsnap).
  split; intros (k & p & Hkp & Hm); exists k, p; (split; [done|]).
  - cbn in Hm. rewrite !andb_true_iff, !bool_decide_eq_true in Hm.
    destruct Hm as ([= ?] & [= ?] & [= ?] & Hst & _).
    repeat split; try done. unfold active.
    rewrite !elem_of_cons in Hst. destruct Hst as [?|[?|Hnil]]; auto.
    by apply elem_of_nil in Hnil.
  - destruct Hm as (<- & <- & <- & Hact). cbn.
    rewrite !andb_true_iff, !bool_decide_eq_true. repeat split; try done.
    rewrite !elem_of_cons. unfold active in Hact. tauto.
Qed.

End Existence.

(** X20. Called with its three arguments, [existsForPeriod] always answers,
    and answers [true] exactly when a pending or paid payment is stored for
    that tenant, property and period; [hasExistingPayments] does the same
    for tenant and property alone. Failed and cancelled payments count for
    neither, and a payment found for the period is found for the
    property. *)
Theorem existence_checks `{Firestore.Client} (t pr per : string) (db : Store) :
  exists forPeriod existing,
    PaymentService.existsForPeriod (JS.str t) (JS.str pr) (JS.str per) db
    = Some forPeriod /\
    TenantProperty.hasExistingPayments t pr db = Some existing /\
    (forPeriod = true <->
     exists k p, db !! k = Some p /\ tenantId (data p) = t /\
       propertyId (data p) = pr /\ period (data p) = per /\
       (status p = pending \/ status p = paid)) /\
    (existing = true <->
     exists k p, db !! k = Some p /\ tenantId (data p) = t /\
       propertyId (data p) = pr /\ (status p = paid \/ status p = pending)) /\
    (forPeriod = true -> existing = true).
Proof.
  destruct (existsForPeriod_spec t pr per db) as (b1 & Hb1 & Hiff1).
  destruct (hasExistingPayments_spec t pr db) as (b2 & Hb2 & Hiff2).
  exists b1, b2. split; [done|]. split; [done|]. split; [done|]. split; [done|].
  intros (k & p & Hkp & Ht & Hp & _ & Hact)%Hiff1. apply Hiff2.
  exists k, p. unfold active in Hact. tauto.
Qed.

(** ** Syncing twice *)

(** X21. Manual sync is idempotent: a second sync of the same payment by the
    same user, with the processor reporting the same, leaves the collection
    as the first sync left it, whatever the time; and when the first sync
    reported [synced: true], the second reports the same status with
    [synced: false]. *)
Theorem sync_twice (stripe : Stripe.Api) (now1 now2 : Z) (userId paymentId : string)
    (db : Store) :
  let first := Routes.post_sync stripe now1 userId paymentId db in
  let second := Routes.post_sync stripe now2 userId paymentId (store first) in
  store second = store first /\
  (forall msg st, response first = ok (json_sync msg st true) ->
     response second = ok (json_sync "No sync needed" st false)).
Proof.
  cbn zeta. split; [apply sync_idempotent|].
  intros msg st.
  remember (Routes.post_sync stripe now1 userId paymentId db) as r1 eqn:Hr1.
  unfold Routes.post_sync, PaymentService.getById in Hr1.
  destruct (db !! paymentId) as [p|] eqn:Hp; [|by subst r1].
  repeat case_match; subst r1; cbn [response store respond]; try done.
  - intros [= <- <-]. invert_updateStatus q p' Hq Hst.
    rewrite Hp in Hq. injection Hq as <-.
    unfold Routes.post_sync, PaymentService.getById.
    rewrite lookup_insert_eq, Hd, Hi, Hst.
    repeat match goal with Hc : ?c = _ |- context [?c] => rewrite Hc end.
    rewrite (bool_decide_eq_false_2 (paid <> paid)) by auto.
    rewrite (bool_decide_eq_false_2 (paid = pending)) by done.
    by rewrite !andb_false_r.
  - intros [= <- <-]. invert_updateStatus q p' Hq Hst.
    rewrite Hp in Hq. injection Hq as <-.
    unfold Routes.post_sync, PaymentService.getById.
    rewrite lookup_insert_eq, Hd, Hi, Hst.
    match goal with Hc' : bool_decide (Stripe.status _ = "canceled") && _ = true |- _ =>
      apply andb_true_iff in Hc' as [Hcan%bool_decide_eq_true _] end.
    repeat match goal with Hc : ?c = _ |- context [?c] => rewrite Hc end.
    reflexivity.
Qed.
